(** * Selective synchronisation engine: a shallow embedding

    The development follows the Python sources of the product catalogue
    pipeline: the content hash of a product ([models/product.py]), the
    transformers ([transformers/validators.py], [cleaners.py],
    [normalizers.py]), the batch embedder ([embeddings/generator.py]), the
    vector-index loader ([loaders/qdrant_loader.py]) and the two pipelines
    ([pipelines/api_to_postgres.py], [pipelines/postgres_to_qdrant.py]).

    Conventions of the embedding.
    - A Python [str] is the Rocq [string] of its UTF-8 encoding.  With this
      reading [s.encode()] is the identity, concatenation and [join] are
      byte concatenation, the order of [sorted] on strings (code points) is
      the byte-wise lexicographic order, and replacing or searching a
      substring is the same operation on the bytes.
    - Python [int] is [Z]; [Decimal] is a record of sign, coefficient and
      exponent with the special values; binary floating point values are
      outside the value universe.
    - A raised exception is a value of [outcome]; [try ... except Exception]
      is [try_except]. *)

From Stdlib Require Import ZArith Lia Bool Ascii String List DecimalString.
From stdpp Require Import gmap strings list sorting.

Local Open Scope Z_scope.

Set Warnings "-clear-no-such-hyp".

(** ** SHA-256 (FIPS 180-4), as computed by [hashlib.sha256(b).hexdigest()] *)

Module SHA256.

Definition word_mask : Z := 0xFFFFFFFF.

Definition w32 (x : Z) : Z := Z.land x word_mask.

Definition add32 (x y : Z) : Z := w32 (x + y).

Definition rotr (n x : Z) : Z :=
  Z.lor (Z.shiftr x n) (w32 (Z.shiftl x (32 - n))).

Definition Ch (x y z : Z) : Z :=
  Z.lxor (Z.land x y) (Z.land (Z.lxor x word_mask) z).

Definition Maj (x y z : Z) : Z :=
  Z.lxor (Z.lxor (Z.land x y) (Z.land x z)) (Z.land y z).

Definition Sigma0 (x : Z) : Z := Z.lxor (Z.lxor (rotr 2 x) (rotr 13 x)) (rotr 22 x).
Definition Sigma1 (x : Z) : Z := Z.lxor (Z.lxor (rotr 6 x) (rotr 11 x)) (rotr 25 x).
Definition sigma0 (x : Z) : Z := Z.lxor (Z.lxor (rotr 7 x) (rotr 18 x)) (Z.shiftr x 3).
Definition sigma1 (x : Z) : Z := Z.lxor (Z.lxor (rotr 17 x) (rotr 19 x)) (Z.shiftr x 10).

Definition hex_value (c : ascii) : Z :=
  let x := Z.of_N (N_of_ascii c) in
  if x <? 58 then x - 48 else x - 87.

(** The words written in a string of hexadecimal numerals separated by
    spaces. *)
Fixpoint hex_words (s : string) (acc : Z) : list Z :=
  match s with
  | EmptyString => [acc]
  | String c r =>
      if Z.of_N (N_of_ascii c) =? 32 then acc :: hex_words r 0
      else hex_words r (16 * acc + hex_value c)
  end.

(** The round constants: the first 32 bits of the fractional parts of the
    cube roots of the first 64 primes. *)
Definition K : list Z :=
  hex_words
    ("428a2f98 71374491 b5c0fbcf e9b5dba5 3956c25b 59f111f1 923f82a4 ab1c5ed5 " +:+
     "d807aa98 12835b01 243185be 550c7dc3 72be5d74 80deb1fe 9bdc06a7 c19bf174 " +:+
     "e49b69c1 efbe4786 0fc19dc6 240ca1cc 2de92c6f 4a7484aa 5cb0a9dc 76f988da " +:+
     "983e5152 a831c66d b00327c8 bf597fc7 c6e00bf3 d5a79147 06ca6351 14292967 " +:+
     "27b70a85 2e1b2138 4d2c6dfc 53380d13 650a7354 766a0abb 81c2c92e 92722c85 " +:+
     "a2bfe8a1 a81a664b c24b8b70 c76c51a3 d192e819 d6990624 f40e3585 106aa070 " +:+
     "19a4c116 1e376c08 2748774c 34b0bcb5 391c0cb3 4ed8aa4a 5b9cca4f 682e6ff3 " +:+
     "748f82ee 78a5636f 84c87814 8cc70208 90befffa a4506ceb bef9a3f7 c67178f2") 0.

(** The initial hash value: the first 32 bits of the fractional parts of
    the square roots of the first 8 primes. *)
Definition H0 : list Z :=
  hex_words "6a09e667 bb67ae85 3c6ef372 a54ff53a 510e527f 9b05688c 1f83d9ab 5be0cd19" 0.

(** Big-endian bytes of [x], [n] of them. *)
Fixpoint be_bytes (n : nat) (x : Z) : list Z :=
  match n with
  | O => []
  | S n' => Z.land (Z.shiftr x (8 * Z.of_nat n')) 0xFF :: be_bytes n' x
  end.

(** Message padding: a 1 bit, zeros up to 56 mod 64, the bit length on 8 bytes. *)
Definition pad (msg : list Z) : list Z :=
  let len := Z.of_nat (length msg) in
  let zeros := Z.to_nat ((55 - len) mod 64) in
  msg ++ 0x80 :: repeat 0 zeros ++ be_bytes 8 (8 * len).

Fixpoint words_of_bytes (n : nat) (bs : list Z) : list Z :=
  match n with
  | O => []
  | S n' =>
      match bs with
      | b0 :: b1 :: b2 :: b3 :: rest =>
          (Z.shiftl b0 24 + Z.shiftl b1 16 + Z.shiftl b2 8 + b3)
            :: words_of_bytes n' rest
      | _ => []
      end
  end.

(** The message schedule, most recent word first. *)
Fixpoint extend (n : nat) (wrev : list Z) : list Z :=
  match n with
  | O => wrev
  | S n' =>
      let w := add32 (add32 (sigma1 (nth 1 wrev 0)) (nth 6 wrev 0))
                     (add32 (sigma0 (nth 14 wrev 0)) (nth 15 wrev 0)) in
      extend n' (w :: wrev)
  end.

Definition schedule (block : list Z) : list Z :=
  rev (extend 48 (rev (words_of_bytes 16 block))).

Record regs := Regs { ra : Z; rb : Z; rc : Z; rd : Z; re : Z; rf : Z; rg : Z; rh : Z }.

Definition round (s : regs) (kw : Z * Z) : regs :=
  let t1 := add32 (add32 (add32 (rh s) (Sigma1 (re s)))
                         (add32 (Ch (re s) (rf s) (rg s)) (fst kw))) (snd kw) in
  let t2 := add32 (Sigma0 (ra s)) (Maj (ra s) (rb s) (rc s)) in
  Regs (add32 t1 t2) (ra s) (rb s) (rc s) (add32 (rd s) t1) (re s) (rf s) (rg s).

Definition regs_of_list (h : list Z) : regs :=
  Regs (nth 0 h 0) (nth 1 h 0) (nth 2 h 0) (nth 3 h 0)
       (nth 4 h 0) (nth 5 h 0) (nth 6 h 0) (nth 7 h 0).

Definition list_of_regs (s : regs) : list Z :=
  [ra s; rb s; rc s; rd s; re s; rf s; rg s; rh s].

Definition compress (h : list Z) (block : list Z) : list Z :=
  let s := fold_left round (combine K (schedule block)) (regs_of_list h) in
  zip_with add32 h (list_of_regs s).

Fixpoint blocks (n : nat) (bs : list Z) : list (list Z) :=
  match n with
  | O => []
  | S n' => take 64 bs :: blocks n' (drop 64 bs)
  end.

Definition digest (msg : list Z) : list Z :=
  let p := pad msg in
  fold_left compress (blocks (length p / 64) p) H0.

Definition hex_digit (d : Z) : ascii :=
  if d <? 10 then ascii_of_N (Z.to_N (48 + d)) else ascii_of_N (Z.to_N (87 + d)).

Fixpoint hex_of_word (n : nat) (x : Z) : string :=
  match n with
  | O => EmptyString
  | S n' => String (hex_digit (Z.land (Z.shiftr x (4 * Z.of_nat n')) 0xF))
                   (hex_of_word n' x)
  end.

Definition bytes_of_string (s : string) : list Z :=
  map (fun c => Z.of_N (N_of_ascii c)) (list_ascii_of_string s).

Definition hexdigest (s : string) : string :=
  fold_right (fun w acc => hex_of_word 8 w +:+ acc) EmptyString
             (digest (bytes_of_string s)).

End SHA256.

(** ** Python [str] operations on UTF-8 strings *)

Module Str.

Definition code (c : ascii) : Z := Z.of_N (N_of_ascii c).

Definition chr (z : Z) : ascii := ascii_of_N (Z.to_N z).

Fixpoint rev_onto (s acc : string) : string :=
  match s with
  | EmptyString => acc
  | String c r => rev_onto r (String c acc)
  end.

Definition rev (s : string) : string := rev_onto s EmptyString.

(** [s.startswith(p)] *)
Fixpoint startswith (p s : string) : bool :=
  match p, s with
  | EmptyString, _ => true
  | String x p', String y s' => (code x =? code y) && startswith p' s'
  | String _ _, EmptyString => false
  end.

(** [sub in s] *)
Fixpoint contains (sub s : string) : bool :=
  startswith sub s ||
  match s with
  | EmptyString => false
  | String _ r => contains sub r
  end.

(** Index of the last occurrence of [sub] starting at or after position
    [i] of the original string ([s] is the suffix from [i]). *)
Fixpoint rfind_from (sub s : string) (i : Z) : option Z :=
  match s with
  | EmptyString => if startswith sub s then Some i else None
  | String _ r =>
      match rfind_from sub r (i + 1) with
      | Some j => Some j
      | None => if startswith sub s then Some i else None
      end
  end.

(** [s.rindex(sub)]; [None] stands for the [ValueError] of a missing
    substring.  The index counts bytes of the encoding; it is only ever
    compared with another index of the same string, and byte and code
    point positions are ordered alike. *)
Definition rindex (sub s : string) : option Z := rfind_from sub s 0.

(** [s.replace(old, new)] for a non-empty [old]: occurrences are found left
    to right and do not overlap; [skip] counts the bytes of an occurrence
    still to be dropped. *)
Fixpoint replace_go (old new : string) (skip : nat) (s : string) : string :=
  match s with
  | EmptyString => EmptyString
  | String c r =>
      match skip with
      | S k => replace_go old new k r
      | O =>
          if startswith old s
          then new +:+ replace_go old new (String.length old - 1) r
          else String c (replace_go old new O r)
      end
  end.

Definition replace (old new s : string) : string := replace_go old new O s.

(** [sep.join(parts)] *)
Fixpoint join (sep : string) (parts : list string) : string :=
  match parts with
  | [] => EmptyString
  | [p] => p
  | p :: rest => p +:+ sep +:+ join sep rest
  end.

(** Characters for which [str.isspace()] holds, by their encodings:
    U+0009..U+000D, U+001C..U+0020 on one byte; U+0085 and U+00A0 on two;
    U+1680, U+2000..U+200A, U+2028, U+2029, U+202F, U+205F, U+3000 on
    three. *)
Definition space1 (a : ascii) : bool :=
  let x := code a in ((9 <=? x) && (x <=? 13)) || ((28 <=? x) && (x <=? 32)).

Definition space2 (a b : ascii) : bool :=
  (code a =? 0xC2) && ((code b =? 0x85) || (code b =? 0xA0)).

Definition space3 (a b c : ascii) : bool :=
  let x := code a in let y := code b in let z := code c in
  ((x =? 0xE1) && (y =? 0x9A) && (z =? 0x80))
  || ((x =? 0xE2) && (y =? 0x80)
      && (((0x80 <=? z) && (z <=? 0x8A)) || (z =? 0xA8) || (z =? 0xA9) || (z =? 0xAF)))
  || ((x =? 0xE2) && (y =? 0x81) && (z =? 0x9F))
  || ((x =? 0xE3) && (y =? 0x80) && (z =? 0x80)).

(** [s.lstrip()] *)
Fixpoint lstrip (s : string) : string :=
  match s with
  | EmptyString => s
  | String a r1 =>
      if space1 a then lstrip r1
      else
        match r1 with
        | EmptyString => s
        | String b r2 =>
            if space2 a b then lstrip r2
            else
              match r2 with
              | EmptyString => s
              | String c r3 => if space3 a b c then lstrip r3 else s
              end
        end
  end.

(** [lstrip] of the reversed string: encodings are read last byte first. *)
Fixpoint lstrip_rev (s : string) : string :=
  match s with
  | EmptyString => s
  | String a r1 =>
      if space1 a then lstrip_rev r1
      else
        match r1 with
        | EmptyString => s
        | String b r2 =>
            if space2 b a then lstrip_rev r2
            else
              match r2 with
              | EmptyString => s
              | String c r3 => if space3 c b a then lstrip_rev r3 else s
              end
        end
  end.

Definition rstrip (s : string) : string := rev (lstrip_rev (rev s)).

(** [s.strip()] *)
Definition strip (s : string) : string := rstrip (lstrip s).

Definition is_empty (s : string) : bool :=
  match s with EmptyString => true | _ => false end.

(** [len(s)]: the number of code points, that is of bytes that are not
    continuation bytes [10xxxxxx]. *)
Fixpoint len (s : string) : Z :=
  match s with
  | EmptyString => 0
  | String c r =>
      (if (0x80 <=? code c) && (code c <? 0xC0) then 0 else 1) + len r
  end.

(** Removal of every occurrence of one ASCII character. *)
Fixpoint remove_char (x : ascii) (s : string) : string :=
  match s with
  | EmptyString => EmptyString
  | String c r => if code c =? code x then remove_char x r
                  else String c (remove_char x r)
  end.

End Str.


(** ** Exceptions *)

(** The exception classes the modelled code can meet.  They all derive from
    [Exception], so a handler for [Exception] catches each of them. *)
Inductive exn :=
| TypeError
| ValueError
| AttributeError
| OverflowError
| InvalidOperation        (* decimal.InvalidOperation *)
| DecimalOverflow         (* decimal.Overflow *)
| ExternalError (msg : string).  (* raised by an external collaborator *)

Inductive outcome (A : Type) :=
| Ok (a : A)
| Raise (e : exn).

Arguments Ok {A} a.
Arguments Raise {A} e.

Definition bind {A B : Type} (m : outcome A) (k : A -> outcome B) : outcome B :=
  match m with
  | Ok a => k a
  | Raise e => Raise e
  end.

Notation "'let*' x ':=' m 'in' k" := (bind m (fun x => k))
  (at level 10, x pattern, m at level 100, k at level 200).

(** [try: body except Exception as e: handler(e)] *)
Definition try_except {A : Type} (body : outcome A) (handler : exn -> outcome A) : outcome A :=
  match body with
  | Ok a => Ok a
  | Raise e => handler e
  end.

(** [try: body except (c1, c2, ...) as e: handler(e)]: only the listed
    classes are caught. *)
Definition try_except_of {A : Type} (caught : exn -> bool) (body : outcome A)
    (handler : exn -> outcome A) : outcome A :=
  match body with
  | Ok a => Ok a
  | Raise e => if caught e then handler e else Raise e
  end.

Definition is_ok {A : Type} (m : outcome A) : bool :=
  match m with Ok _ => true | Raise _ => false end.

(** [outcome] mapped over a list, stopping at the first exception. *)
Fixpoint mapM {A B : Type} (f : A -> outcome B) (l : list A) : outcome (list B) :=
  match l with
  | [] => Ok []
  | x :: r => let* y := f x in let* ys := mapM f r in Ok (y :: ys)
  end.

(** ** [decimal.Decimal] under the default context *)

Module Dec.

(** A finite number is [(-1)^neg * coeff * 10^exp] with [0 <= coeff]. *)
Inductive decimal :=
| DFin (neg : bool) (coeff : Z) (exp : Z)
| DInf (neg : bool)
| DNaN.

(** The default context: 28 digits, exponents within [-999999, 999999],
    traps on InvalidOperation, DivisionByZero and Overflow. *)
Definition prec : Z := 28.
Definition Emax : Z := 999999.
Definition Emin : Z := -999999.
Definition Etiny : Z := Emin - prec + 1.
Definition Etop : Z := Emax - prec + 1.

(** [len(self._int)]: the number of decimal digits of the coefficient. *)
Definition ndigits (c : Z) : Z :=
  Z.of_nat (Decimal.nb_digits (N.to_uint (Z.to_N c))).

(** [self.adjusted()] *)
Definition adjusted (c e : Z) : Z := e + ndigits c - 1.

Definition is_digit (c : ascii) : bool := (48 <=? Str.code c) && (Str.code c <=? 57).

(** The leading ASCII digits of [s], as a number with their count, and
    what follows them. *)
Fixpoint take_digits (s : string) (acc : Z) (n : Z) : Z * Z * string :=
  match s with
  | String c r =>
      if is_digit c then take_digits r (10 * acc + (Str.code c - 48)) (n + 1)
      else (acc, n, s)
  | EmptyString => (acc, n, s)
  end.

Definition lower_ascii (c : ascii) : ascii :=
  if (65 <=? Str.code c) && (Str.code c <=? 90) then Str.chr (Str.code c + 32) else c.

Fixpoint lower_ascii_str (s : string) : string :=
  match s with
  | EmptyString => EmptyString
  | String c r => String (lower_ascii c) (lower_ascii_str r)
  end.

Definition take_sign (s : string) : bool * string :=
  match s with
  | String c r =>
      if Str.code c =? 45 then (true, r)
      else if Str.code c =? 43 then (false, r)
      else (false, s)
  | EmptyString => (false, s)
  end.

(** The optional exponent part [E[+-]digits] followed by the end of the
    string. *)
Definition parse_exp (s : string) : option Z :=
  match s with
  | EmptyString => Some 0
  | String c r =>
      if (Str.code c =? 69) || (Str.code c =? 101) then
        let '(neg, r1) := take_sign r in
        let '(v, n, r2) := take_digits r1 0 0 in
        if (0 <? n) && Str.is_empty r2 then Some (if neg then - v else v) else None
      else None
  end.

(** The numeric part: digits with an optional point and at least one
    digit, then an optional exponent. *)
Definition parse_number (neg : bool) (s : string) : option decimal :=
  let '(ip, ni, r1) := take_digits s 0 0 in
  match r1 with
  | String c r2 =>
      if Str.code c =? 46 then
        let '(v, nf, r3) := take_digits r2 ip 0 in
        if 0 <? ni + nf then
          match parse_exp r3 with
          | Some e => Some (DFin neg v (e - nf))
          | None => None
          end
        else None
      else
        if 0 <? ni then
          match parse_exp r1 with
          | Some e => Some (DFin neg ip e)
          | None => None
          end
        else None
  | EmptyString => if 0 <? ni then Some (DFin neg ip 0) else None
  end.

(** [NaN] or [sNaN] followed by diagnostic digits only. *)
Definition parse_nan (s : string) : bool :=
  let body :=
    if Str.startswith "snan" s then Some (String.substring 4 (String.length s - 4) s)
    else if Str.startswith "nan" s then Some (String.substring 3 (String.length s - 3) s)
    else None in
  match body with
  | Some d => let '(_, _, r) := take_digits d 0 0 in Str.is_empty r
  | None => false
  end.

(** [Decimal(s)] for a string: surrounding whitespace is stripped and
    underscores are removed; [None] stands for the [InvalidOperation] of a
    string that is not a numeric string.  Digits are the ASCII digits. *)
Definition of_string (s : string) : option decimal :=
  let t := Str.remove_char "_"%char (Str.strip s) in
  let '(neg, body) := take_sign t in
  let low := lower_ascii_str body in
  if String.eqb low "inf" || String.eqb low "infinity" then Some (DInf neg)
  else if parse_nan low then Some DNaN
  else parse_number neg body.

(** The rational order on finite numbers, through a common exponent. *)
Definition signed (neg : bool) (c : Z) : Z := if neg then - c else c.

Definition compare_fin (n1 : bool) (c1 e1 : Z) (n2 : bool) (c2 e2 : Z) : comparison :=
  let m := Z.min e1 e2 in
  Z.compare (signed n1 c1 * 10 ^ (e1 - m)) (signed n2 c2 * 10 ^ (e2 - m)).

(** [a < b] and [a <= b]; an ordering comparison involving a NaN signals
    InvalidOperation, which the default context traps. *)
Definition compare (a b : decimal) : outcome comparison :=
  match a, b with
  | DNaN, _ | _, DNaN => Raise InvalidOperation
  | DInf n1, DInf n2 =>
      Ok (if n1 then (if n2 then Eq else Lt) else (if n2 then Gt else Eq))
  | DInf n1, DFin _ _ _ => Ok (if n1 then Lt else Gt)
  | DFin _ _ _, DInf n2 => Ok (if n2 then Gt else Lt)
  | DFin n1 c1 e1, DFin n2 c2 e2 => Ok (compare_fin n1 c1 e1 n2 c2 e2)
  end.

Definition lt (a b : decimal) : outcome bool :=
  let* c := compare a b in Ok (match c with Lt => true | _ => false end).

Definition le (a b : decimal) : outcome bool :=
  let* c := compare a b in Ok (match c with Gt => false | _ => true end).

Definition of_Z (z : Z) : decimal := DFin (z <? 0) (Z.abs z) 0.

(** Rounding of [c * 10^e] to the exponent [e' > e]: quotient and
    remainder by [10^(e' - e)]. *)
Definition round_half_even (c shift : Z) : Z :=
  let p := 10 ^ shift in
  let q := c / p in
  let r := c mod p in
  if (p <? 2 * r) || ((p =? 2 * r) && Z.odd q) then q + 1 else q.

Definition round_half_up (c shift : Z) : Z :=
  let p := 10 ^ shift in
  let q := c / p in
  let r := c mod p in
  if p <=? 2 * r then q + 1 else q.

(** [self._fix(context)] on a finite number. *)
Definition fix_fin (neg : bool) (c e : Z) : outcome decimal :=
  if c =? 0 then
    Ok (DFin neg 0 (Z.min (Z.max e Etiny) Emax))
  else
    let exp_min0 := ndigits c + e - prec in
    if Etop <? exp_min0 then Raise DecimalOverflow
    else
      let exp_min := Z.max exp_min0 Etiny in
      if e <? exp_min then
        let q := round_half_even c (exp_min - e) in
        let '(q', exp') :=
          if prec <? ndigits q then (q / 10, exp_min + 1) else (q, exp_min) in
        if Etop <? exp' then Raise DecimalOverflow
        else Ok (DFin neg q' exp')
      else Ok (DFin neg c e).

(** [a * b] *)
Definition mul (a b : decimal) : outcome decimal :=
  match a, b with
  | DNaN, _ | _, DNaN => Ok DNaN
  | DInf n1, DInf n2 => Ok (DInf (xorb n1 n2))
  | DInf n1, DFin n2 c _ | DFin n2 c _, DInf n1 =>
      if c =? 0 then Raise InvalidOperation else Ok (DInf (xorb n1 n2))
  | DFin n1 c1 e1, DFin n2 c2 e2 => fix_fin (xorb n1 n2) (c1 * c2) (e1 + e2)
  end.

(** [a + b]: the exact sum at the smaller exponent, then rounded by the
    context; a zero sum is negative only when both operands are. *)
Definition add (a b : decimal) : outcome decimal :=
  match a, b with
  | DNaN, _ | _, DNaN => Ok DNaN
  | DInf n1, DInf n2 => if Bool.eqb n1 n2 then Ok (DInf n1) else Raise InvalidOperation
  | DInf n, DFin _ _ _ | DFin _ _ _, DInf n => Ok (DInf n)
  | DFin n1 c1 e1, DFin n2 c2 e2 =>
      let m := Z.min e1 e2 in
      let s := signed n1 c1 * 10 ^ (e1 - m) + signed n2 c2 * 10 ^ (e2 - m) in
      fix_fin (if s =? 0 then n1 && n2 else s <? 0) (Z.abs s) m
  end.

(** [self._rescale(e', ROUND_HALF_UP)] *)
Definition rescale_half_up (c e e' : Z) : Z :=
  if e' <=? e then c * 10 ^ (e - e') else round_half_up c (e' - e).

(** [a.quantize(Decimal(10) ** e', rounding=ROUND_HALF_UP)] for a finite
    second operand of exponent [e']. *)
Definition quantize_half_up (a : decimal) (e' : Z) : outcome decimal :=
  match a with
  | DNaN => Ok DNaN
  | DInf _ => Raise InvalidOperation
  | DFin neg c e =>
      if negb ((Etiny <=? e') && (e' <=? Emax)) then Raise InvalidOperation
      else if c =? 0 then fix_fin neg 0 e'
      else if Emax <? adjusted c e then Raise InvalidOperation
      else if prec <? adjusted c e - e' + 1 then Raise InvalidOperation
      else
        let q := rescale_half_up c e e' in
        if Emax <? adjusted q e' then Raise InvalidOperation
        else if prec <? ndigits q then Raise InvalidOperation
        else fix_fin neg q e'
  end.

(** [int(d)]: truncation towards zero. *)
Definition to_int (d : decimal) : outcome Z :=
  match d with
  | DNaN => Raise ValueError
  | DInf _ => Raise OverflowError
  | DFin neg c e =>
      Ok (signed neg (if 0 <=? e then c * 10 ^ e else c / 10 ^ (- e)))
  end.

(** [bool(d)] *)
Definition truthy (d : decimal) : bool :=
  match d with
  | DFin _ c _ => negb (c =? 0)
  | _ => true
  end.

(** Numeric equality [a == b]; a NaN equals nothing. *)
Definition eqb (a b : decimal) : bool :=
  match a, b with
  | DFin n1 c1 e1, DFin n2 c2 e2 =>
      match compare_fin n1 c1 e1 n2 c2 e2 with Eq => true | _ => false end
  | DInf n1, DInf n2 => Bool.eqb n1 n2
  | _, _ => false
  end.

Definition digits_of_Z (z : Z) : string :=
  DecimalString.NilZero.string_of_uint (N.to_uint (Z.to_N z)).

(** [str(d)]: the scientific string of the specification. *)
Definition to_string (d : decimal) : string :=
  match d with
  | DNaN => "NaN"
  | DInf neg => (if neg then "-" else "") +:+ "Infinity"
  | DFin neg c e =>
      let ds := digits_of_Z c in
      let n := ndigits c in
      let leftdigits := e + n in
      let dotplace := if (e <=? 0) && (-6 <? leftdigits) then leftdigits else 1 in
      let intpart :=
        if dotplace <=? 0 then "0"
        else if n <=? dotplace
             then ds +:+ String.string_of_list_ascii (repeat "0"%char (Z.to_nat (dotplace - n)))
             else String.substring 0 (Z.to_nat dotplace) ds in
      let fracpart :=
        if dotplace <=? 0
        then "." +:+ String.string_of_list_ascii (repeat "0"%char (Z.to_nat (- dotplace))) +:+ ds
        else if n <=? dotplace then ""
             else "." +:+ String.substring (Z.to_nat dotplace) (Z.to_nat (n - dotplace)) ds in
      let expo :=
        if leftdigits =? dotplace then ""
        else "E" +:+ (if 0 <=? leftdigits - dotplace then "+" else "-")
                 +:+ digits_of_Z (Z.abs (leftdigits - dotplace)) in
      (if neg then "-" else "") +:+ intpart +:+ fracpart +:+ expo
  end.

End Dec.

(** ** Dictionaries with string keys *)

Module Dict.

(** The items of a [dict], in insertion order. *)
Abbreviation t V := (list (string * V)) (only parsing).

Section Ops.
Context {V : Type}.

(** [d.get(k)] *)
Fixpoint get (k : string) (d : t V) : option V :=
  match d with
  | [] => None
  | (k', v) :: r => if String.eqb k' k then Some v else get k r
  end.

(** [k in d] *)
Definition mem (k : string) (d : t V) : bool :=
  match get k d with Some _ => true | None => false end.

(** [d[k] = v]: an existing key keeps its position, a new one goes last. *)
Fixpoint set (k : string) (v : V) (d : t V) : t V :=
  match d with
  | [] => [(k, v)]
  | (k', v') :: r => if String.eqb k' k then (k', v) :: r else (k', v') :: set k v r
  end.

(** [{**a, **b}], also [a.update(b)] *)
Definition union (a b : t V) : t V :=
  fold_left (fun acc kv => set (fst kv) (snd kv) acc) b a.

Definition keys (d : t V) : list string := map fst d.

End Ops.

End Dict.

(** ** Python values *)

Module Py.

(** The values a record decoded from JSON, or produced by the
    transformers, can hold.  A [dict] keeps its items in insertion order;
    its keys are strings. *)
#[warnings="-register-all"]
Inductive value :=
| VNone
| VBool (b : bool)
| VInt (z : Z)
| VStr (s : string)
| VDec (d : Dec.decimal)
| VList (l : list value)
| VDict (kv : list (string * value)).

Abbreviation dict := (list (string * value)) (only parsing).

(** [d.get(k)] where a missing key and a stored [None] both read [None]. *)
Definition get_or_none (k : string) (d : dict) : value :=
  match Dict.get k d with Some v => v | None => VNone end.

Definition is_none (v : value) : bool :=
  match v with VNone => true | _ => false end.

Definition is_str (v : value) : bool :=
  match v with VStr _ => true | _ => false end.

(** [bool(v)] *)
Definition truthy (v : value) : bool :=
  match v with
  | VNone => false
  | VBool b => b
  | VInt z => negb (z =? 0)
  | VStr s => negb (Str.is_empty s)
  | VDec d => Dec.truthy d
  | VList l => match l with [] => false | _ => true end
  | VDict kv => match kv with [] => false | _ => true end
  end.

Definition str_of_Z (z : Z) : string :=
  (if z <? 0 then "-" else "") +:+ Dec.digits_of_Z (Z.abs z).

Definition hex2 (x : Z) : string :=
  String (SHA256.hex_digit (x / 16)) (String (SHA256.hex_digit (x mod 16)) EmptyString).

(** The body of [repr(s)] between the quotes: the quote in use, the
    backslash and the ASCII control characters are escaped.  Characters
    outside ASCII are taken to be printable. *)
Fixpoint repr_body (quote : ascii) (s : string) : string :=
  match s with
  | EmptyString => EmptyString
  | String c r =>
      let x := Str.code c in
      (if (x =? Str.code quote) || (x =? 92) then String "\"%char (String c EmptyString)
       else if x =? 10 then "\n"
       else if x =? 13 then "\r"
       else if x =? 9 then "\t"
       else if (x <? 32) || (x =? 127) then "\x" +:+ hex2 x
       else String c EmptyString) +:+ repr_body quote r
  end.

(** [repr(s)] of a string: single quotes, unless the string holds a
    single quote and no double quote. *)
Definition repr_str (s : string) : string :=
  let dq := Str.chr 34 in
  let sq := Str.chr 39 in
  let q := if Str.contains (String sq EmptyString) s
              && negb (Str.contains (String dq EmptyString) s) then dq else sq in
  String q (repr_body q s) +:+ String q EmptyString.

(** [repr(v)] *)
Fixpoint repr (v : value) : string :=
  match v with
  | VNone => "None"
  | VBool b => if b then "True" else "False"
  | VInt z => str_of_Z z
  | VStr s => repr_str s
  | VDec d => "Decimal('" +:+ Dec.to_string d +:+ "')"
  | VList l => "[" +:+ Str.join ", " (map repr l) +:+ "]"
  | VDict kv =>
      "{" +:+ Str.join ", " (map (fun p => repr_str (fst p) +:+ ": " +:+ repr (snd p)) kv)
          +:+ "}"
  end.

(** [str(v)] *)
Definition str (v : value) : string :=
  match v with
  | VStr s => s
  | VDec d => Dec.to_string d
  | _ => repr v
  end.

(** The digits of an integer literal: single underscores may separate
    digits. *)
Fixpoint int_digits (s : string) (acc : Z) (after_digit : bool) : option Z :=
  match s with
  | EmptyString => if after_digit then Some acc else None
  | String c r =>
      if Dec.is_digit c then int_digits r (10 * acc + (Str.code c - 48)) true
      else if (Str.code c =? 95) && after_digit then int_digits r acc false
      else None
  end.

(** [int(s)] for a string in base 10; [None] is the [ValueError]. *)
Definition int_of_string (s : string) : option Z :=
  let '(neg, body) := Dec.take_sign (Str.strip s) in
  match int_digits body 0 false with
  | Some n => Some (if neg then - n else n)
  | None => None
  end.

(** [int(v)] *)
Definition int (v : value) : outcome Z :=
  match v with
  | VInt z => Ok z
  | VBool b => Ok (if b then 1 else 0)
  | VStr s => match int_of_string s with Some z => Ok z | None => Raise ValueError end
  | VDec d => Dec.to_int d
  | VNone | VList _ | VDict _ => Raise TypeError
  end.

(** [Decimal(str(v))]; a string that is no numeric string raises
    InvalidOperation. *)
Definition decimal_of_str (v : value) : outcome Dec.decimal :=
  match Dec.of_string (str v) with
  | Some d => Ok d
  | None => Raise InvalidOperation
  end.

(** [a + b] *)
Definition add (a b : value) : outcome value :=
  let as_int (v : value) : option Z :=
    match v with
    | VInt z => Some z
    | VBool b => Some (if b then 1 else 0)
    | _ => None
    end in
  match a, b with
  | VStr s, VStr t => Ok (VStr (s +:+ t))
  | VList l, VList m => Ok (VList (l ++ m))
  | VDec d, VDec d' => let* r := Dec.add d d' in Ok (VDec r)
  | VDec d, _ =>
      match as_int b with
      | Some z => let* r := Dec.add d (Dec.of_Z z) in Ok (VDec r)
      | None => Raise TypeError
      end
  | _, VDec d =>
      match as_int a with
      | Some z => let* r := Dec.add (Dec.of_Z z) d in Ok (VDec r)
      | None => Raise TypeError
      end
  | _, _ =>
      match as_int a, as_int b with
      | Some x, Some y => Ok (VInt (x + y))
      | _, _ => Raise TypeError
      end
  end.

(** Equality of two hashable values used as dictionary keys: numbers
    compare by value across [bool], [int] and [Decimal]; a NaN equals
    nothing. *)
Definition key_eqb (a b : value) : bool :=
  let as_dec (v : value) : option Dec.decimal :=
    match v with
    | VInt z => Some (Dec.of_Z z)
    | VBool b => Some (Dec.of_Z (if b then 1 else 0))
    | VDec d => Some d
    | _ => None
    end in
  match a, b with
  | VStr s, VStr t => String.eqb s t
  | VNone, VNone => true
  | _, _ =>
      match as_dec a, as_dec b with
      | Some x, Some y => Dec.eqb x y
      | _, _ => false
      end
  end.

(** [hash(v)] succeeds: lists and dictionaries are unhashable. *)
Definition hashable (v : value) : bool :=
  match v with
  | VList _ | VDict _ => false
  | _ => true
  end.

End Py.

(** ** [models/product.py] *)

(** A binary64 value, by its bit pattern.  The modelled code only stores and
    forwards such values. *)
Definition float64 : Type := Z.

(** A row of the [products] table ([ProductDB]); the columns [raw_data],
    [created_at] and [updated_at] play no part in what follows. *)
Record ProductDB := {
  id : string;
  sku : string;
  name : string;
  description : option string;
  category : string;
  price : Dec.decimal;
  stock : Z;
  unit_ : string;
  attributes : Py.dict;
  text_hash : option string
}.

(** [sorted(d.items())]: the keys of a dictionary are distinct, so the order
    of the pairs is the order of their keys. *)
Fixpoint insert_item (kv : string * Py.value) (l : list (string * Py.value))
    : list (string * Py.value) :=
  match l with
  | [] => [kv]
  | kv' :: r =>
      if String.leb (fst kv) (fst kv') then kv :: l else kv' :: insert_item kv r
  end.

Definition sorted_items (d : Py.dict) : list (string * Py.value) :=
  fold_right insert_item [] d.

(** [f"{k}:{v}" for k, v in items if isinstance(v, str)] *)
Fixpoint str_attr_parts (items : list (string * Py.value)) : list string :=
  match items with
  | [] => []
  | (k, Py.VStr v) :: r => (k +:+ ":" +:+ v) :: str_attr_parts r
  | _ :: r => str_attr_parts r
  end.

(** [self.description or ''] *)
Definition description_or_empty (p : ProductDB) : string :=
  match description p with
  | Some d => d
  | None => ""
  end.

(** The text that [compute_text_hash] digests. *)
Definition text_content (p : ProductDB) : string :=
  let base := name p +:+ "|" +:+ description_or_empty p +:+ "|" +:+ category p in
  match attributes p with
  | [] => base
  | _ :: _ => base +:+ "|" +:+ Str.join "|" (str_attr_parts (sorted_items (attributes p)))
  end.

(** [ProductDB.compute_text_hash] *)
Definition compute_text_hash (p : ProductDB) : string :=
  SHA256.hexdigest (text_content p).

(** [ProductEmbedding] *)
Record ProductEmbedding := {
  emb_id : string;
  emb_vector : list float64;
  emb_sku : string;
  emb_product_id : string;
  emb_category : string;
  emb_price : Dec.decimal;
  emb_stock : Z;
  emb_text : string;
  emb_text_hash : string
}.

(** ** [embeddings/generator.py] *)

Module EmbeddingGenerator.

(** The text of one attribute in [build_embedding_text]: a non-blank
    string, or a list with at least one truthy element. *)
Definition attr_text (kv : string * Py.value) : option string :=
  match snd kv with
  | Py.VStr v =>
      if Str.is_empty (Str.strip v) then None else Some (fst kv +:+ ": " +:+ v)
  | Py.VList l =>
      match map Py.str (filter (fun v => Py.truthy v) l) with
      | [] => None
      | str_values => Some (fst kv +:+ ": " +:+ Str.join ", " str_values)
      end
  | _ => None
  end.

Definition build_embedding_text (product : ProductDB) : string :=
  let parts := ["Producto: " +:+ name product; "Categoría: " +:+ category product] in
  let parts :=
    match description product with
    | Some d => if Str.is_empty d then parts else parts ++ ["Descripción: " +:+ d]
    | None => parts
    end in
  let parts :=
    if negb (Str.is_empty (unit_ product)) && negb (String.eqb (unit_ product) "unidad")
    then parts ++ ["Unidad: " +:+ unit_ product] else parts in
  let parts :=
    match omap attr_text (attributes product) with
    | [] => parts
    | text_attrs => parts ++ ["Características: " +:+ Str.join "; " text_attrs]
    end in
  Str.join ". " parts.

(** [range(0, n, step)] for a positive [step]. *)
Definition range_step (n step : nat) : list nat :=
  map (fun k => k * step)%nat (seq 0 ((n + step - 1) / step)).

(** [zip(batch, embeddings, texts)] mapped to the records built in the
    loop: it stops with the shortest of the three. *)
Fixpoint zip_records (batch : list ProductDB) (embeddings : list (list float64))
    (texts : list string) : list ProductEmbedding :=
  match batch, embeddings, texts with
  | product :: batch', vector :: embeddings', text :: texts' =>
      {| emb_id := "product-" +:+ id product;
         emb_vector := vector;
         emb_sku := sku product;
         emb_product_id := id product;
         emb_category := category product;
         emb_price := price product;
         emb_stock := stock product;
         emb_text := text;
         emb_text_hash := compute_text_hash product |}
        :: zip_records batch' embeddings' texts'
  | _, _, _ => []
  end.

Section Batch.

(** [_call_voyage_api]: the embedding provider.  The call for the
    [k]-th chunk returns one vector per text or raises; the provider is
    outside the program, so its answers are a parameter. *)
Variable call_voyage_api : nat -> list string -> outcome (list (list float64)).

(** [products[i : i + batch_size]] *)
Definition batch_at (products : list ProductDB) (batch_size i : nat) : list ProductDB :=
  take batch_size (drop i products).

(** One turn of the loop: the records appended for the chunk that
    starts at [i].  An exception of the call is logged and the loop goes
    on with the next chunk. *)
Definition chunk_records (products : list ProductDB) (batch_size i : nat)
    : list ProductEmbedding :=
  let batch := batch_at products batch_size i in
  let texts := map build_embedding_text batch in
  match try_except
          (let* embeddings := call_voyage_api (i / batch_size) texts in
           Ok (zip_records batch embeddings texts))
          (fun _ => Ok [])
  with
  | Ok rs => rs
  | Raise _ => []
  end.

(** [generate_embeddings_batch]: [range] raises ValueError on a zero
    step and is empty on a negative one. *)
Definition generate_embeddings_batch (batch_size : Z) (products : list ProductDB)
    : outcome (list ProductEmbedding) :=
  if batch_size =? 0 then Raise ValueError
  else if batch_size <? 0 then Ok []
  else
    let bs := Z.to_nat batch_size in
    Ok (flat_map (chunk_records products bs) (range_step (length products) bs)).

End Batch.

(** [should_regenerate] *)
Definition should_regenerate (product : ProductDB) (existing_hash : option string) : bool :=
  match existing_hash with
  | None => true
  | Some h => negb (String.eqb (compute_text_hash product) h)
  end.

End EmbeddingGenerator.

(** ** Effects: state of the outside world, and exceptions *)

(** A computation that may change the world (the stores and services the
    program talks to) and either returns a value or raises. *)
Definition M (W A : Type) : Type := W -> outcome A * W.

Definition ret {W A : Type} (a : A) : M W A := fun w => (Ok a, w).

Definition raise {W A : Type} (e : exn) : M W A := fun w => (Raise e, w).

Definition bindM {W A B : Type} (m : M W A) (k : A -> M W B) : M W B :=
  fun w =>
    match m w with
    | (Ok a, w') => k a w'
    | (Raise e, w') => (Raise e, w')
    end.

Declare Scope monad_scope.
Delimit Scope monad_scope with monad.

Notation "x <- m ;; k" := (bindM m (fun x => k))
  (at level 100, m at next level, right associativity) : monad_scope.
Notation "m ;; k" := (bindM m (fun _ => k))
  (at level 100, right associativity) : monad_scope.

Local Open Scope monad_scope.

(** [try: body except Exception as e: handler(e)] *)
Definition tryM {W A : Type} (body : M W A) (handler : exn -> M W A) : M W A :=
  fun w =>
    match body w with
    | (Ok a, w') => (Ok a, w')
    | (Raise e, w') => handler e w'
    end.

(** [async with cm: body]: [__aexit__] runs however the body ends and does
    not swallow the exception of the body; an exception of [__aexit__]
    itself replaces the outcome. *)
Definition with_ctx {W A : Type} (aenter : M W unit) (aexit : M W unit) (body : M W A)
    : M W A :=
  aenter ;;
  fun w =>
    match body w with
    | (r, w') =>
        match aexit w' with
        | (Ok _, w'') => (r, w'')
        | (Raise e, w'') => (Raise e, w'')
        end
    end.

(** A pure computation that may raise, run inside [M]. *)
Definition lift {W A : Type} (o : outcome A) : M W A := fun w => (o, w).

(** [for x in l: body(x)], threading an accumulator; an exception ends the loop. *)
Fixpoint foldM {W A S : Type} (body : S -> A -> M W S) (l : list A) (s : S) : M W S :=
  match l with
  | [] => ret s
  | x :: r => s' <- body s x ;; foldM body r s'
  end.

(** ** [loaders/qdrant_loader.py] *)

Module Qdrant.

Local Open Scope monad_scope.

(** The scalar values of a point's payload. *)
Inductive jvalue :=
| JNull
| JBool (b : bool)
| JInt (z : Z)
| JFloat (f : float64)
| JStr (s : string).

Definition is_null (v : jvalue) : bool :=
  match v with JNull => true | _ => false end.

(** [bool(v)]; the zeros of binary64 are the patterns [0] and [2^63]. *)
Definition truthy (v : jvalue) : bool :=
  match v with
  | JNull => false
  | JBool b => b
  | JInt z => negb (z =? 0)
  | JFloat f => negb ((f =? 0) || (f =? 2 ^ 63))
  | JStr s => negb (Str.is_empty s)
  end.

(** A stored point. *)
Record point := {
  pt_id : string;
  pt_vector : list float64;
  pt_payload : Dict.t jvalue
}.

(** A point as [scroll] returns it with [with_vectors=False]. *)
Record scrolled := {
  sc_id : string;
  sc_payload : option (Dict.t jvalue)
}.

(** The operations of [AsyncQdrantClient] the loader uses.  The page
    token of [scroll] is opaque to the loader. *)
Record client (W : Type) := {
  set_payload : Dict.t jvalue -> list jvalue -> M W unit;
  scroll : Z -> option nat -> list string -> M W (list scrolled * option nat);
  delete_where_sku : string -> M W unit;
  upsert : list point -> M W unit
}.

Arguments set_payload {W} _ _ _.
Arguments scroll {W} _ _ _ _.
Arguments delete_where_sku {W} _ _.
Arguments upsert {W} _ _.

Section Loader.
Context {W : Type}.
Variable c : client W.

(** The [payload_update] that [update_metadata] builds. *)
Definition payload_update (price stock : jvalue) : Dict.t jvalue :=
  let payload := [] in
  let payload := if is_null price then payload else Dict.set "price" price payload in
  let payload := if is_null stock then payload else Dict.set "stock" stock payload in
  payload.

(** [QdrantLoader.update_metadata]; an absent argument is [JNull]. *)
Definition update_metadata (point_id : string) (price stock : jvalue) : M W unit :=
  if is_null price && is_null stock then ret tt
  else set_payload c (payload_update price stock) [JStr point_id].

(** The [payload] that one turn of [update_metadata_batch] builds. *)
Definition batch_payload (update : Dict.t jvalue) : Dict.t jvalue :=
  let payload := [] in
  let payload :=
    match Dict.get "price" update with
    | Some v => Dict.set "price" v payload
    | None => payload
    end in
  let payload :=
    match Dict.get "stock" update with
    | Some v => Dict.set "stock" v payload
    | None => payload
    end in
  payload.

Definition get_or_null (k : string) (d : Dict.t jvalue) : jvalue :=
  match Dict.get k d with Some v => v | None => JNull end.

Definition update_metadata_step (updated : Z) (update : Dict.t jvalue) : M W Z :=
  let point_id := get_or_null "point_id" update in
  if negb (truthy point_id) then ret updated
  else
    match batch_payload update with
    | [] => ret updated
    | payload => set_payload c payload [point_id] ;; ret (updated + 1)
    end.

(** [QdrantLoader.update_metadata_batch] *)
Definition update_metadata_batch (updates : list (Dict.t jvalue)) : M W Z :=
  foldM update_metadata_step updates 0.

(** The body of the loop over one page of [get_existing_hashes].  The
    result is a [dict[str, str]]: the fields [sku] and [text_hash] are
    strings, as [upsert_batch] writes them. *)
Definition add_hash (hashes : gmap string string) (pt : scrolled) : gmap string string :=
  match sc_payload pt with
  | Some ((_ :: _) as payload) =>
      match get_or_null "sku" payload, get_or_null "text_hash" payload with
      | JStr sku, JStr text_hash =>
          if negb (Str.is_empty sku) && negb (Str.is_empty text_hash)
          then <[sku := text_hash]> hashes else hashes
      | _, _ => hashes
      end
  | _ => hashes
  end.

(** The [while True] loop of [get_existing_hashes]; [None] when [fuel]
    turns of the loop did not reach the last page. *)
Fixpoint scroll_loop (fuel : nat) (offset : option nat) (hashes : gmap string string)
    : M W (option (gmap string string)) :=
  match fuel with
  | O => ret None
  | S fuel' =>
      page <- scroll c 100 offset ["sku"; "text_hash"] ;;
      let '(results, offset') := page in
      let hashes' := fold_left add_hash results hashes in
      match offset' with
      | None => ret (Some hashes')
      | Some _ => scroll_loop fuel' offset' hashes'
      end
  end.

(** [QdrantLoader.get_existing_hashes] *)
Definition get_existing_hashes (fuel : nat) : M W (option (gmap string string)) :=
  scroll_loop fuel None ∅.

(** [QdrantLoader.delete_by_sku] *)
Definition delete_by_sku (sku : string) : M W bool :=
  delete_where_sku c sku ;; ret true.

(** The [PointStruct] built for one embedding; [to_float] is
    [float(emb.price)]. *)
Definition point_of (to_float : Dec.decimal -> float64) (emb : ProductEmbedding) : point :=
  {| pt_id := emb_id emb;
     pt_vector := emb_vector emb;
     pt_payload :=
       [ ("sku", JStr (emb_sku emb));
         ("product_id", JStr (emb_product_id emb));
         ("category", JStr (emb_category emb));
         ("price", JFloat (to_float (emb_price emb)));
         ("stock", JInt (emb_stock emb));
         ("text", JStr (emb_text emb));
         ("text_hash", JStr (emb_text_hash emb)) ] |}.

(** [QdrantLoader.upsert_batch] *)
Definition upsert_batch (to_float : Dec.decimal -> float64)
    (embeddings : list ProductEmbedding) (batch_size : Z) : M W Z :=
  if batch_size =? 0 then raise ValueError
  else if batch_size <? 0 then ret 0
  else
    let bs := Z.to_nat batch_size in
    foldM (fun processed i =>
             let batch := take bs (drop i embeddings) in
             upsert c (map (point_of to_float) batch) ;;
             ret (processed + Z.of_nat (length batch)))
          (EmbeddingGenerator.range_step (length embeddings) bs) 0.

End Loader.

(** *** The index held in memory *)

(** [set_payload]: the given keys are written on the selected points;
    other keys, the vector and other points are left as they are. *)
Definition mem_set_payload (payload : Dict.t jvalue) (ids : list jvalue)
    : M (list point) unit :=
  fun pts =>
    (Ok tt,
     map (fun pt =>
            if existsb (fun i => match i with
                                 | JStr s => String.eqb s (pt_id pt)
                                 | _ => false
                                 end) ids
            then {| pt_id := pt_id pt; pt_vector := pt_vector pt;
                    pt_payload := Dict.union (pt_payload pt) payload |}
            else pt) pts).

Definition restrict (fields : list string) (payload : Dict.t jvalue) : Dict.t jvalue :=
  filter (fun kv => bool_decide (fst kv ∈ fields)) payload.

(** [scroll]: a page of at most [limit] points from the position
    [offset], and the position of the next page if points remain. *)
Definition mem_scroll (limit : Z) (offset : option nat) (fields : list string)
    : M (list point) (list scrolled * option nat) :=
  fun pts =>
    let start := default O offset in
    let n := Z.to_nat limit in
    let page := take n (drop start pts) in
    let next := if (start + n <? length pts)%nat then Some (start + n)%nat else None in
    (Ok (map (fun pt => {| sc_id := pt_id pt;
                           sc_payload := Some (restrict fields (pt_payload pt)) |}) page,
         next), pts).

Definition has_sku (sku : string) (pt : point) : bool :=
  match Dict.get "sku" (pt_payload pt) with
  | Some (JStr s) => String.eqb s sku
  | _ => false
  end.

(** [delete] with a filter on the payload field [sku]. *)
Definition mem_delete_where_sku (sku : string) : M (list point) unit :=
  fun pts => (Ok tt, filter (fun pt => negb (has_sku sku pt)) pts).

(** [upsert]: a point replaces the stored point of the same id, or is
    added. *)
Fixpoint put_point (pt : point) (pts : list point) : list point :=
  match pts with
  | [] => [pt]
  | pt' :: r => if String.eqb (pt_id pt') (pt_id pt) then pt :: r else pt' :: put_point pt r
  end.

Definition mem_upsert (new : list point) : M (list point) unit :=
  fun pts => (Ok tt, fold_left (fun acc pt => put_point pt acc) new pts).

Definition mem_client : client (list point) :=
  {| set_payload := mem_set_payload;
     scroll := mem_scroll;
     delete_where_sku := mem_delete_where_sku;
     upsert := mem_upsert |}.

(** [get_existing_hashes] on the index in memory: the loop ends within
    one turn per stored point, and one more. *)
Definition mem_get_existing_hashes : M (list point) (gmap string string) :=
  fun pts =>
    match get_existing_hashes mem_client (S (length pts)) pts with
    | (Ok (Some hashes), pts') => (Ok hashes, pts')
    | (Ok None, pts') => (Raise (ExternalError "scroll did not end"), pts')
    | (Raise e, pts') => (Raise e, pts')
    end.

End Qdrant.

(** ** [transformers/validators.py] *)

Module Validator.

(** The messages of the validator.  An f-string is kept as its template
    with the values it interpolates. *)
Inductive message :=
| MissingField (field_name : string)
| InvalidType (field_name : string) (received : string)
| EmptySku
| SkuTooLong (n : Z)
| EmptyName
| NameTooLong (n max : Z)
| InvalidPrice (price : Py.value)
| PriceNotPositive (price_decimal : Dec.decimal)
| PriceTooLow (price_decimal min : Dec.decimal)
| InvalidStock (stock : Py.value)
| NegativeStock (stock_int : Z)
| ZeroStock
| DescriptionTooLong (n max : Z).

Record ValidationError := {
  field : string;
  message_ : message;
  value : Py.value
}.

Record ValidationResult := {
  is_valid : bool;
  errors : list ValidationError;
  warnings : list ValidationError
}.

Definition add_error (result : ValidationResult) (f : string) (m : message)
    (v : Py.value) : ValidationResult :=
  {| is_valid := false;
     errors := errors result ++ [{| field := f; message_ := m; value := v |}];
     warnings := warnings result |}.

Definition add_warning (result : ValidationResult) (f : string) (m : message)
    (v : Py.value) : ValidationResult :=
  {| is_valid := is_valid result;
     errors := errors result;
     warnings := warnings result ++ [{| field := f; message_ := m; value := v |}] |}.

(** The classes named in [REQUIRED_FIELDS]; [bool] is a subclass of
    [int]. *)
Inductive pytype := TStr | TInt | TFloat | TDecimal.

Definition isinstance (v : Py.value) (t : pytype) : bool :=
  match t, v with
  | TStr, Py.VStr _ => true
  | TInt, Py.VInt _ => true
  | TInt, Py.VBool _ => true
  | TDecimal, Py.VDec _ => true
  | _, _ => false
  end.

(** [type(v).__name__] *)
Definition type_name (v : Py.value) : string :=
  match v with
  | Py.VNone => "NoneType"
  | Py.VBool _ => "bool"
  | Py.VInt _ => "int"
  | Py.VStr _ => "str"
  | Py.VDec _ => "Decimal"
  | Py.VList _ => "list"
  | Py.VDict _ => "dict"
  end.

Definition REQUIRED_FIELDS : list (string * list pytype) :=
  [ ("sku", [TStr]);
    ("name", [TStr]);
    ("category", [TStr]);
    ("price", [TInt; TFloat; TDecimal; TStr]);
    ("stock", [TInt; TStr]) ].

(** The settings of a [ProductValidator]. *)
Record config := {
  require_positive_stock : bool;
  min_price : Dec.decimal;
  max_name_length : Z;
  max_description_length : Z
}.

Definition default_config : config :=
  {| require_positive_stock := false;
     min_price := Dec.DFin false 1 (-2);
     max_name_length := 500;
     max_description_length := 5000 |}.

Section Rules.
Variable self : config.

Definition check_required (data : Py.dict) (result : ValidationResult)
    (entry : string * list pytype) : ValidationResult :=
  let '(field_name, expected_types) := entry in
  let v := Py.get_or_none field_name data in
  if Py.is_none v then add_error result field_name (MissingField field_name) Py.VNone
  else if existsb (isinstance v) expected_types then result
  else add_error result field_name (InvalidType field_name (type_name v)) v.

Definition _validate_required_fields (data : Py.dict) (result : ValidationResult)
    : ValidationResult :=
  fold_left (check_required data) REQUIRED_FIELDS result.

Definition _validate_sku (sku : Py.value) (result : ValidationResult) : ValidationResult :=
  if Py.is_none sku then result
  else
    let sku_str := Str.strip (Py.str sku) in
    if Str.is_empty sku_str then add_error result "sku" EmptySku Py.VNone
    else if 100 <? Str.len sku_str
         then add_error result "sku" (SkuTooLong (Str.len sku_str)) Py.VNone
         else result.

Definition _validate_name (name : Py.value) (result : ValidationResult) : ValidationResult :=
  if Py.is_none name then result
  else
    let name_str := Str.strip (Py.str name) in
    if Str.is_empty name_str then add_error result "name" EmptyName Py.VNone
    else if max_name_length self <? Str.len name_str
         then add_warning result "name"
                (NameTooLong (Str.len name_str) (max_name_length self)) Py.VNone
         else result.

(** The comparisons with [0] and with [min_price] are outside the
    [try]: what they raise leaves the method. *)
Definition _validate_price (price : Py.value) (result : ValidationResult)
    : outcome ValidationResult :=
  if Py.is_none price then Ok result
  else
    match Py.decimal_of_str price with
    | Raise e =>
        match e with
        | InvalidOperation | ValueError =>
            Ok (add_error result "price" (InvalidPrice price) price)
        | _ => Raise e
        end
    | Ok price_decimal =>
        let* nonpositive := Dec.le price_decimal (Dec.of_Z 0) in
        if nonpositive
        then Ok (add_error result "price" (PriceNotPositive price_decimal) Py.VNone)
        else
          let* low := Dec.lt price_decimal (min_price self) in
          if low
          then Ok (add_warning result "price"
                     (PriceTooLow price_decimal (min_price self)) Py.VNone)
          else Ok result
    end.

Definition _validate_stock (stock : Py.value) (result : ValidationResult)
    : outcome ValidationResult :=
  if Py.is_none stock then Ok result
  else
    match Py.int stock with
    | Raise e =>
        match e with
        | ValueError | TypeError =>
            Ok (add_error result "stock" (InvalidStock stock) stock)
        | _ => Raise e
        end
    | Ok stock_int =>
        if stock_int <? 0
        then Ok (add_error result "stock" (NegativeStock stock_int) Py.VNone)
        else if require_positive_stock self && (stock_int =? 0)
             then Ok (add_warning result "stock" ZeroStock Py.VNone)
             else Ok result
    end.

Definition _validate_description (description : Py.value) (result : ValidationResult)
    : ValidationResult :=
  if Py.is_none description then result
  else
    let desc_str := Str.strip (Py.str description) in
    if max_description_length self <? Str.len desc_str
    then add_warning result "description"
           (DescriptionTooLong (Str.len desc_str) (max_description_length self)) Py.VNone
    else result.

(** [ProductValidator.validate] *)
Definition validate (data : Py.dict) : outcome ValidationResult :=
  let result := {| is_valid := true; errors := []; warnings := [] |} in
  let result := _validate_required_fields data result in
  if negb (is_valid result) then Ok result
  else
    let result := _validate_sku (Py.get_or_none "sku" data) result in
    let result := _validate_name (Py.get_or_none "name" data) result in
    let* result := _validate_price (Py.get_or_none "price" data) result in
    let* result := _validate_stock (Py.get_or_none "stock" data) result in
    Ok (_validate_description (Py.get_or_none "description" data) result).

Definition validate_batch_step (skip_invalid : bool)
    (acc : list Py.dict * list (Py.dict * ValidationResult)) (product : Py.dict)
    : outcome (list Py.dict * list (Py.dict * ValidationResult)) :=
  let '(valid_products, invalid_products) := acc in
  let* result := validate product in
  if is_valid result then Ok (valid_products ++ [product], invalid_products)
  else
    Ok (if skip_invalid then valid_products else valid_products ++ [product],
        invalid_products ++ [(product, result)]).

Fixpoint validate_batch_loop (skip_invalid : bool) (products : list Py.dict)
    (acc : list Py.dict * list (Py.dict * ValidationResult))
    : outcome (list Py.dict * list (Py.dict * ValidationResult)) :=
  match products with
  | [] => Ok acc
  | product :: rest =>
      let* acc' := validate_batch_step skip_invalid acc product in
      validate_batch_loop skip_invalid rest acc'
  end.

(** [ProductValidator.validate_batch] *)
Definition validate_batch (products : list Py.dict) (skip_invalid : bool)
    : outcome (list Py.dict * list (Py.dict * ValidationResult)) :=
  validate_batch_loop skip_invalid products ([], []).

End Rules.

End Validator.

(** ** [transformers/cleaners.py] *)

Module TextCleaner.

(** What the cleaner takes from the Unicode character database: the NFKC
    normal form, the case mappings, and the characters that [\w] matches
    (the alphanumeric ones and the underscore).  These tables belong to
    the Python runtime. *)
Record unicode := {
  nfkc : string -> string;
  lower : string -> string;
  upper : string -> string;
  is_word : string -> bool
}.

(** The characters of a string, each by its encoding: the first byte
    gives the length of a sequence. *)
Fixpoint chars (s : string) : list string :=
  match s with
  | EmptyString => []
  | String a r1 =>
      let x := Str.code a in
      if x <? 0xC0 then String a EmptyString :: chars r1
      else
        match r1 with
        | EmptyString => [String a EmptyString]
        | String b r2 =>
            if x <? 0xE0 then String a (String b EmptyString) :: chars r2
            else
              match r2 with
              | EmptyString => [String a (String b EmptyString)]
              | String c r3 =>
                  if x <? 0xF0 then String a (String b (String c EmptyString)) :: chars r3
                  else
                    match r3 with
                    | EmptyString => [String a (String b (String c EmptyString))]
                    | String d r4 =>
                        String a (String b (String c (String d EmptyString))) :: chars r4
                    end
              end
        end
  end.

Definition concat (l : list string) : string :=
  fold_right String.append EmptyString l.

(** Whether [\s] matches the character. *)
Definition is_space (ch : string) : bool :=
  match ch with
  | String a EmptyString => Str.space1 a
  | String a (String b EmptyString) => Str.space2 a b
  | String a (String b (String c EmptyString)) => Str.space3 a b c
  | _ => false
  end.

(** The characters listed in [SPECIAL_CHARS_PATTERN] besides [\w] and
    [\s]. *)
Definition allowed_punctuation : list string :=
  [ "-"; "."; ","; ";"; ":"; "("; ")"; String (Str.chr 34) EmptyString; "'";
    "á"; "é"; "í"; "ó"; "ú"; "ñ"; "Á"; "É"; "Í"; "Ó"; "Ú"; "Ñ"; "ü"; "Ü";
    "/"; "&"; "%"; "$"; "#"; "@"; "!"; "¿"; "?"; "¡" ].

Definition UNIT_MAPPING : list (string * string) :=
  [
    ("kg", "kg"); ("kgs", "kg"); ("KG", "kg"); ("Kg", "kg"); ("kilogramo", "kg");
    ("kilogramos", "kg"); ("kilo", "kg"); ("kilos", "kg"); ("g", "g"); ("gr", "g");
    ("grs", "g"); ("gramo", "g"); ("gramos", "g"); ("mg", "mg"); ("miligramo", "mg");
    ("miligramos", "mg"); ("lb", "lb"); ("lbs", "lb"); ("libra", "lb");
    ("libras", "lb"); ("oz", "oz"); ("onza", "oz"); ("onzas", "oz"); ("l", "l");
    ("lt", "l"); ("lts", "l"); ("litro", "l"); ("litros", "l"); ("ml", "ml");
    ("mililitro", "ml"); ("mililitros", "ml"); ("gal", "gal"); ("galon", "gal");
    ("galones", "gal"); ("m", "m"); ("mt", "m"); ("mts", "m"); ("metro", "m");
    ("metros", "m"); ("cm", "cm"); ("centimetro", "cm"); ("centimetros", "cm");
    ("mm", "mm"); ("milimetro", "mm"); ("milimetros", "mm"); ("in", "in");
    ("inch", "in"); ("pulgada", "in"); ("pulgadas", "in"); ("ft", "ft");
    ("pie", "ft"); ("pies", "ft"); ("u", "unidad"); ("un", "unidad");
    ("und", "unidad"); ("unid", "unidad"); ("unidad", "unidad");
    ("unidades", "unidad"); ("pz", "pieza"); ("pza", "pieza"); ("pieza", "pieza");
    ("piezas", "pieza"); ("par", "par"); ("pares", "par"); ("docena", "docena");
    ("doc", "docena"); ("caja", "caja"); ("cajas", "caja"); ("paquete", "paquete");
    ("paq", "paquete"); ("pack", "paquete")
  ].

(** The settings of a [TextCleaner]. *)
Record config := {
  normalize_unicode : bool;
  remove_special_chars : bool;
  normalize_whitespace : bool
}.

Definition default_config : config :=
  {| normalize_unicode := true; remove_special_chars := true; normalize_whitespace := true |}.

Section Cleaner.
Variable u : unicode.
Variable self : config.

(** [SPECIAL_CHARS_PATTERN.sub("", text)] *)
Definition remove_special (text : string) : string :=
  concat (filter (fun ch => is_word u ch || is_space ch
                            || existsb (String.eqb ch) allowed_punctuation)
                 (chars text)).

(** [MULTIPLE_SPACES_PATTERN.sub(" ", text)]: each run of white space
    becomes one space. *)
Fixpoint collapse_spaces (cs : list string) (in_run : bool) : list string :=
  match cs with
  | [] => []
  | ch :: r =>
      if is_space ch
      then (if in_run then collapse_spaces r true else " " :: collapse_spaces r true)
      else ch :: collapse_spaces r false
  end.

Definition normalize_spaces (text : string) : string :=
  concat (collapse_spaces (chars text) false).

(** [clean_text]; the result [None] is Python's [None]. *)
Definition clean_text (text : Py.value) : option string :=
  if Py.is_none text then None
  else
    let text := Str.strip (Py.str text) in
    if Str.is_empty text then None
    else
      let text := if normalize_unicode self then nfkc u text else text in
      let text := if remove_special_chars self then remove_special text else text in
      let text := if normalize_whitespace self then normalize_spaces text else text in
      if Str.is_empty text then None else Some (Str.strip text).

(** The first key of the table that occurs in [unit_clean]. *)
Fixpoint partial_match (table : list (string * string)) (unit_clean : string)
    : option string :=
  match table with
  | [] => None
  | (key, v) :: r =>
      if Str.contains key unit_clean then Some v else partial_match r unit_clean
  end.

(** [clean_unit] *)
Definition clean_unit (unit : Py.value) : string :=
  if Py.is_none unit then "unidad"
  else
    let unit_clean := lower u (Str.strip (Py.str unit)) in
    if Str.is_empty unit_clean then "unidad"
    else
      match Dict.get unit_clean UNIT_MAPPING with
      | Some normalized => normalized
      | None =>
          match partial_match UNIT_MAPPING unit_clean with
          | Some v => v
          | None => unit_clean
          end
      end.

(** [clean_sku]: [re.sub(r"[^\w\-]", "", ...)] keeps the word characters
    and the hyphen. *)
Definition clean_sku (sku : Py.value) : option string :=
  if Py.is_none sku then None
  else
    let sku_clean :=
      concat (filter (fun ch => is_word u ch || String.eqb ch "-")
                     (chars (upper u (Str.strip (Py.str sku))))) in
    if Str.is_empty sku_clean then None else Some sku_clean.

(** [x or ""] for the result of [clean_text]. *)
Definition or_empty (o : option string) : Py.value :=
  match o with
  | Some s => Py.VStr s
  | None => Py.VStr ""
  end.

Definition opt_value (o : option string) : Py.value :=
  match o with
  | Some s => Py.VStr s
  | None => Py.VNone
  end.

Definition clean_attribute (cleaned_attrs : Py.dict) (kv : string * Py.value) : Py.dict :=
  let '(key, v) := kv in
  match clean_text (Py.VStr key) with
  | None => cleaned_attrs
  | Some clean_key =>
      if Str.is_empty clean_key then cleaned_attrs
      else
        match v with
        | Py.VStr _ =>
            match clean_text v with
            | Some clean_value =>
                if Str.is_empty clean_value then cleaned_attrs
                else Dict.set clean_key (Py.VStr clean_value) cleaned_attrs
            | None => cleaned_attrs
            end
        | _ => Dict.set clean_key v cleaned_attrs
        end
  end.

(** [_clean_attributes] *)
Definition _clean_attributes (attributes : Py.dict) : Py.dict :=
  fold_left clean_attribute attributes [].

(** An assignment [cleaned[k] = f(cleaned[k])] under [if k in cleaned]. *)
Definition update_if_present (k : string) (f : Py.value -> Py.value) (d : Py.dict)
    : Py.dict :=
  match Dict.get k d with
  | Some v => Dict.set k (f v) d
  | None => d
  end.

(** [clean_product] *)
Definition clean_product (product : Py.dict) : Py.dict :=
  let cleaned := product in
  let cleaned := update_if_present "name" (fun v => or_empty (clean_text v)) cleaned in
  let cleaned := update_if_present "description" (fun v => opt_value (clean_text v)) cleaned in
  let cleaned := update_if_present "category" (fun v => or_empty (clean_text v)) cleaned in
  let cleaned :=
    update_if_present "sku"
      (fun v => match clean_sku v with
                | Some s => Py.VStr s
                | None => v
                end) cleaned in
  let cleaned := update_if_present "unit" (fun v => Py.VStr (clean_unit v)) cleaned in
  let cleaned :=
    update_if_present "attributes"
      (fun v => match v with
                | Py.VDict attrs => Py.VDict (_clean_attributes attrs)
                | _ => v
                end) cleaned in
  cleaned.

End Cleaner.

(** The loop of [clean_batch], over a [clean_product] that may raise: the
    handler logs the exception and appends the record as it came. *)
Fixpoint clean_batch_with (clean : Py.dict -> outcome Py.dict) (products : list Py.dict)
    : outcome (list Py.dict) :=
  match products with
  | [] => Ok []
  | product :: rest =>
      let* cleaned := try_except (clean product) (fun _ => Ok product) in
      let* cleaned_rest := clean_batch_with clean rest in
      Ok (cleaned :: cleaned_rest)
  end.

(** [TextCleaner.clean_batch] *)
Definition clean_batch (u : unicode) (self : config) (products : list Py.dict)
    : outcome (list Py.dict) :=
  clean_batch_with (fun product => Ok (clean_product u self product)) products.

End TextCleaner.

(** ** [transformers/normalizers.py] *)

Module ProductNormalizer.

Definition DEFAULT_CATEGORY_MAPPING : list (string * string) :=
  [
    ("camisa", "camisas"); ("camisas", "camisas"); ("shirt", "camisas");
    ("shirts", "camisas"); ("remera", "camisetas"); ("remeras", "camisetas");
    ("camiseta", "camisetas"); ("camisetas", "camisetas"); ("t-shirt", "camisetas");
    ("t-shirts", "camisetas"); ("tshirt", "camisetas"); ("pantalon", "pantalones");
    ("pantalones", "pantalones"); ("pants", "pantalones"); ("jeans", "pantalones");
    ("jean", "pantalones"); ("short", "shorts"); ("shorts", "shorts");
    ("bermuda", "shorts"); ("bermudas", "shorts"); ("vestido", "vestidos");
    ("vestidos", "vestidos"); ("dress", "vestidos"); ("dresses", "vestidos");
    ("falda", "faldas"); ("faldas", "faldas"); ("skirt", "faldas");
    ("skirts", "faldas"); ("chaqueta", "chaquetas"); ("chaquetas", "chaquetas");
    ("jacket", "chaquetas"); ("jackets", "chaquetas"); ("abrigo", "abrigos");
    ("abrigos", "abrigos"); ("coat", "abrigos"); ("coats", "abrigos");
    ("zapato", "zapatos"); ("zapatos", "zapatos"); ("shoe", "zapatos");
    ("shoes", "zapatos"); ("zapatilla", "zapatillas"); ("zapatillas", "zapatillas");
    ("sneaker", "zapatillas"); ("sneakers", "zapatillas"); ("tenis", "zapatillas");
    ("bota", "botas"); ("botas", "botas"); ("boot", "botas"); ("boots", "botas");
    ("sandalia", "sandalias"); ("sandalias", "sandalias"); ("sandal", "sandalias");
    ("sandals", "sandalias"); ("accesorio", "accesorios");
    ("accesorios", "accesorios"); ("accessory", "accesorios");
    ("accessories", "accesorios"); ("bolso", "bolsos"); ("bolsos", "bolsos");
    ("bag", "bolsos"); ("bags", "bolsos"); ("cartera", "carteras");
    ("carteras", "carteras"); ("purse", "carteras"); ("wallet", "billeteras");
    ("billetera", "billeteras"); ("billeteras", "billeteras");
    ("cinturon", "cinturones"); ("cinturones", "cinturones"); ("belt", "cinturones");
    ("belts", "cinturones"); ("gorra", "gorras"); ("gorras", "gorras");
    ("cap", "gorras"); ("caps", "gorras"); ("sombrero", "sombreros");
    ("sombreros", "sombreros"); ("hat", "sombreros"); ("hats", "sombreros");
    ("otro", "otros"); ("otros", "otros"); ("other", "otros"); ("misc", "otros");
    ("varios", "otros")
  ].

(** The attributes of a [ProductNormalizer] after [__init__]. *)
Record config := {
  category_mapping : list (string * string);
  default_category : string;
  price_decimals : Z;
  price_multiplier : Dec.decimal;
  duplicate_strategy : string
}.

Definition default_config : config :=
  {| category_mapping := DEFAULT_CATEGORY_MAPPING;
     default_category := "otros";
     price_decimals := 2;
     price_multiplier := Dec.DFin false 1 0;
     duplicate_strategy := "keep_latest" |}.

Definition with_strategy (strategy : string) : config :=
  {| category_mapping := DEFAULT_CATEGORY_MAPPING;
     default_category := "otros";
     price_decimals := 2;
     price_multiplier := Dec.DFin false 1 0;
     duplicate_strategy := strategy |}.

(** The dictionary [seen] of [handle_duplicates]: keys in the order of
    their first insertion. *)
Definition seen_t : Type := list (Py.value * Py.dict).

Fixpoint seen_get (k : Py.value) (seen : seen_t) : option Py.dict :=
  match seen with
  | [] => None
  | (k', v) :: r => if Py.key_eqb k' k then Some v else seen_get k r
  end.

Fixpoint seen_set (k : Py.value) (v : Py.dict) (seen : seen_t) : seen_t :=
  match seen with
  | [] => [(k, v)]
  | (k', v') :: r =>
      if Py.key_eqb k' k then (k', v) :: r else (k', v') :: seen_set k v r
  end.

Section Normalizer.
Variable self : config.

(** [normalize_category]; [lower] is [str.lower]. *)
Definition normalize_category (lower : string -> string) (category : Py.value) : string :=
  if negb (Py.truthy category) then default_category self
  else
    let category_lower := lower (Str.strip (Py.str category)) in
    match Dict.get category_lower (category_mapping self) with
    | Some v => v
    | None =>
        match TextCleaner.partial_match (category_mapping self) category_lower with
        | Some v => v
        | None => default_category self
        end
    end.

(** The cleaning of a price given as a string, before it is parsed. *)
Definition clean_price_string (price : string) : string :=
  let price := Str.replace "$" "" price in
  let price := Str.replace "€" "" price in
  let price := Str.replace "£" "" price in
  let price := Str.replace "," "" price in
  let price := Str.replace " " "" price in
  let price := Str.strip price in
  if Str.contains "," price && Str.contains "." price then
    match Str.rindex "," price, Str.rindex "." price with
    | Some i, Some j =>
        if j <? i then Str.replace "," "." (Str.replace "." "" price) else price
    | _, _ => price
    end
  else price.

(** [Decimal(quantize_str)] with [quantize_str = "0." + "0" * n] has the
    exponent [-n], and [0] when [n] is negative. *)
Definition quantum_exp : Z := - Z.max 0 (price_decimals self).

(** [normalize_price] *)
Definition normalize_price (price : Py.value) : outcome Dec.decimal :=
  if Py.is_none price then Ok (Dec.DFin false 0 0)
  else
    let price :=
      match price with
      | Py.VStr s => Py.VStr (clean_price_string s)
      | _ => price
      end in
    match try_except (let* d := Py.decimal_of_str price in Ok (Some d))
                     (fun _ => Ok None) with
    | Ok (Some price_decimal) =>
        let* price_decimal := Dec.mul price_decimal (price_multiplier self) in
        Dec.quantize_half_up price_decimal quantum_exp
    | Ok None => Ok (Dec.DFin false 0 0)
    | Raise e => Raise e
    end.

Definition normalize_stock (stock : Py.value) : outcome Py.value :=
  try_except_of
    (fun e => match e with ValueError | TypeError => true | _ => false end)
    (let* n := Py.int stock in Ok (Py.VInt (Z.max 0 n)))
    (fun _ => Ok (Py.VInt 0)).

(** [normalize_product] *)
Definition normalize_product (lower : string -> string) (product : Py.dict)
    : outcome Py.dict :=
  let normalized := product in
  let normalized :=
    TextCleaner.update_if_present "category"
      (fun v => Py.VStr (normalize_category lower v)) normalized in
  let* normalized :=
    match Dict.get "price" normalized with
    | Some v => let* p := normalize_price v in Ok (Dict.set "price" (Py.VDec p) normalized)
    | None => Ok normalized
    end in
  match Dict.get "stock" normalized with
  | Some v => let* s := normalize_stock v in Ok (Dict.set "stock" s normalized)
  | None => Ok normalized
  end.

(** One turn of the loop of [_default_merge]. *)
Definition merge_item (merged : Py.dict) (kv : string * Py.value) : outcome Py.dict :=
  let '(key, v) := kv in
  if Py.is_none v then Ok merged
  else if String.eqb key "stock" then
    let* sum := Py.add (default (Py.VInt 0) (Dict.get key merged)) v in
    Ok (Dict.set key sum merged)
  else
    match String.eqb key "attributes", v with
    | true, Py.VDict attrs =>
        match default (Py.VDict []) (Dict.get key merged) with
        | Py.VDict old => Ok (Dict.set key (Py.VDict (Dict.union old attrs)) merged)
        | _ => Raise TypeError
        end
    | _, _ => Ok (Dict.set key v merged)
    end.

Fixpoint merge_items (merged : Py.dict) (items : list (string * Py.value))
    : outcome Py.dict :=
  match items with
  | [] => Ok merged
  | kv :: r => let* merged' := merge_item merged kv in merge_items merged' r
  end.

(** [_default_merge] *)
Definition _default_merge (existing new : Py.dict) : outcome Py.dict :=
  merge_items existing new.

(** One turn of the loop of [handle_duplicates]. *)
Definition handle_step (key_field : string)
    (merge_fn : option (Py.dict -> Py.dict -> outcome Py.dict))
    (seen : seen_t) (product : Py.dict) : outcome seen_t :=
  let key := Py.get_or_none key_field product in
  if Py.is_none key then Ok seen
  else if negb (Py.hashable key) then Raise TypeError
  else
    match seen_get key seen with
    | None => Ok (seen_set key product seen)
    | Some existing =>
        if String.eqb (duplicate_strategy self) "keep_first" then Ok seen
        else if String.eqb (duplicate_strategy self) "keep_latest"
        then Ok (seen_set key product seen)
        else if String.eqb (duplicate_strategy self) "merge" then
          let* merged :=
            match merge_fn with
            | Some f => f existing product
            | None => _default_merge existing product
            end in
          Ok (seen_set key merged seen)
        else Ok seen
    end.

Fixpoint handle_loop (key_field : string)
    (merge_fn : option (Py.dict -> Py.dict -> outcome Py.dict))
    (products : list Py.dict) (seen : seen_t) : outcome seen_t :=
  match products with
  | [] => Ok seen
  | product :: rest =>
      let* seen' := handle_step key_field merge_fn seen product in
      handle_loop key_field merge_fn rest seen'
  end.

(** [handle_duplicates] *)
Definition handle_duplicates (products : list Py.dict) (key_field : string)
    (merge_fn : option (Py.dict -> Py.dict -> outcome Py.dict))
    : outcome (list Py.dict) :=
  let* seen := handle_loop key_field merge_fn products [] in
  Ok (map snd seen).

(** [normalize_batch] *)
Definition normalize_batch (lower : string -> string) (products : list Py.dict)
    (dedupe : bool) : outcome (list Py.dict) :=
  let* normalized := mapM (normalize_product lower) products in
  if dedupe then handle_duplicates normalized "sku" None else Ok normalized.

End Normalizer.

End ProductNormalizer.

(** ** The pipelines *)

(** An entry of the [errors] or [warnings] list of a run: the f-string that
    builds it, kept as its template with the interpolated values. *)
Inductive entry :=
| ValidationFailure (sku : Py.value) (m : Validator.message)  (* "[{sku}] {error.message}" *)
| LoadFailure (e : Py.value)                                  (* "Load error: {e}" *)
| Uncaught (e : exn)                                          (* str(e) *)
| NoProductsForSkus (skus : list string)                      (* "No products found for SKUs: {skus}" *)
| Note (s : string).

(** *** [pipelines/api_to_postgres.py] *)

Module APIToPostgres.

Local Open Scope monad_scope.

(** [PipelineResult], without the two time stamps. *)
Record PipelineResult := {
  success : bool;
  extracted : Z;
  validated : Z;
  cleaned : Z;
  normalized : Z;
  inserted : Z;
  updated : Z;
  errors : list entry;
  warnings : list entry
}.

(** The collaborators given to [APIToPostgresPipeline.__init__], by the
    methods that [run] calls.  The extractor and the loader act on the
    outside world; the transformers compute and may raise. *)
Record collaborators (W : Type) := {
  extractor_aenter : M W unit;
  extractor_aexit : M W unit;
  fetch_all_products : string -> M W (list Py.dict);
  validate_batch :
    list Py.dict -> bool ->
    outcome (list Py.dict * list (Py.dict * Validator.ValidationResult));
  clean_batch : list Py.dict -> outcome (list Py.dict);
  normalize_batch : list Py.dict -> bool -> outcome (list Py.dict);
  loader_aenter : M W unit;
  loader_aexit : M W unit;
  upsert_batch : list Py.dict -> M W (Z * Z * list Py.value)
}.

Arguments extractor_aenter {W} _.
Arguments extractor_aexit {W} _.
Arguments fetch_all_products {W} _ _.
Arguments validate_batch {W} _ _ _.
Arguments clean_batch {W} _ _.
Arguments normalize_batch {W} _ _ _.
Arguments loader_aenter {W} _.
Arguments loader_aexit {W} _.
Arguments upsert_batch {W} _ _.

(** The entries added for the rejected records. *)
Definition validation_entries (invalid_products : list (Py.dict * Validator.ValidationResult))
    : list entry :=
  flat_map
    (fun pr =>
       let sku := default (Py.VStr "UNKNOWN") (Dict.get "sku" (fst pr)) in
       map (fun error => ValidationFailure sku (Validator.message_ error))
           (Validator.errors (snd pr)))
    invalid_products.

Definition len {A : Type} (l : list A) : Z := Z.of_nat (length l).

Section Run.
Context {W : Type}.
Variable self : collaborators W.

(** [APIToPostgresPipeline.run] *)
Definition run (endpoint : string) (skip_invalid : bool) (handle_duplicates : bool)
    : M W PipelineResult :=
  tryM
    (raw_products <-
       with_ctx (extractor_aenter self) (extractor_aexit self)
                (fetch_all_products self endpoint) ;;
     let extracted_count := len raw_products in
     match raw_products with
     | [] =>
         ret {| success := true; extracted := 0; validated := 0; cleaned := 0;
                normalized := 0; inserted := 0; updated := 0; errors := [];
                warnings := [Note "No products found in API"] |}
     | _ :: _ =>
         vr <- lift (validate_batch self raw_products skip_invalid) ;;
         let '(valid_products, invalid_products) := vr in
         let validated_count := len valid_products in
         let errors1 := validation_entries invalid_products in
         cleaned_products <- lift (clean_batch self valid_products) ;;
         let cleaned_count := len cleaned_products in
         normalized_products <-
           lift (normalize_batch self cleaned_products handle_duplicates) ;;
         let normalized_count := len normalized_products in
         loaded <-
           with_ctx (loader_aenter self) (loader_aexit self)
                    (upsert_batch self normalized_products) ;;
         let '(inserted_n, updated_n, load_errors) := loaded in
         let errors2 := errors1 ++ map LoadFailure load_errors in
         ret {| success := match errors2 with [] => true | _ => false end;
                extracted := extracted_count; validated := validated_count;
                cleaned := cleaned_count; normalized := normalized_count;
                inserted := inserted_n; updated := updated_n;
                errors := errors2; warnings := [] |}
     end)
    (fun e =>
       ret {| success := false; extracted := 0; validated := 0; cleaned := 0;
              normalized := 0; inserted := 0; updated := 0;
              errors := [Uncaught e]; warnings := [] |}).

End Run.

(** The collaborators built by default: the transformers of this
    repository around an extractor and a loader. *)
Definition with_transformers {W : Type} (u : TextCleaner.unicode)
    (validator : Validator.config) (cleaner : TextCleaner.config)
    (normalizer : ProductNormalizer.config)
    (ex_aenter ex_aexit : M W unit) (fetch : string -> M W (list Py.dict))
    (ld_aenter ld_aexit : M W unit) (upsert : list Py.dict -> M W (Z * Z * list Py.value))
    : collaborators W :=
  {| extractor_aenter := ex_aenter;
     extractor_aexit := ex_aexit;
     fetch_all_products := fetch;
     validate_batch := Validator.validate_batch validator;
     clean_batch := TextCleaner.clean_batch u cleaner;
     normalize_batch :=
       ProductNormalizer.normalize_batch normalizer (TextCleaner.lower u);
     loader_aenter := ld_aenter;
     loader_aexit := ld_aexit;
     upsert_batch := upsert |}.

End APIToPostgres.

(** *** [pipelines/postgres_to_qdrant.py] *)

Module PostgresToQdrant.

Local Open Scope monad_scope.

(** [EmbeddingPipelineResult], without the two time stamps. *)
Record EmbeddingPipelineResult := {
  success : bool;
  total_products : Z;
  products_needing_update : Z;
  embeddings_generated : Z;
  embeddings_upserted : Z;
  metadata_only_updates : Z;
  errors : list entry
}.

(** The three collaborators given to [PostgresToQdrantPipeline.__init__],
    by the methods that the pipeline calls. *)
Record collaborators (W : Type) := {
  pg_aenter : M W unit;
  pg_aexit : M W unit;
  get_all_products : M W (list ProductDB);
  get_product_by_sku : string -> M W (option ProductDB);
  qdrant_aenter : M W unit;
  qdrant_aexit : M W unit;
  get_existing_hashes : M W (gmap string string);
  upsert_batch : list ProductEmbedding -> Z -> M W Z;
  update_metadata_batch : list (Dict.t Qdrant.jvalue) -> M W Z;
  delete_by_sku : string -> M W bool;
  emb_aenter : M W unit;
  emb_aexit : M W unit;
  generate_embeddings_batch : list ProductDB -> M W (list ProductEmbedding)
}.

Arguments pg_aenter {W} _.
Arguments pg_aexit {W} _.
Arguments get_all_products {W} _.
Arguments get_product_by_sku {W} _ _.
Arguments qdrant_aenter {W} _.
Arguments qdrant_aexit {W} _.
Arguments get_existing_hashes {W} _.
Arguments upsert_batch {W} _ _ _.
Arguments update_metadata_batch {W} _ _.
Arguments delete_by_sku {W} _ _.
Arguments emb_aenter {W} _.
Arguments emb_aexit {W} _.
Arguments generate_embeddings_batch {W} _ _.

Definition len {A : Type} (l : list A) : Z := Z.of_nat (length l).

(** One turn of the classification loop of [run]. *)
Definition classify_step (existing_hashes : gmap string string) (force_regenerate : bool)
    (acc : list ProductDB * list ProductDB) (product : ProductDB)
    : list ProductDB * list ProductDB :=
  let '(products_to_embed, products_metadata_only) := acc in
  let current_hash := compute_text_hash product in
  let existing_hash := existing_hashes !! sku product in
  if force_regenerate || bool_decide (existing_hash = None)
  then (products_to_embed ++ [product], products_metadata_only)
  else if negb (bool_decide (existing_hash = Some current_hash))
       then (products_to_embed ++ [product], products_metadata_only)
       else (products_to_embed, products_metadata_only ++ [product]).

(** The classification loop of [run]: the products to embed and the
    products whose metadata alone is updated. *)
Definition classify (products : list ProductDB) (existing_hashes : gmap string string)
    (force_regenerate : bool) : list ProductDB * list ProductDB :=
  fold_left (classify_step existing_hashes force_regenerate) products ([], []).

Section Run.
Context {W : Type}.
Variable self : collaborators W.

(** [float(p.price)]: the conversion of a decimal to binary64. *)
Variable to_float : Dec.decimal -> float64.

Definition in_contexts {A : Type} (body : M W A) : M W A :=
  with_ctx (pg_aenter self) (pg_aexit self)
    (with_ctx (qdrant_aenter self) (qdrant_aexit self)
       (with_ctx (emb_aenter self) (emb_aexit self) body)).

Definition failed (e : exn) : EmbeddingPipelineResult :=
  {| success := false; total_products := 0; products_needing_update := 0;
     embeddings_generated := 0; embeddings_upserted := 0;
     metadata_only_updates := 0; errors := [Uncaught e] |}.

Definition metadata_update (p : ProductDB) : Dict.t Qdrant.jvalue :=
  [ ("point_id", Qdrant.JStr ("product-" +:+ id p));
    ("price", Qdrant.JFloat (to_float (price p)));
    ("stock", Qdrant.JInt (stock p)) ].

(** [PostgresToQdrantPipeline.run] *)
Definition run (force_regenerate : bool) (batch_size : Z) : M W EmbeddingPipelineResult :=
  tryM
    (in_contexts
       (all_products <- get_all_products self ;;
        let total := len all_products in
        match all_products with
        | [] =>
            ret {| success := true; total_products := 0; products_needing_update := 0;
                   embeddings_generated := 0; embeddings_upserted := 0;
                   metadata_only_updates := 0; errors := [] |}
        | _ :: _ =>
            existing_hashes <-
              (if force_regenerate then ret ∅ else get_existing_hashes self) ;;
            let '(products_to_embed, products_metadata_only) :=
              classify all_products existing_hashes force_regenerate in
            counts <-
              match products_to_embed with
              | [] => ret (0, 0)
              | _ :: _ =>
                  embeddings <- generate_embeddings_batch self products_to_embed ;;
                  match embeddings with
                  | [] => ret (0, 0)
                  | _ :: _ =>
                      n <- upsert_batch self embeddings batch_size ;;
                      ret (len embeddings, n)
                  end
              end ;;
            metadata_updates <-
              match products_metadata_only with
              | [] => ret 0
              | _ :: _ =>
                  update_metadata_batch self (map metadata_update products_metadata_only)
              end ;;
            ret {| success := true; total_products := total;
                   products_needing_update := len products_to_embed;
                   embeddings_generated := fst counts;
                   embeddings_upserted := snd counts;
                   metadata_only_updates := metadata_updates;
                   errors := [] |}
        end))
    (fun e => ret (failed e)).



(** [PostgresToQdrantPipeline.sync_deletions].  The loop visits the
    set [to_delete] in the order of [elements]. *)
Definition sync_deletions : M W Z :=
  with_ctx (pg_aenter self) (pg_aexit self)
    (with_ctx (qdrant_aenter self) (qdrant_aexit self)
       (pg_products <- get_all_products self ;;
        let pg_skus : gset string := list_to_set (map sku pg_products) in
        qdrant_hashes <- get_existing_hashes self ;;
        let qdrant_skus : gset string := dom qdrant_hashes in
        let to_delete := qdrant_skus ∖ pg_skus in
        foldM (fun deleted sku => delete_by_sku self sku ;; ret (deleted + 1))
              (elements to_delete) 0)).

End Run.

End PostgresToQdrant.

(** ** The two stores held in memory *)

Module Memory.

(** The rows of the [products] table and the points of the collection. *)
Record world := {
  rows : list ProductDB;
  points : list Qdrant.point
}.

(** A computation on the index, run on the world. *)
Definition on_points {A : Type} (m : M (list Qdrant.point) A) : M world A :=
  fun w =>
    let '(r, pts) := m (points w) in
    (r, {| rows := rows w; points := pts |}).

(** [PostgresLoader.get_all_products] with its default arguments. *)
Definition get_all_products : M world (list ProductDB) :=
  fun w => (Ok (rows w), w).

(** [PostgresLoader.get_product_by_sku] *)
Definition get_product_by_sku (s : string) : M world (option ProductDB) :=
  fun w => (Ok (find (fun p => String.eqb (sku p) s) (rows w)), w).

(** The pipeline over the two stores, with the embedding provider
    [call_voyage_api] and the chunk size of the generator. *)
Definition collaborators
    (call_voyage_api : nat -> list string -> outcome (list (list float64)))
    (generator_batch_size : Z) (to_float : Dec.decimal -> float64)
    : PostgresToQdrant.collaborators world :=
  {| PostgresToQdrant.pg_aenter := ret tt;
     PostgresToQdrant.pg_aexit := ret tt;
     PostgresToQdrant.get_all_products := get_all_products;
     PostgresToQdrant.get_product_by_sku := get_product_by_sku;
     PostgresToQdrant.qdrant_aenter := ret tt;
     PostgresToQdrant.qdrant_aexit := ret tt;
     PostgresToQdrant.get_existing_hashes := on_points Qdrant.mem_get_existing_hashes;
     PostgresToQdrant.upsert_batch :=
       fun embeddings batch_size =>
         on_points (Qdrant.upsert_batch Qdrant.mem_client to_float embeddings batch_size);
     PostgresToQdrant.update_metadata_batch :=
       fun updates => on_points (Qdrant.update_metadata_batch Qdrant.mem_client updates);
     PostgresToQdrant.delete_by_sku :=
       fun s => on_points (Qdrant.delete_by_sku Qdrant.mem_client s);
     PostgresToQdrant.emb_aenter := ret tt;
     PostgresToQdrant.emb_aexit := ret tt;
     PostgresToQdrant.generate_embeddings_batch :=
       fun products =>
         lift (EmbeddingGenerator.generate_embeddings_batch
                 call_voyage_api generator_batch_size products) |}.

End Memory.

(** ** Notions used to state the properties *)

(** *** The index *)

(** The sku a point carries in its payload. *)
Definition point_sku (pt : Qdrant.point) : option string :=
  match Dict.get "sku" (Qdrant.pt_payload pt) with
  | Some (Qdrant.JStr s) => Some s
  | _ => None
  end.

(** The sku under which [get_existing_hashes] reports a point: the point
    carries a non-empty sku and a non-empty content hash. *)
Definition indexed_entry (pt : Qdrant.point) : option (string * string) :=
  match Dict.get "sku" (Qdrant.pt_payload pt), Dict.get "text_hash" (Qdrant.pt_payload pt) with
  | Some (Qdrant.JStr s), Some (Qdrant.JStr h) =>
      if negb (Str.is_empty s) && negb (Str.is_empty h) then Some (s, h) else None
  | _, _ => None
  end.

Definition index_skus (pts : list Qdrant.point) : gset string :=
  list_to_set (omap (λ pt, fst <$> indexed_entry pt) pts).

Definition relational_skus (rows : list ProductDB) : gset string :=
  list_to_set (map sku rows).

Definition view (pt : Qdrant.point) : Qdrant.scrolled :=
  {| Qdrant.sc_id := Qdrant.pt_id pt;
     Qdrant.sc_payload := Some (Qdrant.restrict ["sku"; "text_hash"] (Qdrant.pt_payload pt)) |}.

Definition hashes_of (pts : list Qdrant.point) (hashes : gmap string string)
    : gmap string string :=
  fold_left Qdrant.add_hash (map view pts) hashes.

(** A point survives the reconciliation when its sku is not among the
    deleted ones. *)
Definition kept (deleted : string → Prop) (pt : Qdrant.point) : Prop :=
  match point_sku pt with
  | Some s => ¬ deleted s
  | None => True
  end.

#[global] Instance kept_dec deleted `{∀ s, Decision (deleted s)} pt :
  Decision (kept deleted pt).
Proof. unfold kept. destruct (point_sku pt); apply _. Defined.

(** The example of the specification: relational skus [{A, B}], index
    skus [{A, B, C}]. *)
Definition example_row (s : string) : ProductDB :=
  {| id := s; sku := s; name := s; description := None; category := "otros";
     price := Dec.DFin false 100 (-2); stock := 1; unit_ := "unidad";
     attributes := []; text_hash := None |}.

Definition example_point (s : string) : Qdrant.point :=
  {| Qdrant.pt_id := "product-" +:+ s; Qdrant.pt_vector := [];
     Qdrant.pt_payload := [("sku", Qdrant.JStr s); ("text_hash", Qdrant.JStr "h")] |}.


(** Two points with the same id, the same vector and the same payload
    outside the fields [price] and [stock]. *)
Definition same_content (pt pt' : Qdrant.point) : Prop :=
  Qdrant.pt_id pt' = Qdrant.pt_id pt
  ∧ Qdrant.pt_vector pt' = Qdrant.pt_vector pt
  ∧ ∀ k, k ≠ "price" → k ≠ "stock" →
      Dict.get k (Qdrant.pt_payload pt') = Dict.get k (Qdrant.pt_payload pt).

(** A client that records the calls to [set_payload]: the payload and the
    selected points of each call, oldest first. *)
Definition recording_client
    : Qdrant.client (list (list (string * Qdrant.jvalue) * list Qdrant.jvalue)) :=
  {| Qdrant.set_payload := λ payload ids log, (Ok tt, log ++ [(payload, ids)]);
     Qdrant.scroll := λ _ _ _ log, (Ok ([], None), log);
     Qdrant.delete_where_sku := λ _ log, (Ok tt, log);
     Qdrant.upsert := λ _ log, (Ok tt, log) |}.

(** *** The embedding provider *)


(** *** Runs *)



(** The character tables restricted to ASCII: on ASCII text NFKC changes
    nothing, the case mappings are those of the letters [a-z] and [A-Z],
    and the word characters are the letters, the digits and the underscore. *)
Definition upper_ascii (c : ascii) : ascii :=
  if (97 <=? Str.code c) && (Str.code c <=? 122) then Str.chr (Str.code c - 32) else c.

Fixpoint upper_ascii_str (s : string) : string :=
  match s with
  | EmptyString => EmptyString
  | String c r => String (upper_ascii c) (upper_ascii_str r)
  end.

Definition ascii_word (ch : string) : bool :=
  match ch with
  | String c EmptyString =>
      let x := Str.code c in
      ((48 <=? x) && (x <=? 57)) || ((65 <=? x) && (x <=? 90))
      || ((97 <=? x) && (x <=? 122)) || (x =? 95)
  | _ => false
  end.

Definition ascii_tables : TextCleaner.unicode :=
  {| TextCleaner.nfkc := λ s, s;
     TextCleaner.lower := Dec.lower_ascii_str;
     TextCleaner.upper := upper_ascii_str;
     TextCleaner.is_word := ascii_word |}.

(** A source that serves a fixed list of records and a store that accepts
    every record as an insertion: the collaborators of the transform
    pipeline around the transformers of the repository. *)
Definition fixed_source (records : list (list (string * Py.value)))
    : APIToPostgres.collaborators unit :=
  APIToPostgres.with_transformers ascii_tables
    Validator.default_config TextCleaner.default_config ProductNormalizer.default_config
    (ret tt) (ret tt) (λ _, ret records)
    (ret tt) (ret tt) (λ products, ret (Z.of_nat (length products), 0, [])).

(** *** Validation *)

Definition no_findings : Validator.ValidationResult :=
  {| Validator.is_valid := true; Validator.errors := []; Validator.warnings := [] |}.

(** The required fields of a record are present and of an accepted type:
    the first stage of [validate] reports nothing. *)
Definition required_ok (data : list (string * Py.value)) : Prop :=
  Validator.is_valid (Validator._validate_required_fields data no_findings) = true.

Definition has_error (f : string) (r : Validator.ValidationResult) : Prop :=
  ∃ e, e ∈ Validator.errors r ∧ Validator.field e = f.

Definition has_warning (f : string) (r : Validator.ValidationResult) : Prop :=
  ∃ e, e ∈ Validator.warnings r ∧ Validator.field e = f.

(** The price of the record parses, as [Decimal(str(price))], to [d]. *)
Definition price_parses (data : list (string * Py.value)) (d : Dec.decimal) : Prop :=
  Dec.of_string (Py.str (Py.get_or_none "price" data)) = Some d.

(** The stock of the record parses, as [int(stock)], to [n]. *)
Definition stock_parses (data : list (string * Py.value)) (n : Z) : Prop :=
  Py.int (Py.get_or_none "stock" data) = Ok n.

(** A well-formed record: sku and name are not blank, the sku has at most
    100 characters, the price is a positive number and the stock is not
    negative. *)
Definition well_formed (data : list (string * Py.value)) : Prop :=
  required_ok data
  ∧ (let s := Str.strip (Py.str (Py.get_or_none "sku" data)) in
     Str.is_empty s = false ∧ Str.len s ≤ 100)
  ∧ Str.is_empty (Str.strip (Py.str (Py.get_or_none "name" data))) = false
  ∧ (∃ neg c e, price_parses data (Dec.DFin neg c e)
                ∧ Dec.compare_fin neg c e false 0 0 = Gt)
  ∧ (∃ n, stock_parses data n ∧ 0 ≤ n).

Definition example_record (price stock : Py.value) : list (string * Py.value) :=
  [ ("sku", Py.VStr "SKU001"); ("name", Py.VStr "Test Product");
    ("category", Py.VStr "camisas"); ("price", price); ("stock", stock) ].

(** Each stage appends its findings to those of the stages before it. *)
Definition appends (f : string) (r r' : Validator.ValidationResult) : Prop :=
  ∃ es ws,
    Validator.errors r' = Validator.errors r ++ es
    ∧ Validator.warnings r' = Validator.warnings r ++ ws
    ∧ Forall (λ e, Validator.field e = f) es
    ∧ Forall (λ e, Validator.field e = f) ws.


(** *** The classification rule *)

Section Rule.

Variable existing_hashes : gmap string string.
Variable force_regenerate : bool.

(** The rule of the specification: a product needs an embedding when
    regeneration is forced, when its sku has no stored hash, or when the
    stored hash differs from its content hash. *)
Definition needs_embedding (p : ProductDB) : Prop :=
  force_regenerate = true
  ∨ existing_hashes !! sku p = None
  ∨ existing_hashes !! sku p ≠ Some (compute_text_hash p).

#[global] Instance needs_embedding_dec p : Decision (needs_embedding p).
Proof. unfold needs_embedding. apply _. Defined.

End Rule.

(** ** Records with a sku, and what a merge leaves in each field *)

(** The sku of a record, where it is a string. *)
Definition sku_of (p : list (string * Py.value)) : string :=
  match Dict.get "sku" p with
  | Some (Py.VStr s) => s
  | _ => ""
  end.

Definition keyed (p : list (string * Py.value)) : Prop :=
  Dict.get "sku" p = Some (Py.VStr (sku_of p)).

(** The records of a list that carry the sku [s], in their order. *)
Definition group (s : string) (products : list (list (string * Py.value)))
    : list (list (string * Py.value)) :=
  filter (λ p, sku_of p = s) products.

(** The skus of a list in the order of their first occurrence. *)
Definition add_new (acc : list string) (s : string) : list string :=
  if bool_decide (s ∈ acc) then acc else acc ++ [s].

Definition distinct (l : list string) : list string := fold_left add_new l [].

(** The dictionary [seen] when all its keys are strings. *)
Definition str_keys (d : list (string * list (string * Py.value)))
    : ProductNormalizer.seen_t :=
  map (λ kv, (Py.VStr kv.1, kv.2)) d.












(** The entry the loop has for a sku and the records still to come:
    the record the next ones are combined with, and those. *)
Definition start (o : option (list (string * Py.value)))
    (g : list (list (string * Py.value)))
    : option (list (string * Py.value) * list (list (string * Py.value))) :=
  match o, g with
  | Some e, _ => Some (e, g)
  | None, g0 :: gs => Some (g0, gs)
  | None, [] => None
  end.




(** The two records of the specification's example. *)
Definition stock_record (s : string) (n : Z) : list (string * Py.value) :=
  [("sku", Py.VStr s); ("stock", Py.VInt n)].

(** ** The fields a text hash reads *)

(** The byte [c] occurs in [s].  The separators ["|"] and [":"] are one
    byte each, and no encoding of another character holds these bytes. *)
Fixpoint occurs (c : ascii) (s : string) : bool :=
  match s with
  | EmptyString => false
  | String x r => Ascii.eqb x c || occurs c r
  end.




(** A product with the given textual fields, price and stock. *)
Definition text_product (n : string) (d : option string) (c : string)
    (attrs : list (string * Py.value)) (pr : Dec.decimal) (st : Z) : ProductDB :=
  {| id := "7f1c"; sku := "SKU001"; name := n; description := d; category := c;
     price := pr; stock := st; unit_ := "unidad"; attributes := attrs;
     text_hash := None |}.

(** ** Findings of the first stage of validation *)

(** A required field is missing (or null), or holds a value of none of the
    accepted types. *)
Definition bad_field (data : list (string * Py.value))
    (entry : string * list Validator.pytype) : bool :=
  let v := Py.get_or_none entry.1 data in
  Py.is_none v || negb (existsb (Validator.isinstance v) entry.2).

(** A result whose flag agrees with its list of errors. *)
Definition coherent (r : Validator.ValidationResult) : Prop :=
  Validator.is_valid r = true ↔ Validator.errors r = [].

(** The two lists that [validate_batch] returns, from the results of the
    records. *)
Definition accepted (skip_invalid : bool)
    (checked : list (list (string * Py.value) * Validator.ValidationResult))
    : list (list (string * Py.value)) :=
  map fst (List.filter (λ pr, Validator.is_valid pr.2 || negb skip_invalid) checked).

Definition rejected
    (checked : list (list (string * Py.value) * Validator.ValidationResult))
    : list (list (string * Py.value) * Validator.ValidationResult) :=
  List.filter (λ pr, negb (Validator.is_valid pr.2)) checked.

(** ** Transformers *)

(** The fields that [clean_product] rewrites. *)
Definition cleaned_fields : list string :=
  ["name"; "description"; "category"; "sku"; "unit"; "attributes"].

(** The fields that [normalize_product] rewrites. *)
Definition normalized_fields : list string := ["category"; "price"; "stock"].

(** The names that [normalize_category] returns under the default
    configuration: the default category and the values of the table. *)
Definition canonical_categories : list string :=
  "otros" :: map snd ProductNormalizer.DEFAULT_CATEGORY_MAPPING.

(** A name that the default table sends to itself, whatever [str.lower]
    does to other strings. *)
Definition fixed_category (v : string) : bool :=
  negb (Str.is_empty v) && String.eqb (Str.strip v) v
  && match Dict.get v ProductNormalizer.DEFAULT_CATEGORY_MAPPING with
     | Some x => String.eqb x v
     | None =>
         match TextCleaner.partial_match ProductNormalizer.DEFAULT_CATEGORY_MAPPING v with
         | Some x => String.eqb x v
         | None => String.eqb "otros" v
         end
     end.

(** The record has a value under the key field. *)
Definition has_key (key_field : string) (p : list (string * Py.value)) : bool :=
  negb (Py.is_none (Py.get_or_none key_field p)).

(** ** Embeddings and the index *)

(** [r] is the record that the generator builds for the product [p],
    whatever its vector. *)
Definition embeds (p : ProductDB) (r : ProductEmbedding) : Prop :=
  emb_id r = "product-" +:+ id p
  ∧ emb_sku r = sku p
  ∧ emb_product_id r = id p
  ∧ emb_category r = category p
  ∧ emb_price r = price p
  ∧ emb_stock r = stock p
  ∧ emb_text r = EmbeddingGenerator.build_embedding_text p
  ∧ emb_text_hash r = compute_text_hash p.

(** The hash under which a point is reported for the sku [s], if it is. *)
Definition entry_for (s : string) (pt : Qdrant.point) : option string :=
  match indexed_entry pt with
  | Some (s', h) => if String.eqb s' s then Some h else None
  | None => None
  end.

(** The hashes that the points of the index report for [s], in the order
    of the points. *)
Definition entries (s : string) (pts : list Qdrant.point) : list string :=
  omap (entry_for s) pts.

(** Rows as the table keeps them: no two with the same sku or the same
    id, and no empty sku. *)
Definition regular (rows : list ProductDB) : Prop :=
  NoDup (map sku rows) ∧ NoDup (map id rows) ∧ Forall (λ p, sku p ≠ "") rows.

(** An index whose points have distinct ids and in which a point that
    carries the sku of a row is the point of that row. *)
Definition aligned (rows : list ProductDB) (pts : list Qdrant.point) : Prop :=
  NoDup (map Qdrant.pt_id pts)
  ∧ ∀ pt p, pt ∈ pts → p ∈ rows → point_sku pt = Some (sku p) →
      Qdrant.pt_id pt = "product-" +:+ id p.

(** The index after the points of the embeddings are put into it, one
    after the other. *)
Definition put_all (to_float : Dec.decimal → float64)
    (embeddings : list ProductEmbedding) (pts : list Qdrant.point) : list Qdrant.point :=
  fold_left (λ acc pt, Qdrant.put_point pt acc) (map (Qdrant.point_of to_float) embeddings) pts.

(** A provider that answers every call with one vector per text. *)
Definition answers (call_voyage_api : nat → list string → outcome (list (list float64)))
    : Prop :=
  ∀ k texts, ∃ vectors, call_voyage_api k texts = Ok vectors
                        ∧ length vectors = length texts.

(** A provider that fails on every call. *)
Definition fails (call_voyage_api : nat → list string → outcome (list (list float64)))
    : Prop :=
  ∀ k texts, ∃ e, call_voyage_api k texts = Raise e.
(** * Properties

    ** Checks of the primitives against known values *)

Example sha256_abc :
  SHA256.hexdigest "abc"
  = "ba7816bf8f01cfea414140de5dae2223b00361a396177a9cb410ff61f20015ad".
Proof. vm_compute. reflexivity. Qed.

Example sha256_empty :
  SHA256.hexdigest ""
  = "e3b0c44298fc1c149afbf4c8996fb92427ae41e4649b934ca495991b7852b855".
Proof. vm_compute. reflexivity. Qed.

Example sha256_two_blocks :
  SHA256.hexdigest "abcdbcdecdefdefgefghfghighijhijkijkljklmklmnlmnomnopnopq"
  = "248d6a61d20638b8e5c026930c3e6039a33ce45964ff2167f6ecedd419db06c1".
Proof. vm_compute. reflexivity. Qed.

Example strip_example : Str.strip "  hello world  " = "hello world".
Proof. reflexivity. Qed.

Example strip_nbsp : Str.strip (String (Str.chr 0xC2) (String (Str.chr 0xA0) "a ")) = "a".
Proof. reflexivity. Qed.

Example replace_example : Str.replace "€" "" "€1.234,56€" = "1.234,56".
Proof. reflexivity. Qed.

Example rindex_example : Str.rindex "," "1,234,5" = Some 5.
Proof. reflexivity. Qed.

Example join_example : Str.join "|" ["a"; "b"; "c"] = "a|b|c".
Proof. reflexivity. Qed.

Example len_example : Str.len "año €" = 5.
Proof. reflexivity. Qed.

Example decimal_parse_1 : Dec.of_string "1234.56" = Some (Dec.DFin false 123456 (-2)).
Proof. reflexivity. Qed.

Example decimal_parse_2 : Dec.of_string " -1_000.5e3 " = Some (Dec.DFin true 10005 2).
Proof. reflexivity. Qed.

Example decimal_parse_3 : Dec.of_string ".5" = Some (Dec.DFin false 5 (-1)).
Proof. reflexivity. Qed.

Example decimal_parse_4 : Dec.of_string "." = None /\ Dec.of_string "abc" = None
  /\ Dec.of_string "1,5" = None /\ Dec.of_string "" = None /\ Dec.of_string "1e" = None.
Proof. repeat split; reflexivity. Qed.

Example decimal_parse_5 : Dec.of_string "-Infinity" = Some (Dec.DInf true)
  /\ Dec.of_string "nan" = Some Dec.DNaN /\ Dec.of_string "sNaN12" = Some Dec.DNaN.
Proof. repeat split; reflexivity. Qed.

Example decimal_quantize_1 :
  Dec.quantize_half_up (Dec.DFin false 1235 (-3)) (-2) = Ok (Dec.DFin false 124 (-2)).
Proof. vm_compute. reflexivity. Qed.

Example decimal_quantize_2 :
  Dec.quantize_half_up (Dec.DFin false 1 30) (-2) = Raise InvalidOperation.
Proof. vm_compute. reflexivity. Qed.

Example decimal_to_string_1 :
  Dec.to_string (Dec.DFin false 123456 (-2)) = "1234.56"
  /\ Dec.to_string (Dec.DFin true 1 3) = "-1E+3"
  /\ Dec.to_string (Dec.DFin false 0 (-2)) = "0.00"
  /\ Dec.to_string (Dec.DFin false 5 (-9)) = "5E-9"
  /\ Dec.to_string (Dec.DFin false 123 (-5)) = "0.00123"
  /\ Dec.to_string (Dec.DFin false 123 (-10)) = "1.23E-8".
Proof. vm_compute. repeat split; reflexivity. Qed.

Example repr_examples :
  Py.str (Py.VList [Py.VInt 1; Py.VStr "a"; Py.VNone]) = "[1, 'a', None]"
  /\ Py.str (Py.VDict [("k", Py.VBool true)]) = "{'k': True}"
  /\ Py.str (Py.VInt (-42)) = "-42"
  /\ Py.str (Py.VStr "it's") = "it's"
  /\ Py.repr (Py.VStr "it's") = String (Str.chr 34) ("it's" +:+ String (Str.chr 34) "").
Proof. vm_compute. repeat split; reflexivity. Qed.

Example int_examples :
  Py.int (Py.VStr " -5 ") = Ok (-5) /\ Py.int (Py.VStr "1_000") = Ok 1000
  /\ Py.int (Py.VStr "5.0") = Raise ValueError /\ Py.int (Py.VStr "1__0") = Raise ValueError
  /\ Py.int (Py.VStr "") = Raise ValueError /\ Py.int Py.VNone = Raise TypeError
  /\ Py.int (Py.VBool true) = Ok 1.
Proof. vm_compute. repeat split; reflexivity. Qed.

Example normalize_price_examples :
  ProductNormalizer.normalize_price ProductNormalizer.default_config (Py.VStr "$1,234.56")
    = Ok (Dec.DFin false 123456 (-2))
  /\ ProductNormalizer.normalize_price ProductNormalizer.default_config (Py.VInt 1000)
    = Ok (Dec.DFin false 100000 (-2))
  /\ ProductNormalizer.normalize_price ProductNormalizer.default_config (Py.VStr "1.234,56")
    = Ok (Dec.DFin false 123 (-2))
  /\ ProductNormalizer.normalize_price ProductNormalizer.default_config (Py.VStr "abc")
    = Ok (Dec.DFin false 0 0)
  /\ ProductNormalizer.normalize_price ProductNormalizer.default_config (Py.VStr "Infinity")
    = Raise InvalidOperation
  /\ ProductNormalizer.normalize_price ProductNormalizer.default_config (Py.VStr "€ 12,5")
    = Ok (Dec.DFin false 12500 (-2)).
Proof. vm_compute. repeat split; reflexivity. Qed.

(** ** Dictionaries *)

Section DictFacts.

Context {V : Type}.
Implicit Types (d : list (string * V)) (k : string) (v : V).

Lemma get_set k k' v d :
  Dict.get k (Dict.set k' v d) = if String.eqb k' k then Some v else Dict.get k d.
Proof.
  induction d as [|[k0 v0] d IH]; cbn [Dict.get Dict.set].
  - done.
  - destruct (String.eqb_spec k0 k') as [->|Hne]; cbn [Dict.get].
    + by destruct (String.eqb k' k).
    + destruct (String.eqb_spec k0 k) as [->|Hne'].
      * destruct (String.eqb_spec k' k) as [->|]; [done|done].
      * exact IH.
Qed.

Lemma get_set_eq k v d : Dict.get k (Dict.set k v d) = Some v.
Proof. by rewrite get_set, String.eqb_refl. Qed.

Lemma get_set_ne k k' v d : k' ≠ k → Dict.get k (Dict.set k' v d) = Dict.get k d.
Proof. intros Hne. rewrite get_set. by destruct (String.eqb_spec k' k). Qed.

Lemma keys_set k k' v d : k ∈ Dict.keys (Dict.set k' v d) ↔ k = k' ∨ k ∈ Dict.keys d.
Proof.
  unfold Dict.keys. induction d as [|[k0 v0] d IH]; cbn [Dict.set map fst].
  - rewrite elem_of_cons. set_solver.
  - destruct (String.eqb_spec k0 k') as [->|Hne]; cbn [map fst].
    + rewrite !elem_of_cons. tauto.
    + rewrite !elem_of_cons, IH. tauto.
Qed.

Lemma get_None_keys k d : Dict.get k d = None ↔ k ∉ Dict.keys d.
Proof.
  unfold Dict.keys. induction d as [|[k0 v0] d IH]; cbn [Dict.get map fst].
  - split; [intros _; apply not_elem_of_nil|done].
  - rewrite not_elem_of_cons. destruct (String.eqb_spec k0 k) as [->|Hne].
    + split; [done|]. intros [? _]. done.
    + rewrite IH. split; [|tauto]. intros ?. split; [congruence|done].
Qed.

Lemma get_union_notin k (a b : list (string * V)) :
  k ∉ Dict.keys b → Dict.get k (Dict.union a b) = Dict.get k a.
Proof.
  unfold Dict.union, Dict.keys. revert a.
  induction b as [|[k0 v0] b IH]; intros a Hk; cbn [fold_left map fst snd] in *.
  - done.
  - apply not_elem_of_cons in Hk as [Hne Hk].
    rewrite IH by done. apply get_set_ne. congruence.
Qed.

End DictFacts.

(** ** Classification of products (SyncClassifier) *)

Section Classification.

Local Open Scope nat_scope.

Variable existing_hashes : gmap string string.
Variable force_regenerate : bool.

Lemma classify_step_spec acc p :
  PostgresToQdrant.classify_step existing_hashes force_regenerate acc p
  = if decide (needs_embedding existing_hashes force_regenerate p) then (acc.1 ++ [p], acc.2) else (acc.1, acc.2 ++ [p]).
Proof.
  destruct acc as [a b]. unfold PostgresToQdrant.classify_step. simpl.
  destruct (decide (needs_embedding existing_hashes force_regenerate p)) as [H1|H1]; unfold needs_embedding in H1.
  - destruct H1 as [H1|[H1|H1]].
    + by rewrite H1.
    + rewrite (bool_decide_eq_true_2 _ H1). by rewrite orb_true_r.
    + rewrite (bool_decide_eq_false_2 _ H1). simpl. by destruct (_ || _).
  - assert (force_regenerate = false) as -> by (apply not_true_is_false; tauto).
    rewrite bool_decide_eq_false_2 by tauto. simpl.
    rewrite bool_decide_eq_true_2; [done|].
    destruct (decide (existing_hashes !! sku p = Some (compute_text_hash p))); tauto.
Qed.

Lemma classify_fold products a b :
  fold_left (PostgresToQdrant.classify_step existing_hashes force_regenerate) products (a, b)
  = (a ++ filter (needs_embedding existing_hashes force_regenerate) products,
     b ++ filter (λ p, ¬ needs_embedding existing_hashes force_regenerate p) products).
Proof.
  revert a b. induction products as [|p products IH]; intros a b; cbn [fold_left].
  - by rewrite !app_nil_r.
  - rewrite classify_step_spec. cbn [fst snd].
    rewrite !filter_cons. destruct (decide (needs_embedding existing_hashes force_regenerate p)) as [Hp|Hp].
    + rewrite IH. destruct (decide (¬ needs_embedding existing_hashes force_regenerate p)); [done|].
      by rewrite <- app_assoc.
    + rewrite IH. destruct (decide (¬ needs_embedding existing_hashes force_regenerate p)); [|done].
      by rewrite <- app_assoc.
Qed.

(** C2.  Classification sends every product to exactly one of the two
    lists, by the rule [needs_embedding]: the products to embed are the
    input filtered by the rule, the metadata-only products are the input
    filtered by its negation, the two lists together are a permutation of
    the input, and no product is in both.  [should_regenerate] decides the
    same rule when regeneration is not forced. *)
Theorem classify_exhaustive_disjoint (products : list ProductDB) :
  let '(needsEmbedding, metadataOnly) :=
    PostgresToQdrant.classify products existing_hashes force_regenerate in
  needsEmbedding = filter (needs_embedding existing_hashes force_regenerate) products
  ∧ metadataOnly = filter (λ p, ¬ needs_embedding existing_hashes force_regenerate p) products
  ∧ needsEmbedding ++ metadataOnly ≡ₚ products
  ∧ (∀ p, p ∈ products →
       (p ∈ needsEmbedding ∧ (p ∉ metadataOnly) ∧ needs_embedding existing_hashes force_regenerate p)
       ∨ (p ∈ metadataOnly ∧ (p ∉ needsEmbedding) ∧ (¬ needs_embedding existing_hashes force_regenerate p)))
  ∧ (∀ p, force_regenerate = false →
       (EmbeddingGenerator.should_regenerate p (existing_hashes !! sku p) = true
        ↔ needs_embedding existing_hashes force_regenerate p)).
Proof.
  unfold PostgresToQdrant.classify. rewrite classify_fold. simpl.
  split; [done|]. split; [done|]. split; [|split].
  - induction products as [|p l IH]; [done|].
    rewrite !filter_cons. destruct (decide (needs_embedding existing_hashes force_regenerate p)).
    + destruct (decide (¬ needs_embedding existing_hashes force_regenerate p)); [done|]. simpl. by rewrite IH.
    + destruct (decide (¬ needs_embedding existing_hashes force_regenerate p)); [|done].
      rewrite <- Permutation_middle. by rewrite IH.
  - intros p Hp. destruct (decide (needs_embedding existing_hashes force_regenerate p)) as [Hn|Hn].
    + left. rewrite !list_elem_of_filter. repeat split; try done. by intros [? ?].
    + right. rewrite !list_elem_of_filter. repeat split; try done. by intros [? ?].
  - intros p Hf. unfold EmbeddingGenerator.should_regenerate, needs_embedding.
    rewrite Hf. destruct (existing_hashes !! sku p) as [h|] eqn:E.
    + rewrite negb_true_iff. split.
      * intros Hne. right. right. intros [= ->]. by rewrite String.eqb_refl in Hne.
      * intros [?|[?|Hne]]; try done. apply String.eqb_neq. congruence.
    + split; [|done]. intros _. right. by left.
Qed.

End Classification.

(** ** Deletion reconciliation (DeletionReconciler) *)

Section Reconciliation.

Local Open Scope nat_scope.

Lemma get_restrict (fields : list string) (k : string) (d : Dict.t Qdrant.jvalue) :
  Dict.get k (Qdrant.restrict fields d) = if decide (k ∈ fields) then Dict.get k d else None.
Proof.
  unfold Qdrant.restrict. induction d as [|[k' v] d IH].
  - by destruct (decide _).
  - rewrite filter_cons. cbn [fst].
    destruct (decide (bool_decide (k' ∈ fields))) as [Hk|Hk]; cbn [Dict.get].
    + apply bool_decide_unpack in Hk. destruct (String.eqb_spec k' k) as [->|Hne].
      * by rewrite decide_True.
      * exact IH.
    + rewrite IH. destruct (decide (k ∈ fields)) as [Hin|]; [|done].
      destruct (String.eqb_spec k' k) as [->|Hne]; [|done].
      exfalso. apply Hk. by apply bool_decide_pack.
Qed.

Lemma add_hash_view (hashes : gmap string string) (pt : Qdrant.point) :
  Qdrant.add_hash hashes (view pt)
  = match indexed_entry pt with
    | Some (s, h) => <[s := h]> hashes
    | None => hashes
    end.
Proof.
  unfold Qdrant.add_hash, indexed_entry, view, Qdrant.get_or_null. simpl.
  pose proof (get_restrict ["sku"; "text_hash"] "sku" (Qdrant.pt_payload pt)) as Hs.
  pose proof (get_restrict ["sku"; "text_hash"] "text_hash" (Qdrant.pt_payload pt)) as Hh.
  rewrite decide_True in Hs by set_solver. rewrite decide_True in Hh by set_solver.
  destruct (Qdrant.restrict _ _) as [|kv r] eqn:E.
  - simpl in Hs, Hh. by rewrite <- Hs.
  - rewrite Hs, Hh. clear Hs Hh.
    destruct (Dict.get "sku" (Qdrant.pt_payload pt)) as [[]|]; try done;
      destruct (Dict.get "text_hash" (Qdrant.pt_payload pt)) as [[]|]; try done;
      by destruct (_ && _).
Qed.

Lemma hashes_of_app l1 l2 hashes :
  hashes_of (l1 ++ l2) hashes = hashes_of l2 (hashes_of l1 hashes).
Proof. unfold hashes_of. by rewrite map_app, fold_left_app. Qed.

(** The loop of [get_existing_hashes] reaches the last page of the index
    held in memory when it may take one turn per hundred points. *)
Lemma scroll_loop_mem (pts : list Qdrant.point) fuel start offset hashes :
  (offset = None ∧ start = 0 ∨ offset = Some start) →
  start ≤ length pts →
  length pts < start + 100 * fuel →
  Qdrant.scroll_loop Qdrant.mem_client fuel offset hashes pts
  = (Ok (Some (hashes_of (drop start pts) hashes)), pts).
Proof.
  revert start offset hashes. induction fuel as [|fuel IH]; intros start offset hashes Hoff Hle Hlen.
  - lia.
  - cbn [Qdrant.scroll_loop]. unfold bindM. cbn [Qdrant.scroll Qdrant.mem_client].
    unfold Qdrant.mem_scroll.
    assert (default 0 offset = start) as -> by (destruct Hoff as [[-> ->]| ->]; done).
    change (Z.to_nat 100) with 100.
    fold view.
    destruct (Nat.ltb_spec (start + 100) (length pts)) as [Hlt|Hge].
    + rewrite (IH (start + 100) (Some (start + 100))); [|by right|lia|lia].
      f_equal. f_equal. f_equal.
      rewrite <- (take_drop 100 (drop start pts)) at 2.
      rewrite hashes_of_app. rewrite drop_drop. done.
    + unfold ret. f_equal. f_equal. f_equal.
      rewrite take_ge; [done|]. rewrite length_drop. lia.
Qed.

Lemma mem_get_existing_hashes_spec (pts : list Qdrant.point) :
  Qdrant.mem_get_existing_hashes pts = (Ok (hashes_of pts ∅), pts).
Proof.
  unfold Qdrant.mem_get_existing_hashes, Qdrant.get_existing_hashes.
  rewrite (scroll_loop_mem pts (S (length pts)) 0 None ∅); [done|by left|lia|lia].
Qed.

Lemma dom_hashes_of (pts : list Qdrant.point) (hashes : gmap string string) :
  dom (hashes_of pts hashes) = dom hashes ∪ index_skus pts.
Proof.
  revert hashes. induction pts as [|pt pts IH]; intros hashes.
  - unfold hashes_of, index_skus. simpl. set_solver.
  - change (hashes_of (pt :: pts) hashes)
      with (hashes_of pts (Qdrant.add_hash hashes (view pt))).
    rewrite IH, add_hash_view. unfold index_skus. cbn [omap list_omap].
    destruct (indexed_entry pt) as [[s h]|]; simpl.
    + rewrite dom_insert_L. set_solver.
    + done.
Qed.

Lemma has_sku_point_sku s pt : Qdrant.has_sku s pt = true ↔ point_sku pt = Some s.
Proof.
  unfold Qdrant.has_sku, point_sku.
  destruct (Dict.get "sku" _) as [[| | | |s']|]; try (split; done).
  rewrite String.eqb_eq. split; congruence.
Qed.

Lemma filter_all {A} (P : A → Prop) `{∀ x, Decision (P x)} (l : list A) :
  (∀ x, x ∈ l → P x) → filter P l = l.
Proof.
  induction l as [|x l IH]; intros Hall; [done|].
  rewrite filter_cons_True by (apply Hall; left).
  f_equal. apply IH. intros y Hy. apply Hall. by right.
Qed.

Section Loop.
Variable call_voyage_api : nat → list string → outcome (list (list float64)).
Variable generator_batch_size : Z.
Variable to_float : Dec.decimal → float64.

Local Abbreviation self := (Memory.collaborators call_voyage_api generator_batch_size to_float).

Lemma delete_loop (skus : list string) (w : Memory.world) (deleted : Z) :
  foldM (λ deleted s,
           bindM (PostgresToQdrant.delete_by_sku self s) (λ _, ret (deleted + 1)%Z))
        skus deleted w
  = (Ok (deleted + Z.of_nat (length skus))%Z,
     {| Memory.rows := Memory.rows w;
        Memory.points := filter (kept (λ s, s ∈ skus)) (Memory.points w) |}).
Proof.
  revert w deleted. induction skus as [|s skus IH]; intros w deleted.
  - cbn [foldM]. unfold ret. f_equal; [f_equal; simpl; lia|].
    destruct w as [rs pts]. simpl. f_equal. symmetry. apply filter_all.
    intros pt _. unfold kept. destruct (point_sku pt); [|done]. set_solver.
  - cbn [foldM]. unfold bindM at 1.
    replace (bindM (PostgresToQdrant.delete_by_sku self s) (λ _, ret (deleted + 1)%Z) w)
      with (Ok (deleted + 1)%Z,
            {| Memory.rows := Memory.rows w;
               Memory.points :=
                 filter (λ pt, negb (Qdrant.has_sku s pt)) (Memory.points w) |})
      by done.
    rewrite IH. cbn [Memory.rows Memory.points]. f_equal.
    + f_equal. cbn [length]. lia.
    + f_equal. rewrite list_filter_filter. apply list_filter_iff.
      intros pt. unfold kept.
      pose proof (has_sku_point_sku s pt) as Hs.
      destruct (point_sku pt) as [s'|].
      * rewrite elem_of_cons.
        destruct (Qdrant.has_sku s pt); simpl.
        -- assert (Some s' = Some s) as [= ->] by (by apply Hs). tauto.
        -- split.
           ++ intros [Hk _] [Heq|Hin].
              ** subst. destruct Hs as [_ Hs]. discriminate (Hs eq_refl).
              ** exact (Hk Hin).
           ++ intros Hk. split; [|exact I]. intros Hin. apply Hk. by right.
      * destruct (Qdrant.has_sku s pt); simpl; [|tauto].
        destruct Hs as [Hs _]. discriminate (Hs eq_refl).
Qed.

(** C8.  On the two stores held in memory, deletion reconciliation
    returns the number of skus that the index reports and the
    relational store does not hold, and removes from the index exactly
    the points that carry one of these skus; the rows are untouched. *)
Theorem sync_deletions_removes_orphans (w : Memory.world) :
  let orphans := index_skus (Memory.points w) ∖ relational_skus (Memory.rows w) in
  PostgresToQdrant.sync_deletions self w
  = (Ok (Z.of_nat (size orphans)),
     {| Memory.rows := Memory.rows w;
        Memory.points := filter (kept (λ s, s ∈ orphans)) (Memory.points w) |}).
Proof.
  intros orphans. unfold PostgresToQdrant.sync_deletions, with_ctx.
  cbn [PostgresToQdrant.pg_aenter PostgresToQdrant.pg_aexit
       PostgresToQdrant.qdrant_aenter PostgresToQdrant.qdrant_aexit
       PostgresToQdrant.get_all_products PostgresToQdrant.get_existing_hashes self
       Memory.collaborators].
  unfold bindM at 1 2 3 4. cbn [ret].
  unfold Memory.get_all_products at 1. unfold Memory.on_points at 1.
  rewrite mem_get_existing_hashes_spec.
  rewrite dom_hashes_of, dom_empty_L, (left_id_L ∅ (∪)).
  fold (relational_skus (Memory.rows w)). fold orphans.
  destruct w as [rs pts]. cbn [Memory.rows Memory.points].
  pose proof (delete_loop (elements orphans) {| Memory.rows := rs; Memory.points := pts |} 0)
    as Hloop.
  rewrite Hloop. cbn [Memory.rows Memory.points ret].
  rewrite Z.add_0_l. change (length (elements orphans)) with (size orphans).
  do 2 f_equal. apply list_filter_iff. intros pt. unfold kept.
  destruct (point_sku pt); [|done]. by rewrite elem_of_elements.
Qed.

End Loop.

Example sync_deletions_example :
  PostgresToQdrant.sync_deletions
    (Memory.collaborators (λ _ _, Ok []) 8 (λ _, 0%Z))
    {| Memory.rows := [example_row "A"; example_row "B"];
       Memory.points := [example_point "A"; example_point "B"; example_point "C"] |}
  = (Ok 1%Z,
     {| Memory.rows := [example_row "A"; example_row "B"];
        Memory.points := [example_point "A"; example_point "B"] |}).
Proof. vm_compute. reflexivity. Qed.

End Reconciliation.

(** ** Metadata patches (IndexWriter) *)

Section MetadataPatch.

Local Open Scope nat_scope.

Lemma payload_update_keys price stock k :
  k ∈ Dict.keys (Qdrant.payload_update price stock) → k = "price" ∨ k = "stock".
Proof.
  unfold Qdrant.payload_update.
  destruct (Qdrant.is_null price), (Qdrant.is_null stock); simpl;
    rewrite ?elem_of_cons, ?elem_of_nil; tauto.
Qed.

Lemma batch_payload_keys update k :
  k ∈ Dict.keys (Qdrant.batch_payload update) → k = "price" ∨ k = "stock".
Proof.
  unfold Qdrant.batch_payload.
  destruct (Dict.get "price" update), (Dict.get "stock" update); simpl;
    rewrite ?elem_of_cons, ?elem_of_nil; tauto.
Qed.

Lemma same_content_refl pt : same_content pt pt.
Proof. by repeat split. Qed.

Lemma same_content_trans pt1 pt2 pt3 :
  same_content pt1 pt2 → same_content pt2 pt3 → same_content pt1 pt3.
Proof.
  intros (Hi & Hv & Hp) (Hi' & Hv' & Hp'). repeat split; [congruence..|].
  intros k H1 H2. rewrite Hp' by done. by apply Hp.
Qed.

Lemma same_contents_refl pts : Forall2 same_content pts pts.
Proof. induction pts; constructor; [apply same_content_refl|done]. Qed.

Lemma same_contents_trans pts1 pts2 pts3 :
  Forall2 same_content pts1 pts2 → Forall2 same_content pts2 pts3 →
  Forall2 same_content pts1 pts3.
Proof.
  intros H12. revert pts3. induction H12 as [|a b l1 l2 Hab _ IH]; intros pts3 H23.
  - by inversion H23.
  - inversion H23 as [|? c ? l3 Hbc H23']; subst. constructor.
    + by eapply same_content_trans.
    + by apply IH.
Qed.

(** Writing a payload whose keys are [price] and [stock] keeps the content
    of every point. *)
Lemma mem_set_payload_frame payload ids pts :
  (∀ k, k ∈ Dict.keys payload → k = "price" ∨ k = "stock") →
  ∃ pts', Qdrant.mem_set_payload payload ids pts = (Ok tt, pts')
          ∧ Forall2 same_content pts pts'.
Proof.
  intros Hkeys. eexists. split; [reflexivity|].
  induction pts as [|pt pts IH]; cbn [map]; constructor; [|exact IH].
  destruct (existsb _ ids); [|apply same_content_refl].
  repeat split. intros k H1 H2. cbn [Qdrant.pt_payload].
  apply get_union_notin. intros Hin. destruct (Hkeys k Hin); done.
Qed.

Lemma same_content_indexed pt pt' : same_content pt pt' → indexed_entry pt' = indexed_entry pt.
Proof.
  intros (_ & _ & Hp). unfold indexed_entry.
  rewrite (Hp "sku"), (Hp "text_hash") by done. done.
Qed.

Lemma same_contents_hashes pts pts' hashes :
  Forall2 same_content pts pts' → hashes_of pts' hashes = hashes_of pts hashes.
Proof.
  intros H. revert hashes. induction H as [|pt pt' pts pts' Hpt _ IH]; intros hashes; [done|].
  change (hashes_of (pt' :: pts') hashes)
    with (hashes_of pts' (Qdrant.add_hash hashes (view pt'))).
  change (hashes_of (pt :: pts) hashes)
    with (hashes_of pts (Qdrant.add_hash hashes (view pt))).
  rewrite !add_hash_view, (same_content_indexed _ _ Hpt). apply IH.
Qed.

Lemma update_metadata_batch_frame updates pts n :
  ∃ n' pts', foldM (Qdrant.update_metadata_step Qdrant.mem_client) updates n pts = (Ok n', pts')
             ∧ Forall2 same_content pts pts'.
Proof.
  revert pts n. induction updates as [|update updates IH]; intros pts n; cbn [foldM].
  - exists n, pts. split; [done|apply same_contents_refl].
  - unfold bindM at 1. unfold Qdrant.update_metadata_step at 1.
    destruct (negb _).
    { cbn [ret]. apply IH. }
    destruct (Qdrant.batch_payload update) as [|kv payload] eqn:E.
    { cbn [ret]. apply IH. }
    unfold bindM. cbn [Qdrant.set_payload Qdrant.mem_client].
    destruct (mem_set_payload_frame (kv :: payload)
                [Qdrant.get_or_null "point_id" update] pts) as (pts1 & -> & H1).
    { rewrite <- E. apply batch_payload_keys. }
    cbn [ret]. destruct (IH pts1 (n + 1)%Z) as (n' & pts' & -> & H2).
    exists n', pts'. split; [done|]. by eapply same_contents_trans.
Qed.

Lemma recorded_update_metadata_batch updates (log : list (list (string * Qdrant.jvalue) * list Qdrant.jvalue)) n :
  ∃ n' calls,
    foldM (Qdrant.update_metadata_step recording_client) updates n log = (Ok n', log ++ calls)
    ∧ Forall (λ call, ∀ k, k ∈ Dict.keys call.1 → k = "price" ∨ k = "stock") calls.
Proof.
  revert log n. induction updates as [|update updates IH]; intros log n; cbn [foldM].
  - exists n, []. by rewrite app_nil_r.
  - unfold bindM at 1. unfold Qdrant.update_metadata_step at 1.
    destruct (negb _).
    { cbn [ret]. apply IH. }
    destruct (Qdrant.batch_payload update) as [|kv payload] eqn:E.
    { cbn [ret]. apply IH. }
    unfold bindM. cbn [Qdrant.set_payload recording_client ret].
    destruct (IH (log ++ [(kv :: payload, [Qdrant.get_or_null "point_id" update])]) (n + 1)%Z)
      as (n' & calls & -> & Hcalls).
    eexists n', (_ :: calls). rewrite <- app_assoc. split; [done|].
    constructor; [|done]. cbn [fst]. rewrite <- E. apply batch_payload_keys.
Qed.

(** C5.  A metadata patch writes a payload whose only keys are [price] and
    [stock]: this holds of every call to [set_payload] that
    [update_metadata] and [update_metadata_batch] make.  On the index held
    in memory the patch therefore keeps, for every point, its id, its
    vector and every payload field other than [price] and [stock], and the
    map of content hashes read back by [get_existing_hashes] is the one
    read before the patch. *)
Theorem metadata_patch_frame :
  (∀ point_id price stock log,
     ∃ calls,
       Qdrant.update_metadata recording_client point_id price stock log
       = (Ok tt, log ++ calls)
       ∧ Forall (λ call, ∀ k, k ∈ Dict.keys call.1 → k = "price" ∨ k = "stock") calls)
  ∧ (∀ updates log,
       ∃ n calls,
         Qdrant.update_metadata_batch recording_client updates log = (Ok n, log ++ calls)
         ∧ Forall (λ call, ∀ k, k ∈ Dict.keys call.1 → k = "price" ∨ k = "stock") calls)
  ∧ (∀ point_id price stock pts,
       ∃ pts',
         Qdrant.update_metadata Qdrant.mem_client point_id price stock pts = (Ok tt, pts')
         ∧ Forall2 same_content pts pts'
         ∧ Qdrant.mem_get_existing_hashes pts' = (Ok (hashes_of pts ∅), pts'))
  ∧ (∀ updates pts,
       ∃ n pts',
         Qdrant.update_metadata_batch Qdrant.mem_client updates pts = (Ok n, pts')
         ∧ Forall2 same_content pts pts'
         ∧ Qdrant.mem_get_existing_hashes pts' = (Ok (hashes_of pts ∅), pts')).
Proof.
  split; [|split; [|split]].
  - intros point_id price stock log. unfold Qdrant.update_metadata.
    destruct (_ && _).
    + exists []. by rewrite app_nil_r.
    + eexists [_]. split; [reflexivity|]. constructor; [|done].
      apply payload_update_keys.
  - intros updates log. apply recorded_update_metadata_batch.
  - intros point_id price stock pts. unfold Qdrant.update_metadata.
    destruct (_ && _).
    + exists pts. split; [done|]. split; [apply same_contents_refl|].
      apply mem_get_existing_hashes_spec.
    + destruct (mem_set_payload_frame (Qdrant.payload_update price stock)
                  [Qdrant.JStr point_id] pts) as (pts' & Hrun & Hsame).
      { apply payload_update_keys. }
      exists pts'. split; [exact Hrun|]. split; [exact Hsame|].
      rewrite mem_get_existing_hashes_spec. by rewrite (same_contents_hashes _ _ _ Hsame).
  - intros updates pts.
    destruct (update_metadata_batch_frame updates pts 0%Z) as (n & pts' & Hrun & Hsame).
    exists n, pts'. split; [exact Hrun|]. split; [exact Hsame|].
    rewrite mem_get_existing_hashes_spec. by rewrite (same_contents_hashes _ _ _ Hsame).
Qed.

(** The patch does write the two fields. *)
Example metadata_patch_example :
  Qdrant.update_metadata Qdrant.mem_client "product-A" (Qdrant.JFloat 7%Z) (Qdrant.JInt 3%Z)
    [ {| Qdrant.pt_id := "product-A"; Qdrant.pt_vector := [1; 2]%Z;
         Qdrant.pt_payload := [("sku", Qdrant.JStr "A"); ("price", Qdrant.JFloat 5%Z);
                               ("text_hash", Qdrant.JStr "h")] |} ]
  = (Ok tt,
     [ {| Qdrant.pt_id := "product-A"; Qdrant.pt_vector := [1; 2]%Z;
          Qdrant.pt_payload := [("sku", Qdrant.JStr "A"); ("price", Qdrant.JFloat 7%Z);
                                ("text_hash", Qdrant.JStr "h"); ("stock", Qdrant.JInt 3%Z)] |} ]).
Proof. reflexivity. Qed.

End MetadataPatch.

(** ** Batch embedding (BatchEmbedder) *)

Section BatchEmbedding.

Local Open Scope nat_scope.

Variable call_voyage_api : nat → list string → outcome (list (list float64)).

Lemma chunks_cover_upto (step m : nat) (products : list ProductDB) :
  length products ≤ m * step →
  flat_map (EmbeddingGenerator.batch_at products step) (map (λ k, k * step) (seq 0 m))
  = products.
Proof.
  revert products. induction m as [|m IH]; intros products Hlen.
  - destruct products; [done|]. simpl in Hlen. lia.
  - cbn [seq map flat_map]. rewrite <- seq_shift, map_map.
    assert (∀ ks,
              flat_map (EmbeddingGenerator.batch_at products step)
                       (map (λ k, S k * step) ks)
              = flat_map (EmbeddingGenerator.batch_at (drop step products) step)
                         (map (λ k, k * step) ks)) as Hshift.
    { induction ks as [|k ks IHk]; [done|]. cbn [map flat_map]. f_equal; [|exact IHk].
      unfold EmbeddingGenerator.batch_at. by rewrite drop_drop. }
    rewrite Hshift, IH by (rewrite length_drop; lia).
    unfold EmbeddingGenerator.batch_at. cbn [Nat.mul drop]. apply take_drop.
Qed.

(** The chunks are a split of the products: taken in order they give back
    the sequence. *)
Lemma chunks_cover (step : nat) (products : list ProductDB) :
  0 < step →
  flat_map (EmbeddingGenerator.batch_at products step)
           (EmbeddingGenerator.range_step (length products) step)
  = products.
Proof.
  intros Hstep. apply chunks_cover_upto.
  pose proof (Nat.div_mod_eq (length products + step - 1) step) as Hdm.
  pose proof (Nat.mod_upper_bound (length products + step - 1) step) as Hub.
  lia.
Qed.






End BatchEmbedding.


(** ** Batch cleaning (Cleaner) *)

Section CleanBatch.

(** What [clean_batch] keeps of one record: the cleaned record, or the
    record itself when cleaning it raised. *)
Lemma clean_batch_with_map (clean : list (string * Py.value) → outcome (list (string * Py.value)))
    (products : list (list (string * Py.value))) :
  TextCleaner.clean_batch_with clean products
  = Ok (map (λ product, match clean product with
                        | Ok cleaned => cleaned
                        | Raise _ => product
                        end) products).
Proof.
  induction products as [|product rest IH]; [done|].
  cbn [TextCleaner.clean_batch_with map]. rewrite IH.
  by destruct (clean product).
Qed.

(** C10.  [clean_batch] returns (it does not raise) one record per input
    record, in the order of the input: at each position the cleaned record,
    or the input record unchanged when cleaning it raised.  With the
    [clean_product] of this cleaner the result is the list of the cleaned
    records. *)
Theorem clean_batch_keeps_every_record :
  (∀ clean products,
     ∃ cleaned,
       TextCleaner.clean_batch_with clean products = Ok cleaned
       ∧ length cleaned = length products
       ∧ ∀ i product, products !! i = Some product →
           cleaned !! i = Some (match clean product with
                                | Ok c => c
                                | Raise _ => product
                                end))
  ∧ (∀ u self products,
       TextCleaner.clean_batch u self products
       = Ok (map (TextCleaner.clean_product u self) products)).
Proof.
  split.
  - intros clean products. eexists. split; [apply clean_batch_with_map|].
    split; [by rewrite length_map|].
    intros i product Hi. by rewrite list_lookup_fmap, Hi.
  - intros u self products. unfold TextCleaner.clean_batch.
    by rewrite clean_batch_with_map.
Qed.

(** A record whose cleaning raises is kept as it came, between its
    neighbours. *)
Example clean_batch_example :
  TextCleaner.clean_batch_with
    (λ product, match Dict.get "sku" product with
                | Some (Py.VStr "B") => Raise TypeError
                | _ => Ok (Dict.set "seen" (Py.VBool true) product)
                end)
    [ [("sku", Py.VStr "A")]; [("sku", Py.VStr "B")]; [("sku", Py.VStr "C")] ]
  = Ok [ [("sku", Py.VStr "A"); ("seen", Py.VBool true)];
         [("sku", Py.VStr "B")];
         [("sku", Py.VStr "C"); ("seen", Py.VBool true)] ].
Proof. reflexivity. Qed.

End CleanBatch.

(** ** Results of the pipeline runs *)

Section RunResults.

Context {W : Type}.






Section Embedding.

Variable self : PostgresToQdrant.collaborators W.
Variable to_float : Dec.decimal → float64.




End Embedding.

End RunResults.



(** A run of the transform pipeline over a valid record and a record
    without sku, with [skip_invalid = true]: the rejected record is skipped
    and its validation error is collected, so the run is not a success. *)
Example api_run_with_rejected_record :
  APIToPostgres.run
    (fixed_source
       [ [("sku", Py.VStr "sku-001"); ("name", Py.VStr " Camisa  azul ");
          ("category", Py.VStr "Shirts"); ("price", Py.VStr "1234.56");
          ("stock", Py.VInt 10)];
         [("name", Py.VStr "Sin sku"); ("category", Py.VStr "otros");
          ("price", Py.VInt 5); ("stock", Py.VInt 1)] ])
    "/products" true true tt
  = (Ok {| APIToPostgres.success := false;
           APIToPostgres.extracted := 2; APIToPostgres.validated := 1;
           APIToPostgres.cleaned := 1; APIToPostgres.normalized := 1;
           APIToPostgres.inserted := 1; APIToPostgres.updated := 0;
           APIToPostgres.errors :=
             [ValidationFailure (Py.VStr "UNKNOWN") (Validator.MissingField "sku")];
           APIToPostgres.warnings := [] |}, tt).
Proof. vm_compute. reflexivity. Qed.

(** An exception of a collaborator becomes a failed result. *)
Example api_run_with_failing_source :
  APIToPostgres.run
    (APIToPostgres.with_transformers ascii_tables
       Validator.default_config TextCleaner.default_config ProductNormalizer.default_config
       (ret tt) (ret tt) (λ _, raise (ExternalError "timeout"))
       (ret tt) (ret tt) (λ _, ret (0, 0, [])))
    "/products" true true tt
  = (Ok {| APIToPostgres.success := false;
           APIToPostgres.extracted := 0; APIToPostgres.validated := 0;
           APIToPostgres.cleaned := 0; APIToPostgres.normalized := 0;
           APIToPostgres.inserted := 0; APIToPostgres.updated := 0;
           APIToPostgres.errors := [Uncaught (ExternalError "timeout")];
           APIToPostgres.warnings := [] |}, tt).
Proof. reflexivity. Qed.

(** ** Validation rules (Validator) *)

Section Validation.

Variable self : Validator.config.

Implicit Types (r : Validator.ValidationResult) (data : list (string * Py.value)).

Lemma appends_nothing f r : appends f r r.
Proof. exists [], []. by rewrite !app_nil_r. Qed.

Lemma appends_error f r m v : appends f r (Validator.add_error r f m v).
Proof. exists [{| Validator.field := f; Validator.message_ := m; Validator.value := v |}], [].
  cbn. rewrite app_nil_r. repeat split; by repeat constructor. Qed.

Lemma appends_warning f r m v : appends f r (Validator.add_warning r f m v).
Proof. exists [], [{| Validator.field := f; Validator.message_ := m; Validator.value := v |}].
  cbn. rewrite app_nil_r. repeat split; by repeat constructor. Qed.

Lemma sku_appends v r : appends "sku" r (Validator._validate_sku v r).
Proof.
  unfold Validator._validate_sku.
  repeat case_match; auto using appends_nothing, appends_error.
Qed.

Lemma name_appends v r : appends "name" r (Validator._validate_name self v r).
Proof.
  unfold Validator._validate_name.
  repeat case_match; auto using appends_nothing, appends_error, appends_warning.
Qed.

Lemma description_appends v r :
  appends "description" r (Validator._validate_description self v r)
  ∧ Validator.errors (Validator._validate_description self v r) = Validator.errors r
  ∧ Validator.is_valid (Validator._validate_description self v r) = Validator.is_valid r.
Proof.
  unfold Validator._validate_description.
  repeat case_match; auto using appends_nothing, appends_warning.
Qed.

Lemma price_appends v r r' :
  Validator._validate_price self v r = Ok r' → appends "price" r r'.
Proof.
  unfold Validator._validate_price, bind.
  repeat case_match; intros [= <-]; auto using appends_nothing, appends_error, appends_warning.
Qed.

Lemma stock_appends v r r' :
  Validator._validate_stock self v r = Ok r' → appends "stock" r r'.
Proof.
  unfold Validator._validate_stock.
  repeat case_match; intros [= <-]; auto using appends_nothing, appends_error, appends_warning.
Qed.


(** The first stage reports nothing exactly when every required field
    passes its check; the price and the stock then have one of their
    accepted types. *)
Lemma check_required_valid data r entry :
  Validator.is_valid (Validator.check_required data r entry) = true →
  Validator.check_required data r entry = r
  ∧ Validator.is_valid r = true
  ∧ Py.is_none (Py.get_or_none entry.1 data) = false
  ∧ existsb (Validator.isinstance (Py.get_or_none entry.1 data)) entry.2 = true.
Proof.
  destruct entry as [field_name expected_types]. unfold Validator.check_required. cbn [fst snd].
  destruct (Py.is_none _); [done|]. destruct (existsb _ _); done.
Qed.

Lemma required_ok_inv data :
  required_ok data →
  Validator._validate_required_fields data no_findings = no_findings
  ∧ Py.is_none (Py.get_or_none "sku" data) = false
  ∧ Py.is_none (Py.get_or_none "name" data) = false
  ∧ Py.is_none (Py.get_or_none "price" data) = false
  ∧ Py.is_none (Py.get_or_none "stock" data) = false
  ∧ ((∃ z, Py.int (Py.get_or_none "stock" data) = Ok z)
     ∨ Py.int (Py.get_or_none "stock" data) = Raise ValueError).
Proof.
  unfold required_ok, Validator._validate_required_fields, Validator.REQUIRED_FIELDS.
  cbn [fold_left]. intros H.
  apply check_required_valid in H as (E5 & H & N5 & T5). rewrite E5.
  apply check_required_valid in H as (E4 & H & N4 & T4). rewrite E4.
  apply check_required_valid in H as (E3 & H & N3 & T3). rewrite E3.
  apply check_required_valid in H as (E2 & H & N2 & T2). rewrite E2.
  apply check_required_valid in H as (E1 & H & N1 & T1). rewrite E1.
  cbn [fst snd] in *. repeat (split; [done|]).
  destruct (Py.get_or_none "stock" data) as [| b | z | s | d | l | kv]; try done.
  - left. by eexists.
  - left. by eexists.
  - cbn [Py.int]. destruct (Py.int_of_string s); [left; by eexists|by right].
Qed.

Lemma has_error_app f r r' es :
  Validator.errors r' = Validator.errors r ++ es →
  has_error f r ∨ (∃ e, e ∈ es ∧ Validator.field e = f) → has_error f r'.
Proof.
  unfold has_error. intros -> [(e & He & Hf)|(e & He & Hf)]; exists e; (split; [|done]);
    rewrite elem_of_app; auto.
Qed.

Lemma no_error_app f f' r r' es :
  Validator.errors r' = Validator.errors r ++ es →
  Forall (λ e, Validator.field e = f') es → f' ≠ f →
  ¬ has_error f r → ¬ has_error f r'.
Proof.
  unfold has_error. intros -> Hes Hne Hno (e & He & Hf). apply elem_of_app in He as [He|He].
  - apply Hno. by exists e.
  - rewrite Forall_forall in Hes. apply Hes in He. congruence.
Qed.

Ltac price_stage :=
  eexists; split; [reflexivity|];
  split_and!; intros ? [= <-]; cbn [Dec.le Dec.lt Dec.compare Dec.of_Z bind];
  repeat match goal with H : Dec.compare_fin _ _ _ _ _ _ = _ |- _ => rewrite H; clear H end;
  intros; simplify_eq; done.

(** The rules of [validate] for a record whose required fields pass the
    first stage, when the comparisons of the price do not meet a NaN. *)
Lemma validate_rules data :
  required_ok data →
  (∀ d, price_parses data d → d ≠ Dec.DNaN) →
  Validator.min_price self ≠ Dec.DNaN →
  ∃ r,
    Validator.validate self data = Ok r
    ∧ (∀ d, price_parses data d → Dec.le d (Dec.of_Z 0) = Ok true → has_error "price" r)
    ∧ (∀ d, price_parses data d → Dec.le d (Dec.of_Z 0) = Ok false →
            Dec.lt d (Validator.min_price self) = Ok true →
            has_warning "price" r ∧ ¬ has_error "price" r)
    ∧ (∀ n, stock_parses data n → n < 0 → has_error "stock" r)
    ∧ (well_formed data → Validator.errors r = [] ∧ Validator.is_valid r = true).
Proof.
  intros Hreq Hnan Hmin.
  destruct (required_ok_inv data Hreq) as (Estage & Nsku & Nname & Nprice & Nstock & Hstock).
  unfold Validator.validate. fold no_findings. rewrite Estage. cbn [Validator.is_valid no_findings negb].
  set (r1 := Validator._validate_sku (Py.get_or_none "sku" data) no_findings).
  set (r2 := Validator._validate_name self (Py.get_or_none "name" data) r1).
  pose proof (sku_appends (Py.get_or_none "sku" data) no_findings) as A1. fold r1 in A1.
  pose proof (name_appends (Py.get_or_none "name" data) r1) as A2. fold r2 in A2.
  (* the price stage returns *)
  assert (∃ r3, Validator._validate_price self (Py.get_or_none "price" data) r2 = Ok r3
                ∧ (∀ d, price_parses data d → Dec.le d (Dec.of_Z 0) = Ok true →
                        r3 = Validator.add_error r2 "price" (Validator.PriceNotPositive d) Py.VNone)
                ∧ (∀ d, price_parses data d → Dec.le d (Dec.of_Z 0) = Ok false →
                        Dec.lt d (Validator.min_price self) = Ok true →
                        r3 = Validator.add_warning r2 "price"
                               (Validator.PriceTooLow d (Validator.min_price self)) Py.VNone)
                ∧ (∀ d, price_parses data d → Dec.le d (Dec.of_Z 0) = Ok false →
                        Validator.errors r3 = Validator.errors r2
                        ∧ Validator.is_valid r3 = Validator.is_valid r2))
    as (r3 & E3 & P3a & P3b & P3c).
  { unfold Validator._validate_price, Py.decimal_of_str, price_parses. rewrite Nprice.
    destruct (Dec.of_string _) as [d|] eqn:Ed.
    - assert (d ≠ Dec.DNaN) as Hd by (by apply Hnan).
      destruct d as [neg c e|neg|]; [| |done].
      + cbn [Dec.le Dec.compare Dec.of_Z bind].
        destruct (Dec.compare_fin _ _ _ _ _ _) eqn:Ec; cbn [bind].
        * price_stage.
        * price_stage.
        * destruct (Validator.min_price self) as [n2 c2 e2|n2|] eqn:Em; [| |done].
          -- cbn [Dec.lt Dec.compare bind].
             destruct (Dec.compare_fin _ _ _ n2 c2 e2) eqn:Ec2; cbn [bind]; price_stage.
          -- cbn [Dec.lt Dec.compare bind]. destruct n2; cbn [bind]; price_stage.
      + cbn [Dec.le Dec.compare Dec.of_Z bind]. destruct neg; cbn [bind].
        * price_stage.
        * destruct (Validator.min_price self) as [n2 c2 e2|n2|] eqn:Em; [| |done].
          -- cbn [Dec.lt Dec.compare bind]. price_stage.
          -- cbn [Dec.lt Dec.compare bind]. destruct n2; cbn [bind]; price_stage.
    - eexists. split; [done|]. split_and!; intros d' [=]. }
  pose proof (price_appends _ _ _ E3) as A3.
  (* the stock stage returns *)
  assert (∃ r4, Validator._validate_stock self (Py.get_or_none "stock" data) r3 = Ok r4
                ∧ (∀ n, stock_parses data n → n < 0 →
                        r4 = Validator.add_error r3 "stock" (Validator.NegativeStock n) Py.VNone)
                ∧ (∀ n, stock_parses data n → 0 ≤ n →
                        Validator.errors r4 = Validator.errors r3
                        ∧ Validator.is_valid r4 = Validator.is_valid r3))
    as (r4 & E4 & P4a & P4b).
  { unfold Validator._validate_stock, stock_parses. rewrite Nstock.
    destruct Hstock as [[z Hz]| ->].
    - rewrite Hz. destruct (Z.ltb_spec z 0).
      + eexists. split; [done|]. split; intros n [= <-]; [done|lia].
      + destruct (_ && _); (eexists; split; [done|]); split; intros n [= <-]; try lia; done.
    - eexists. split; [done|]. split; intros n [=]. }
  pose proof (stock_appends _ _ _ E4) as A4.
  rewrite E3. cbn [bind]. rewrite E4. cbn [bind].
  destruct (description_appends (Py.get_or_none "description" data) r4) as (A5 & E5 & V5).
  eexists. split; [done|]. rewrite E5.
  destruct A1 as (es1 & ws1 & He1 & Hw1 & Fe1 & Fw1).
  destruct A2 as (es2 & ws2 & He2 & Hw2 & Fe2 & Fw2).
  destruct A3 as (es3 & ws3 & He3 & Hw3 & Fe3 & Fw3).
  destruct A4 as (es4 & ws4 & He4 & Hw4 & Fe4 & Fw4).
  destruct A5 as (es5 & ws5 & He5 & Hw5 & Fe5 & Fw5).
  split; [|split; [|split]].
  - intros d Hd Hle. unfold has_error. rewrite E5, He4, (P3a d Hd Hle).
    cbn [Validator.errors Validator.add_error].
    exists {| Validator.field := "price"; Validator.message_ := Validator.PriceNotPositive d;
              Validator.value := Py.VNone |}.
    split; [|done]. rewrite !elem_of_app, elem_of_cons. left. right. by left.
  - intros d Hd Hle Hlt. pose proof (P3b d Hd Hle Hlt) as E. split.
    + unfold has_warning. rewrite Hw5, Hw4, E. cbn [Validator.warnings Validator.add_warning].
      exists {| Validator.field := "price";
                Validator.message_ := Validator.PriceTooLow d (Validator.min_price self);
                Validator.value := Py.VNone |}.
      split; [|done]. rewrite !elem_of_app, elem_of_cons. left. left. right. by left.
    + unfold has_error. rewrite E5, He4, E. cbn [Validator.errors Validator.add_warning].
      rewrite He2, He1. cbn [Validator.errors no_findings app]. intros (e & He & Hf).
      rewrite !elem_of_app in He. rewrite !Forall_forall in *.
      destruct He as [[He|He]|He]; [apply Fe1 in He|apply Fe2 in He|apply Fe4 in He]; congruence.
  - intros n Hn Hneg. unfold has_error. rewrite E5, (P4a n Hn Hneg).
    cbn [Validator.errors Validator.add_error].
    exists {| Validator.field := "stock"; Validator.message_ := Validator.NegativeStock n;
              Validator.value := Py.VNone |}.
    split; [|done]. rewrite elem_of_app, elem_of_cons. right. by left.
  - intros (_ & [Hsku1 Hsku2] & Hname & (neg & c & e & Hp & Hpos) & (n & Hn & Hn0)).
    rewrite V5. destruct (P4b n Hn Hn0) as [-> ->].
    assert (Dec.le (Dec.DFin neg c e) (Dec.of_Z 0) = Ok false) as Hle.
    { cbn [Dec.le Dec.compare Dec.of_Z bind]. change (0 <? 0)%Z with false.
      change (Z.abs 0) with 0%Z. by rewrite Hpos. }
    destruct (P3c _ Hp Hle) as [-> ->].
    unfold r2, r1, Validator._validate_name, Validator._validate_sku.
    rewrite Nname, Nsku, Hname, Hsku1.
    destruct (Z.ltb_spec 100 (Str.len (Str.strip (Py.str (Py.get_or_none "sku" data)))));
      [lia|].
    by destruct (_ <? _)%Z.
Qed.

End Validation.

(** The rules at work on the records of the repository's tests. *)
Lemma validate_rules_witness :
  ∃ r,
    Validator.validate Validator.default_config (example_record (Py.VInt 0) (Py.VInt (-5)))
    = Ok r
    ∧ has_error "price" r ∧ has_error "stock" r.
Proof.
  destruct (validate_rules Validator.default_config
              (example_record (Py.VInt 0) (Py.VInt (-5))))
    as (r & Hr & Hprice & _ & Hstock & _).
  - reflexivity.
  - intros d [= <-]. discriminate.
  - discriminate.
  - exists r. split; [exact Hr|]. split.
    + apply (Hprice (Dec.DFin false 0 0)); reflexivity.
    + apply (Hstock (-5)%Z); [reflexivity|lia].
Defined.

Example validate_valid_product :
  Validator.validate Validator.default_config (example_record (Py.VStr "100.00") (Py.VInt 10))
  = Ok no_findings.
Proof. vm_compute. reflexivity. Qed.

Example validate_missing_required_field :
  Validator.validate Validator.default_config
    [("name", Py.VStr "Test Product"); ("category", Py.VStr "camisas");
     ("price", Py.VInt 100); ("stock", Py.VInt 10)]
  = Ok {| Validator.is_valid := false;
          Validator.errors :=
            [{| Validator.field := "sku"; Validator.message_ := Validator.MissingField "sku";
                Validator.value := Py.VNone |}];
          Validator.warnings := [] |}.
Proof. vm_compute. reflexivity. Qed.

Example validate_invalid_price_zero :
  Validator.validate Validator.default_config (example_record (Py.VInt 0) (Py.VInt 10))
  = Ok {| Validator.is_valid := false;
          Validator.errors :=
            [{| Validator.field := "price";
                Validator.message_ := Validator.PriceNotPositive (Dec.DFin false 0 0);
                Validator.value := Py.VNone |}];
          Validator.warnings := [] |}.
Proof. vm_compute. reflexivity. Qed.

Example validate_negative_stock :
  Validator.validate Validator.default_config (example_record (Py.VInt 100) (Py.VInt (-5)))
  = Ok {| Validator.is_valid := false;
          Validator.errors :=
            [{| Validator.field := "stock";
                Validator.message_ := Validator.NegativeStock (-5);
                Validator.value := Py.VNone |}];
          Validator.warnings := [] |}.
Proof. vm_compute. reflexivity. Qed.

Example validate_low_price :
  Validator.validate Validator.default_config (example_record (Py.VStr "0.001") (Py.VInt 1))
  = Ok {| Validator.is_valid := true;
          Validator.errors := [];
          Validator.warnings :=
            [{| Validator.field := "price";
                Validator.message_ :=
                  Validator.PriceTooLow (Dec.DFin false 1 (-3)) (Dec.DFin false 1 (-2));
                Validator.value := Py.VNone |}] |}.
Proof. vm_compute. reflexivity. Qed.

(** C9, at the input on which the code departs from it.  The record has
    its required fields present and of accepted types, and its stock parses
    to the negative integer [-5]; its price is the string [NaN], which
    [Decimal] parses.  The comparison [price_decimal <= 0] then raises
    [InvalidOperation] outside the [try] of [_validate_price]: [validate]
    raises and returns no result, so no error tagged [stock] is reported. *)
Theorem validate_raises_on_nan_price :
  let data := example_record (Py.VStr "NaN") (Py.VInt (-5)) in
  required_ok data
  ∧ price_parses data Dec.DNaN
  ∧ stock_parses data (-5)
  ∧ Validator.validate Validator.default_config data = Raise InvalidOperation.
Proof. vm_compute. repeat split; reflexivity. Qed.

(** ** Price normalisation (Normalizer) *)

Section PriceString.

Implicit Types (c x y : ascii) (s r old : string).

Lemma code_eqb x y : (Str.code x =? Str.code y)%Z = Ascii.eqb x y.
Proof.
  destruct (Ascii.eqb_spec x y) as [-> |Hne]; [apply Z.eqb_refl|].
  apply Z.eqb_neq. unfold Str.code. intros Heq. apply Hne.
  apply N2Z.inj in Heq.
  by rewrite <- (ascii_N_embedding x), <- (ascii_N_embedding y), Heq.
Qed.

Lemma contains_char c s : Str.contains (String c "") s = occurs c s.
Proof.
  induction s as [|y s IH]; cbn [Str.contains Str.startswith occurs]; [done|].
  rewrite IH, code_eqb, andb_true_r, (Ascii.eqb_sym c y). done.
Qed.

Lemma replace_char_removes c s : occurs c (Str.replace (String c "") "" s) = false.
Proof.
  unfold Str.replace.
  induction s as [|y s IH]; cbn [Str.replace_go Str.startswith String.length Nat.sub occurs];
    [done|].
  rewrite code_eqb, andb_true_r.
  destruct (Ascii.eqb_spec c y) as [-> |Hne].
  - exact IH.
  - cbn [occurs]. rewrite IH, orb_false_r. by apply Ascii.eqb_neq.
Qed.

Lemma replace_go_keeps_absent c old k s :
  occurs c s = false → occurs c (Str.replace_go old "" k s) = false.
Proof.
  revert k. induction s as [|y s IH]; intros k Hs; cbn [Str.replace_go occurs] in *; [done|].
  apply orb_false_iff in Hs as [Hy Hs].
  destruct k as [|k]; [|by apply IH].
  destruct (Str.startswith old (String y s)).
  - by apply IH.
  - cbn [occurs]. rewrite Hy. by apply IH.
Qed.

Lemma replace_keeps_absent c old s :
  occurs c s = false → occurs c (Str.replace old "" s) = false.
Proof. apply replace_go_keeps_absent. Qed.

Lemma occurs_rev_onto c s r :
  occurs c (Str.rev_onto s r) = occurs c s || occurs c r.
Proof.
  revert r. induction s as [|y s IH]; intros r; cbn [Str.rev_onto occurs]; [done|].
  rewrite IH. cbn [occurs]. destruct (Ascii.eqb y c), (occurs c s), (occurs c r); done.
Qed.

Lemma occurs_rev c s : occurs c (Str.rev s) = occurs c s.
Proof. unfold Str.rev. rewrite occurs_rev_onto. cbn [occurs]. apply orb_false_r. Qed.

Lemma lstrip_eq s :
  Str.lstrip s
  = match s with
    | EmptyString => s
    | String a r1 =>
        if Str.space1 a then Str.lstrip r1
        else
          match r1 with
          | EmptyString => s
          | String b r2 =>
              if Str.space2 a b then Str.lstrip r2
              else
                match r2 with
                | EmptyString => s
                | String d r3 => if Str.space3 a b d then Str.lstrip r3 else s
                end
          end
    end.
Proof. by destruct s. Qed.

Lemma lstrip_keeps_absent c s : occurs c s = false → occurs c (Str.lstrip s) = false.
Proof.
  remember (String.length s) as n eqn:Hn. revert s Hn.
  induction (lt_wf n) as [n _ IH]. intros s -> Hall.
  destruct s as [|a r1]; rewrite lstrip_eq; lazy beta iota; [done|].
  pose proof Hall as Hs. cbn [occurs] in Hs. apply orb_false_iff in Hs as [_ Hs1].
  destruct (Str.space1 a).
  { apply (IH (String.length r1)); [cbn [String.length]; lia|reflexivity|exact Hs1]. }
  destruct r1 as [|b r2]; [exact Hall|].
  pose proof Hs1 as Hs. cbn [occurs] in Hs. apply orb_false_iff in Hs as [_ Hs2].
  destruct (Str.space2 a b).
  { apply (IH (String.length r2)); [cbn [String.length]; lia|reflexivity|exact Hs2]. }
  destruct r2 as [|d r3]; [exact Hall|].
  pose proof Hs2 as Hs. cbn [occurs] in Hs. apply orb_false_iff in Hs as [_ Hs3].
  destruct (Str.space3 a b d); [|exact Hall].
  apply (IH (String.length r3)); [cbn [String.length]; lia|reflexivity|exact Hs3].
Qed.

Lemma lstrip_rev_eq s :
  Str.lstrip_rev s
  = match s with
    | EmptyString => s
    | String a r1 =>
        if Str.space1 a then Str.lstrip_rev r1
        else
          match r1 with
          | EmptyString => s
          | String b r2 =>
              if Str.space2 b a then Str.lstrip_rev r2
              else
                match r2 with
                | EmptyString => s
                | String d r3 => if Str.space3 d b a then Str.lstrip_rev r3 else s
                end
          end
    end.
Proof. by destruct s. Qed.

Lemma lstrip_rev_keeps_absent c s : occurs c s = false → occurs c (Str.lstrip_rev s) = false.
Proof.
  remember (String.length s) as n eqn:Hn. revert s Hn.
  induction (lt_wf n) as [n _ IH]. intros s -> Hall.
  destruct s as [|a r1]; rewrite lstrip_rev_eq; lazy beta iota; [done|].
  pose proof Hall as Hs. cbn [occurs] in Hs. apply orb_false_iff in Hs as [_ Hs1].
  destruct (Str.space1 a).
  { apply (IH (String.length r1)); [cbn [String.length]; lia|reflexivity|exact Hs1]. }
  destruct r1 as [|b r2]; [exact Hall|].
  pose proof Hs1 as Hs. cbn [occurs] in Hs. apply orb_false_iff in Hs as [_ Hs2].
  destruct (Str.space2 b a).
  { apply (IH (String.length r2)); [cbn [String.length]; lia|reflexivity|exact Hs2]. }
  destruct r2 as [|d r3]; [exact Hall|].
  pose proof Hs2 as Hs. cbn [occurs] in Hs. apply orb_false_iff in Hs as [_ Hs3].
  destruct (Str.space3 d b a); [|exact Hall].
  apply (IH (String.length r3)); [cbn [String.length]; lia|reflexivity|exact Hs3].
Qed.

Lemma strip_keeps_absent c s : occurs c s = false → occurs c (Str.strip s) = false.
Proof.
  intros Hs. unfold Str.strip, Str.rstrip. rewrite occurs_rev.
  apply lstrip_rev_keeps_absent. rewrite occurs_rev. by apply lstrip_keeps_absent.
Qed.

(** The string that reaches the test for the European format holds no
    comma, so the test fails and the string is parsed as it stands. *)
Lemma clean_price_string_drops_commas s :
  ProductNormalizer.clean_price_string s
  = Str.strip (Str.replace " " "" (Str.replace "," ""
      (Str.replace "£" "" (Str.replace "€" "" (Str.replace "$" "" s)))))
  ∧ occurs "," (ProductNormalizer.clean_price_string s) = false.
Proof.
  assert (occurs ","
            (Str.strip (Str.replace " " "" (Str.replace "," ""
               (Str.replace "£" "" (Str.replace "€" "" (Str.replace "$" "" s))))))
          = false) as Hno.
  { apply strip_keeps_absent, replace_keeps_absent, replace_char_removes. }
  unfold ProductNormalizer.clean_price_string.
  rewrite contains_char, Hno. cbn [andb]. done.
Qed.

End PriceString.

(** C3, on the inputs of the claim.  [normalize_price] gives [1234.56] on
    ["$1,234.56"], [1000.00] on the integer [1000] and zero on a string that
    is no number.  On ["1.234,56"], where the comma comes after the point,
    it gives [1.23] and not [1234.56]: for every string the commas are
    removed before the test for the European format, which therefore never
    applies, and a comma is never read as the decimal point. *)
Theorem normalize_price_on_claimed_inputs :
  let normalize_price := ProductNormalizer.normalize_price ProductNormalizer.default_config in
  normalize_price (Py.VStr "$1,234.56") = Ok (Dec.DFin false 123456 (-2))
  ∧ normalize_price (Py.VInt 1000) = Ok (Dec.DFin false 100000 (-2))
  ∧ normalize_price (Py.VStr "not a price") = Ok (Dec.DFin false 0 0)
  ∧ normalize_price Py.VNone = Ok (Dec.DFin false 0 0)
  ∧ ProductNormalizer.clean_price_string "1.234,56" = "1.23456"
  ∧ normalize_price (Py.VStr "1.234,56") = Ok (Dec.DFin false 123 (-2))
  ∧ Dec.eqb (Dec.DFin false 123 (-2)) (Dec.DFin false 123456 (-2)) = false
  ∧ (∀ s, occurs "," (ProductNormalizer.clean_price_string s) = false).
Proof.
  split_and!; try (vm_compute; reflexivity).
  intros s. apply clean_price_string_drops_commas.
Qed.

(** ** Duplicate handling (Normalizer) *)

Section Duplicates.

Import ProductNormalizer.

Implicit Types (d : list (string * list (string * Py.value))).
Implicit Types (p e m : list (string * Py.value)) (s k j : string).
Implicit Types (products g : list (list (string * Py.value))).


Lemma seen_get_str s d : seen_get (Py.VStr s) (str_keys d) = Dict.get s d.
Proof.
  induction d as [|[k0 v0] d IH]; cbn [str_keys map seen_get Dict.get fst snd Py.key_eqb].
  - done.
  - destruct (String.eqb k0 s); [done|exact IH].
Qed.

Lemma seen_set_str s p d :
  seen_set (Py.VStr s) p (str_keys d) = str_keys (Dict.set s p d).
Proof.
  induction d as [|[k0 v0] d IH]; cbn [str_keys map seen_set Dict.set fst snd Py.key_eqb].
  - done.
  - destruct (String.eqb k0 s); cbn [map fst snd]; [done|].
    f_equal. exact IH.
Qed.

Lemma map_snd_str_keys d : map snd (str_keys d) = map snd d.
Proof. unfold str_keys. rewrite map_map. done. Qed.

Lemma keys_set_order k (v : list (string * Py.value)) d :
  Dict.keys (Dict.set k v d) = add_new (Dict.keys d) k.
Proof.
  unfold Dict.keys, add_new.
  induction d as [|[k0 v0] d IH]; cbn [Dict.set map fst].
  - rewrite bool_decide_eq_false_2 by apply not_elem_of_nil. done.
  - destruct (String.eqb_spec k0 k) as [-> |Hne]; cbn [map fst].
    + rewrite bool_decide_eq_true_2 by apply list_elem_of_here. done.
    + rewrite IH. case_bool_decide as Hin.
      * rewrite bool_decide_eq_true_2 by by apply list_elem_of_further. done.
      * rewrite bool_decide_eq_false_2; [done|].
        rewrite elem_of_cons. intros [?|?]; [congruence|done].
Qed.

Lemma add_new_NoDup acc s : NoDup acc → NoDup (add_new acc s).
Proof.
  intros Hnd. unfold add_new. case_bool_decide as Hin; [done|].
  apply NoDup_app. split_and!; [done| |apply NoDup_singleton].
  intros x Hx Hx'. apply list_elem_of_singleton in Hx'. by subst.
Qed.

Lemma seen_order_NoDup l acc : NoDup acc → NoDup (fold_left add_new l acc).
Proof.
  revert acc. induction l as [|s l IH]; intros acc Hnd; cbn [fold_left]; [done|].
  apply IH. by apply add_new_NoDup.
Qed.

Lemma elem_of_add_new acc s x : x ∈ add_new acc s ↔ x ∈ acc ∨ x = s.
Proof.
  unfold add_new. case_bool_decide as Hin.
  - split; [by left|]. intros [?| ->]; done.
  - rewrite elem_of_app, list_elem_of_singleton. done.
Qed.

Lemma elem_of_seen_order l acc x : x ∈ fold_left add_new l acc ↔ x ∈ acc ∨ x ∈ l.
Proof.
  revert acc. induction l as [|s l IH]; intros acc; cbn [fold_left].
  - rewrite elem_of_nil. tauto.
  - rewrite IH, elem_of_add_new, elem_of_cons. tauto.
Qed.

Lemma distinct_NoDup l : NoDup (distinct l).
Proof. apply seen_order_NoDup, NoDup_nil_2. Qed.

Lemma elem_of_distinct l x : x ∈ distinct l ↔ x ∈ l.
Proof. unfold distinct. rewrite elem_of_seen_order, elem_of_nil. tauto. Qed.

Lemma get_of_elem d s m :
  NoDup (Dict.keys d) → (s, m) ∈ d → Dict.get s d = Some m.
Proof.
  unfold Dict.keys.
  induction d as [|[k0 v0] d IH]; cbn [map fst Dict.get]; intros Hnd Hin.
  - by apply elem_of_nil in Hin.
  - apply NoDup_cons in Hnd as [Hk0 Hnd].
    apply elem_of_cons in Hin as [[= -> ->]|Hin].
    + by rewrite String.eqb_refl.
    + destruct (String.eqb_spec k0 s) as [-> |Hne]; [|by apply IH].
      exfalso. apply Hk0. apply list_elem_of_fmap. by exists (s, m).
Qed.

Lemma Forall2_entries d (P : string → list (string * Py.value) → Prop) :
  (∀ s m, (s, m) ∈ d → P s m) → Forall2 P (Dict.keys d) (map snd d).
Proof.
  unfold Dict.keys. induction d as [|[k0 v0] d IH]; intros H; cbn [map fst snd].
  - constructor.
  - constructor.
    + apply H, list_elem_of_here.
    + apply IH. intros s m Hin. by apply H, list_elem_of_further.
Qed.

Lemma group_cons s p products :
  group s (p :: products)
  = if decide (sku_of p = s) then p :: group s products else group s products.
Proof. unfold group. by rewrite filter_cons. Qed.

(** *** One turn of the loop, on a record with a string sku *)



(** *** [keep_latest] *)


(** *** [merge] *)








End Duplicates.


Example keep_latest_example :
  ProductNormalizer.handle_duplicates (ProductNormalizer.with_strategy "keep_latest")
    [stock_record "A" 10; stock_record "A" 20] "sku" None
  = Ok [stock_record "A" 20].
Proof. vm_compute. reflexivity. Qed.

Example merge_example :
  ProductNormalizer.handle_duplicates (ProductNormalizer.with_strategy "merge")
    [stock_record "A" 10; stock_record "A" 20] "sku" None
  = Ok [stock_record "A" 30].
Proof. vm_compute. reflexivity. Qed.

Example keep_first_example :
  ProductNormalizer.handle_duplicates (ProductNormalizer.with_strategy "keep_first")
    [stock_record "A" 10; stock_record "A" 20] "sku" None
  = Ok [stock_record "A" 10].
Proof. vm_compute. reflexivity. Qed.

Example merge_fields_example :
  ProductNormalizer.handle_duplicates (ProductNormalizer.with_strategy "merge")
    [ [("sku", Py.VStr "A"); ("name", Py.VStr "Product V1"); ("stock", Py.VInt 10);
       ("description", Py.VStr "first");
       ("attributes", Py.VDict [("color", Py.VStr "rojo"); ("talla", Py.VStr "M")])];
      [("sku", Py.VStr "B"); ("name", Py.VStr "Other"); ("stock", Py.VInt 5)];
      [("sku", Py.VStr "A"); ("name", Py.VStr "Product V2"); ("stock", Py.VInt 20);
       ("description", Py.VNone);
       ("attributes", Py.VDict [("color", Py.VStr "azul")])] ] "sku" None
  = Ok [ [("sku", Py.VStr "A"); ("name", Py.VStr "Product V2"); ("stock", Py.VInt 30);
          ("description", Py.VStr "first");
          ("attributes", Py.VDict [("color", Py.VStr "azul"); ("talla", Py.VStr "M")])];
         [("sku", Py.VStr "B"); ("name", Py.VStr "Other"); ("stock", Py.VInt 5)] ].
Proof. vm_compute. reflexivity. Qed.

(** A stock that is null in the earlier record and an integer in the later
    one cannot be added: the merge raises. *)
Example merge_null_stock :
  ProductNormalizer.handle_duplicates (ProductNormalizer.with_strategy "merge")
    [ [("sku", Py.VStr "A"); ("stock", Py.VNone)]; stock_record "A" 20 ] "sku" None
  = Raise TypeError.
Proof. vm_compute. reflexivity. Qed.

(** ** The text hash of a product *)

Section TextHash.

Implicit Types (c : ascii) (a r s : string) (p q : ProductDB).


















End TextHash.




Example compute_text_hash_example :
  text_content (text_product "Camisa" None "camisas"
                  [("talla", Py.VStr "M"); ("peso", Py.VInt 3); ("color", Py.VStr "azul")]
                  (Dec.DFin false 100 0) 1)
  = "Camisa||camisas|color:azul|talla:M".
Proof. vm_compute. reflexivity. Qed.

(** ** More on the validator *)

Section ValidatorResults.

Variable self : Validator.config.

Implicit Types (r : Validator.ValidationResult) (data : list (string * Py.value)).

Lemma coherent_add_error r f m v : coherent (Validator.add_error r f m v).
Proof.
  unfold coherent. cbn. split; [done|]. intros H. by destruct (Validator.errors r).
Qed.

Lemma coherent_add_warning r f m v :
  coherent r → coherent (Validator.add_warning r f m v).
Proof. done. Qed.

Lemma coherent_required data entries r :
  coherent r → coherent (fold_left (Validator.check_required data) entries r).
Proof.
  revert r. induction entries as [|[f types] entries IH]; intros r Hr; [done|].
  cbn [fold_left]. apply IH. unfold Validator.check_required.
  repeat case_match; auto using coherent_add_error.
Qed.

Lemma coherent_validate data r :
  Validator.validate self data = Ok r → coherent r.
Proof.
  unfold Validator.validate.
  pose proof (coherent_required data Validator.REQUIRED_FIELDS
                {| Validator.is_valid := true; Validator.errors := [];
                   Validator.warnings := [] |}) as H0.
  fold (Validator._validate_required_fields data
          {| Validator.is_valid := true; Validator.errors := [];
             Validator.warnings := [] |}) in H0.
  set (r0 := Validator._validate_required_fields data _) in *.
  assert (coherent r0) as Hr0 by by apply H0.
  clearbody r0. clear H0.
  destruct (negb (Validator.is_valid r0)); [by intros [= <-]|].
  assert (coherent (Validator._validate_sku (Py.get_or_none "sku" data) r0)) as H1.
  { unfold Validator._validate_sku.
    repeat case_match; auto using coherent_add_error. }
  set (r1 := Validator._validate_sku _ r0) in *. clearbody r1.
  assert (coherent (Validator._validate_name self (Py.get_or_none "name" data) r1)) as H2.
  { unfold Validator._validate_name.
    repeat case_match; auto using coherent_add_error, coherent_add_warning. }
  set (r2 := Validator._validate_name self _ r1) in *. clearbody r2.
  destruct (Validator._validate_price self (Py.get_or_none "price" data) r2)
    as [r3|e] eqn:E3; cbn [bind]; [|done].
  assert (coherent r3) as H3.
  { unfold Validator._validate_price, bind in E3.
    repeat (case_match; simplify_eq);
      auto using coherent_add_error, coherent_add_warning. }
  destruct (Validator._validate_stock self (Py.get_or_none "stock" data) r3)
    as [r4|e] eqn:E4; cbn [bind]; [|done].
  assert (coherent r4) as H4.
  { unfold Validator._validate_stock, bind in E4.
    repeat (case_match; simplify_eq);
      auto using coherent_add_error, coherent_add_warning. }
  intros [= <-]. unfold Validator._validate_description.
  repeat case_match; auto using coherent_add_warning.
Qed.

(** The result that [validate] returns is marked valid exactly when it
    lists no error. *)
Theorem validate_valid_iff_no_errors data r :
  Validator.validate self data = Ok r →
  (Validator.is_valid r = true ↔ Validator.errors r = []).
Proof. apply coherent_validate. Qed.

(** *** The first stage *)

Lemma required_findings data entries r :
  let r' := fold_left (Validator.check_required data) entries r in
  Validator.warnings r' = Validator.warnings r
  ∧ map Validator.field (Validator.errors r')
    = map Validator.field (Validator.errors r) ++ map fst (List.filter (bad_field data) entries)
  ∧ (Validator.is_valid r' = true ↔
     Validator.is_valid r = true ∧ List.filter (bad_field data) entries = []).
Proof.
  revert r. induction entries as [|[f types] entries IH]; intros r.
  - cbn. rewrite app_nil_r. tauto.
  - cbn [fold_left List.filter].
    destruct (IH (Validator.check_required data r (f, types))) as (Hw & He & Hv).
    cbn zeta. rewrite Hw, He, Hv. clear IH Hw He Hv.
    assert (bad_field data (f, types)
            = Py.is_none (Py.get_or_none f data)
              || negb (existsb (Validator.isinstance (Py.get_or_none f data)) types))
      as -> by reflexivity.
    unfold Validator.check_required.
    destruct (Py.is_none (Py.get_or_none f data)); cbn [orb].
    + cbn. rewrite map_app, <- app_assoc. cbn. split_and!; [done|done|].
      split; [by intros [? _]|by intros [_ ?]].
    + destruct (existsb (Validator.isinstance (Py.get_or_none f data)) types); cbn [negb].
      * tauto.
      * cbn. rewrite map_app, <- app_assoc. cbn. split_and!; [done|done|].
        split; [by intros [? _]|by intros [_ ?]].
Qed.

(** When a required field is missing or of a wrong type, [validate]
    returns (it does not go on to parse the price or the stock) an invalid
    result without warnings, whose errors are those of the required fields
    at fault, one each, in the order of [REQUIRED_FIELDS]. *)
Theorem validate_stops_at_required_fields data :
  List.filter (bad_field data) Validator.REQUIRED_FIELDS ≠ [] →
  ∃ r, Validator.validate self data = Ok r
     ∧ Validator.is_valid r = false
     ∧ Validator.warnings r = []
     ∧ map Validator.field (Validator.errors r)
       = map fst (List.filter (bad_field data) Validator.REQUIRED_FIELDS).
Proof.
  intros Hbad.
  destruct (required_findings data Validator.REQUIRED_FIELDS
              {| Validator.is_valid := true; Validator.errors := [];
                 Validator.warnings := [] |}) as (Hw & He & Hv).
  unfold Validator.validate.
  fold (Validator._validate_required_fields data
          {| Validator.is_valid := true; Validator.errors := [];
             Validator.warnings := [] |}) in *.
  set (r0 := Validator._validate_required_fields data _) in *.
  assert (Validator.is_valid r0 = false) as Hinv.
  { destruct (Validator.is_valid r0); [|done]. by destruct (proj1 Hv eq_refl). }
  rewrite Hinv. cbn [negb]. exists r0. split_and!; done.
Qed.

(** *** Batches *)

Lemma validate_batch_loop_spec skip_invalid products valid invalid :
  Validator.validate_batch_loop self skip_invalid products (valid, invalid)
  = let* results := mapM (Validator.validate self) products in
    Ok (valid ++ accepted skip_invalid (zip products results),
        invalid ++ rejected (zip products results)).
Proof.
  revert valid invalid.
  induction products as [|p products IH]; intros valid invalid.
  - cbn. by rewrite !app_nil_r.
  - cbn [Validator.validate_batch_loop mapM Validator.validate_batch_step].
    destruct (Validator.validate self p) as [r|e]; cbn [bind]; [|done].
    destruct (Validator.is_valid r) eqn:Hr; cbn [bind]; rewrite IH;
      destruct (mapM (Validator.validate self) products) as [results|e];
      cbn [bind]; try done.
    + unfold accepted, rejected.
      cbn [zip zip_with List.filter fst snd]. rewrite Hr. cbn [orb negb map fst].
      by rewrite <- !app_assoc.
    + unfold accepted, rejected.
      cbn [zip zip_with List.filter fst snd]. rewrite Hr. cbn [orb negb map fst].
      destruct skip_invalid; cbn [negb map fst]; by rewrite <- !app_assoc.
Qed.

(** [validate_batch] validates the records in order and stops with the
    exception of the first record on which [validate] raises; otherwise it
    returns the rejected records with their results and, as accepted, the
    valid records, or every record when invalid ones are not skipped. *)
Theorem validate_batch_partition skip_invalid products :
  Validator.validate_batch self products skip_invalid
  = (let* results := mapM (Validator.validate self) products in
     Ok (accepted skip_invalid (zip products results), rejected (zip products results)))
  ∧ (∀ results, mapM (Validator.validate self) products = Ok results →
       length results = length products
       ∧ (skip_invalid = false → accepted skip_invalid (zip products results) = products)
       ∧ Forall (λ pr, Validator.is_valid pr.2 = false) (rejected (zip products results))).
Proof.
  split.
  - unfold Validator.validate_batch. by rewrite validate_batch_loop_spec.
  - intros results Hres.
    assert (length results = length products) as Hlen.
    { revert results Hres. induction products as [|p ps IH]; intros results Hres.
      - by injection Hres as <-.
      - cbn [mapM] in Hres. destruct (Validator.validate self p); [|done].
        cbn [bind] in Hres. destruct (mapM (Validator.validate self) ps); [|done].
        cbn [bind] in Hres. injection Hres as <-. cbn. f_equal. by apply IH. }
    split_and!; [done| |].
    + intros ->. unfold accepted.
      rewrite List.forallb_filter_id.
      * apply fst_zip. lia.
      * apply forallb_forall. intros pr _. apply orb_true_r.
    + unfold rejected. apply Forall_forall. intros pr Hin.
      apply list_elem_of_In, filter_In in Hin as [_ Hin].
      by apply negb_true_iff.
Qed.

End ValidatorResults.

Lemma validate_valid_iff_no_errors_witness :
  Validator.is_valid
    {| Validator.is_valid := false;
       Validator.errors :=
         [{| Validator.field := "stock";
             Validator.message_ := Validator.NegativeStock (-5);
             Validator.value := Py.VNone |}];
       Validator.warnings := [] |} = true
  ↔ Validator.errors
      {| Validator.is_valid := false;
         Validator.errors :=
           [{| Validator.field := "stock";
               Validator.message_ := Validator.NegativeStock (-5);
               Validator.value := Py.VNone |}];
         Validator.warnings := [] |} = [].
Proof.
  apply (validate_valid_iff_no_errors Validator.default_config
           (example_record (Py.VInt 100) (Py.VInt (-5)))).
  vm_compute. reflexivity.
Defined.

Lemma validate_stops_at_required_fields_witness :
  ∃ r, Validator.validate Validator.default_config
         [("name", Py.VInt 3); ("category", Py.VStr "camisas"); ("price", Py.VStr "NaN")]
       = Ok r
     ∧ Validator.is_valid r = false
     ∧ Validator.warnings r = []
     ∧ map Validator.field (Validator.errors r) = ["sku"; "name"; "stock"].
Proof.
  apply (validate_stops_at_required_fields Validator.default_config
           [("name", Py.VInt 3); ("category", Py.VStr "camisas"); ("price", Py.VStr "NaN")]).
  vm_compute. discriminate.
Defined.

(** ** More on the cleaner and the normalizer *)

Section RecordFields.

Context {V : Type}.
Implicit Types (d : list (string * V)) (k j : string) (v : V).

Lemma keys_set_present k v d :
  is_Some (Dict.get k d) → Dict.keys (Dict.set k v d) = Dict.keys d.
Proof.
  unfold Dict.keys. induction d as [|[k0 v0] d IH]; cbn [Dict.get Dict.set map fst].
  - by intros [? ?].
  - destruct (String.eqb_spec k0 k) as [-> |Hne]; cbn [map fst]; [done|].
    intros H. by rewrite IH.
Qed.

Lemma set_absent k v d : Dict.get k d = None → Dict.set k v d = d ++ [(k, v)].
Proof.
  induction d as [|[k0 v0] d IH]; cbn [Dict.get Dict.set]; [done|].
  destruct (String.eqb k0 k); [done|]. intros H. cbn. by rewrite IH.
Qed.

Lemma elem_of_set k v d (x : string * V) :
  x ∈ Dict.set k v d → x = (k, v) ∨ x ∈ d.
Proof.
  induction d as [|[k0 v0] d IH]; cbn [Dict.set].
  - rewrite list_elem_of_singleton. by left.
  - destruct (String.eqb_spec k0 k) as [-> |Hne]; rewrite !elem_of_cons.
    + intros [->|?]; [by left|right; by right].
    + intros [->|H]; [right; by left|].
      destruct (IH H) as [?|?]; [by left|right; by right].
Qed.

Lemma elem_of_get k v d : Dict.get k d = Some v → (k, v) ∈ d.
Proof.
  induction d as [|[k0 v0] d IH]; cbn [Dict.get]; [done|].
  destruct (String.eqb_spec k0 k) as [-> |Hne].
  - intros [= ->]. apply list_elem_of_here.
  - intros H. apply list_elem_of_further. by apply IH.
Qed.

End RecordFields.

Section CleanerFields.

Variable u : TextCleaner.unicode.
Variable self : TextCleaner.config.

Implicit Types (d product : list (string * Py.value)) (k j : string).

Lemma keys_update_if_present k f d :
  Dict.keys (TextCleaner.update_if_present k f d) = Dict.keys d.
Proof.
  unfold TextCleaner.update_if_present.
  destruct (Dict.get k d) eqn:E; [|done]. apply keys_set_present. by rewrite E.
Qed.

Lemma get_update_if_present k f d j :
  Dict.get j (TextCleaner.update_if_present k f d)
  = if String.eqb k j then f <$> Dict.get j d else Dict.get j d.
Proof.
  unfold TextCleaner.update_if_present.
  destruct (String.eqb_spec k j) as [-> |Hne].
  - destruct (Dict.get j d) eqn:E; [|by rewrite E]. by rewrite get_set_eq.
  - destruct (Dict.get k d); [|done]. by apply get_set_ne.
Qed.

(** [clean_product] keeps the fields of the record, in their order, and
    rewrites only the six textual ones; a name, a category and a unit that
    are present are strings afterwards. *)
Theorem clean_product_keeps_fields product :
  let cleaned := TextCleaner.clean_product u self product in
  Dict.keys cleaned = Dict.keys product
  ∧ (∀ k, k ∉ cleaned_fields → Dict.get k cleaned = Dict.get k product)
  ∧ (∀ k, k ∈ ["name"; "category"; "unit"] → is_Some (Dict.get k product) →
       ∃ s, Dict.get k cleaned = Some (Py.VStr s)).
Proof.
  cbn zeta. unfold TextCleaner.clean_product. split_and!.
  - by rewrite !keys_update_if_present.
  - intros k Hk. unfold cleaned_fields in Hk.
    rewrite !not_elem_of_cons in Hk. destruct Hk as (?&?&?&?&?&?&_).
    rewrite !get_update_if_present.
    repeat (match goal with
            | |- context [String.eqb ?a k] =>
                destruct (String.eqb_spec a k); [congruence|]
            end).
    done.
  - intros k Hk [v Hv]. rewrite !elem_of_cons in Hk.
    rewrite !get_update_if_present.
    destruct Hk as [-> |[-> |[-> |Hk]]]; [| | |by apply elem_of_nil in Hk];
      cbn [String.eqb Ascii.eqb Bool.eqb]; rewrite Hv; cbn [fmap option_fmap option_map].
    + unfold TextCleaner.or_empty. destruct (TextCleaner.clean_text u self v); eauto.
    + unfold TextCleaner.or_empty. destruct (TextCleaner.clean_text u self v); eauto.
    + eauto.
Qed.

Lemma clean_attribute_entries (P : string * Py.value → Prop) acc kv :
  (∀ k s, s ≠ "" → k ≠ "" → P (k, Py.VStr s)) →
  (∀ k v, k ≠ "" → Py.is_str v = false → P (k, v)) →
  Forall P acc → Forall P (TextCleaner.clean_attribute u self acc kv).
Proof.
  intros Hstr Hother Hacc. destruct kv as [key v]. unfold TextCleaner.clean_attribute.
  destruct (TextCleaner.clean_text u self (Py.VStr key)) as [clean_key|]; [|done].
  destruct clean_key as [|c r]; [done|]. cbn [Str.is_empty].
  assert (∀ x, P (String c r, x) → Forall P (Dict.set (String c r) x acc)) as Hset.
  { intros x Hx. apply Forall_forall. intros y Hy.
    apply elem_of_set in Hy as [-> |Hy]; [done|].
    by apply (proj1 (Forall_forall _ _) Hacc). }
  destruct v; try (apply Hset, Hother; done).
  destruct (TextCleaner.clean_text u self (Py.VStr s)) as [[|c' r']|]; try done.
  cbn [Str.is_empty]. apply Hset, Hstr; done.
Qed.

(** No attribute comes out of [_clean_attributes] under an empty key or
    with an empty string as its value. *)
Theorem clean_attributes_drops_empty attributes k v :
  (k, v) ∈ TextCleaner._clean_attributes u self attributes →
  k ≠ "" ∧ v ≠ Py.VStr "".
Proof.
  unfold TextCleaner._clean_attributes.
  assert (∀ acc, Forall (λ kv, kv.1 ≠ "" ∧ kv.2 ≠ Py.VStr "") acc →
            Forall (λ kv, kv.1 ≠ "" ∧ kv.2 ≠ Py.VStr "")
              (fold_left (TextCleaner.clean_attribute u self) attributes acc)) as H.
  { induction attributes as [|kv attrs IH]; intros acc Hacc; [done|].
    cbn [fold_left]. apply IH. apply clean_attribute_entries; [| |done].
    - intros k' s Hs Hk'. cbn. split; [done|]. by intros [= ->].
    - intros k' v' Hk' Hv'. cbn. split; [done|]. intros ->. done. }
  intros Hin. specialize (H [] (Forall_nil_2 _)).
  by apply (proj1 (Forall_forall _ _) H (k, v)).
Qed.

End CleanerFields.

Lemma clean_attributes_drops_empty_witness :
  "color" ≠ "" ∧ Py.VStr "rojo" ≠ Py.VStr "".
Proof.
  apply (clean_attributes_drops_empty ascii_tables TextCleaner.default_config
           [(" color ", Py.VStr " rojo "); ("talla", Py.VStr "  "); ("  ", Py.VInt 3)]).
  vm_compute. apply list_elem_of_here.
Defined.

Section NormalizerFields.

Import ProductNormalizer.

Variable self : config.
Variable lower : string → string.

Implicit Types (product q : list (string * Py.value)) (k : string).

Lemma normalize_stock_result v r :
  normalize_stock v = Ok r → ∃ n, r = Py.VInt n ∧ 0 ≤ n.
Proof.
  unfold normalize_stock, try_except_of.
  destruct (Py.int v) as [n|e]; cbn [bind].
  - intros [= <-]. exists (Z.max 0 n). split; [done|lia].
  - destruct e; try done; intros [= <-]; by exists 0.
Qed.

(** When [normalize_product] returns, the record has the fields it had,
    in their order; only category, price and stock are rewritten; a stock
    that was present is an integer that is not negative, a price a decimal
    and a category a string. *)
Theorem normalize_product_fields product q :
  normalize_product self lower product = Ok q →
  Dict.keys q = Dict.keys product
  ∧ (∀ k, k ∉ normalized_fields → Dict.get k q = Dict.get k product)
  ∧ (is_Some (Dict.get "stock" product) →
       ∃ n, Dict.get "stock" q = Some (Py.VInt n) ∧ 0 ≤ n)
  ∧ (is_Some (Dict.get "price" product) → ∃ d, Dict.get "price" q = Some (Py.VDec d))
  ∧ (is_Some (Dict.get "category" product) → ∃ s, Dict.get "category" q = Some (Py.VStr s)).
Proof.
  unfold normalize_product.
  set (q0 := TextCleaner.update_if_present "category" _ product).
  assert (Dict.keys q0 = Dict.keys product) as K0 by apply keys_update_if_present.
  assert (∀ k, Dict.get k q0
               = if String.eqb "category" k
                 then (λ v, Py.VStr (normalize_category self lower v)) <$> Dict.get k product
                 else Dict.get k product) as G0.
  { intros k. apply get_update_if_present. }
  clearbody q0.
  set (m1 := match Dict.get "price" q0 with Some v => _ | None => Ok q0 end).
  destruct m1 as [q1|e] eqn:E1; cbn [bind]; [|done]. subst m1.
  assert (Dict.keys q1 = Dict.keys q0
          ∧ ∀ k, Dict.get k q1
                 = if String.eqb "price" k
                   then match Dict.get k q0 with
                        | Some _ => Dict.get k q1
                        | None => None
                        end
                   else Dict.get k q0) as [K1 G1].
  { destruct (Dict.get "price" q0) as [v|] eqn:Ep.
    - destruct (normalize_price self v) as [p|]; cbn [bind] in E1; [|done].
      injection E1 as <-. split.
      + apply keys_set_present. by rewrite Ep.
      + intros k. rewrite get_set.
        destruct (String.eqb_spec "price" k) as [<- |]; [|done].
        by rewrite Ep.
    - injection E1 as <-. split; [done|]. intros k.
      destruct (String.eqb_spec "price" k) as [<- |]; [|done]. by rewrite Ep. }
  assert (is_Some (Dict.get "price" q0) → ∃ d, Dict.get "price" q1 = Some (Py.VDec d)) as P1.
  { intros [v Hv]. rewrite Hv in E1.
    destruct (normalize_price self v) as [p|]; cbn [bind] in E1; [|done].
    injection E1 as <-. exists p. apply get_set_eq. }
  clear E1.
  intros Hq.
  assert (Dict.keys q = Dict.keys q1
          ∧ (∀ k, k ≠ "stock" → Dict.get k q = Dict.get k q1)
          ∧ (is_Some (Dict.get "stock" q1) →
               ∃ n, Dict.get "stock" q = Some (Py.VInt n) ∧ 0 ≤ n)) as (K2 & G2 & S2).
  { destruct (Dict.get "stock" q1) as [v|] eqn:Es.
    - destruct (normalize_stock v) as [r|] eqn:Er; cbn [bind] in Hq; [|done].
      injection Hq as <-. split_and!.
      + apply keys_set_present. by rewrite Es.
      + intros k Hk. apply get_set_ne. congruence.
      + intros _. destruct (normalize_stock_result _ _ Er) as (n & -> & Hn).
        exists n. split; [apply get_set_eq|done].
    - injection Hq as <-. split_and!; [done|done|]. by intros [? ?]. }
  split_and!.
  - by rewrite K2, K1, K0.
  - intros k Hk. unfold normalized_fields in Hk. rewrite !not_elem_of_cons in Hk.
    destruct Hk as (Hc & Hp & Hs & _).
    rewrite G2, G1, G0 by done.
    destruct (String.eqb_spec "price" k); [congruence|].
    destruct (String.eqb_spec "category" k); [congruence|]. done.
  - intros Hs. apply S2. rewrite G1, G0. cbn [String.eqb Ascii.eqb Bool.eqb]. done.
  - intros Hp. destruct P1 as [d Hd].
    { rewrite G0. cbn [String.eqb Ascii.eqb Bool.eqb]. done. }
    exists d. rewrite G2 by done. done.
  - intros [v Hv]. exists (normalize_category self lower v).
    rewrite G2, G1, G0 by done. cbn [String.eqb Ascii.eqb Bool.eqb].
    by rewrite Hv.
Qed.

Lemma partial_match_in table s v :
  TextCleaner.partial_match table s = Some v → ∃ k, (k, v) ∈ table.
Proof.
  induction table as [|[k0 v0] table IH]; cbn [TextCleaner.partial_match]; [done|].
  destruct (Str.contains k0 s).
  - intros [= ->]. exists k0. apply list_elem_of_here.
  - intros H. destruct (IH H) as [k Hk]. exists k. by apply list_elem_of_further.
Qed.

(** [normalize_category] returns the default category or a value of the
    table, whatever it is given. *)
Theorem normalize_category_in_table c :
  normalize_category self lower c = default_category self
  ∨ ∃ k, (k, normalize_category self lower c) ∈ category_mapping self.
Proof.
  unfold normalize_category.
  destruct (negb (Py.truthy c)); [by left|].
  destruct (Dict.get _ (category_mapping self)) as [v|] eqn:E.
  - right. eexists. by apply elem_of_get.
  - destruct (TextCleaner.partial_match _ _) as [v|] eqn:E'; [|by left].
    right. by apply partial_match_in in E'.
Qed.

End NormalizerFields.

Lemma normalize_product_fields_witness :
  ∃ q,
    ProductNormalizer.normalize_product ProductNormalizer.default_config
      (TextCleaner.lower ascii_tables)
      [("sku", Py.VStr "A"); ("category", Py.VStr "Shirts"); ("price", Py.VStr "$1,234.56");
       ("stock", Py.VStr "-3")] = Ok q
    ∧ Dict.keys q = ["sku"; "category"; "price"; "stock"]
    ∧ ∃ n, Dict.get "stock" q = Some (Py.VInt n) ∧ 0 ≤ n.
Proof.
  eexists. split; [vm_compute; reflexivity|].
  destruct (normalize_product_fields ProductNormalizer.default_config
              (TextCleaner.lower ascii_tables)
              [("sku", Py.VStr "A"); ("category", Py.VStr "Shirts");
               ("price", Py.VStr "$1,234.56"); ("stock", Py.VStr "-3")]
              _ eq_refl) as (Hk & _ & Hs & _).
  split; [exact Hk|]. apply Hs. by eexists.
Defined.

Section CategoryFixpoint.

Import ProductNormalizer.

Variable lower : string → string.

Lemma fixed_category_spec v :
  fixed_category v = true → lower v = v →
  normalize_category default_config lower (Py.VStr v) = v.
Proof.
  unfold fixed_category, normalize_category. intros H Hlow.
  apply andb_true_iff in H as [H H3]. apply andb_true_iff in H as [H1 H2].
  apply String.eqb_eq in H2. cbn [Py.truthy Py.str]. rewrite H1. cbn [negb].
  rewrite H2, Hlow.
  change (category_mapping default_config) with DEFAULT_CATEGORY_MAPPING.
  change (default_category default_config) with "otros".
  destruct (Dict.get v DEFAULT_CATEGORY_MAPPING).
  - by apply String.eqb_eq.
  - destruct (TextCleaner.partial_match DEFAULT_CATEGORY_MAPPING v); by apply String.eqb_eq.
Qed.

(** Under the default table a category that is already normalised is
    left as it is: normalising twice gives what normalising once gives.
    [str.lower] is only asked to leave the twenty canonical names, which are
    in lower case, unchanged. *)
Theorem normalize_category_idempotent c :
  Forall (λ v, lower v = v) canonical_categories →
  normalize_category default_config lower
    (Py.VStr (normalize_category default_config lower c))
  = normalize_category default_config lower c.
Proof.
  intros Hlow.
  assert (normalize_category default_config lower c ∈ canonical_categories) as Hin.
  { destruct (normalize_category_in_table default_config lower c) as [-> |[k Hk]].
    - apply list_elem_of_here.
    - apply list_elem_of_further. apply list_elem_of_fmap.
      by exists (k, normalize_category default_config lower c). }
  set (v := normalize_category default_config lower c) in *. clearbody v.
  apply fixed_category_spec.
  - assert (forallb fixed_category canonical_categories = true) as Hall
      by (vm_compute; reflexivity).
    rewrite forallb_forall in Hall. apply Hall. by apply list_elem_of_In.
  - by apply (proj1 (Forall_forall _ _) Hlow).
Qed.

End CategoryFixpoint.

Lemma normalize_category_idempotent_witness :
  ProductNormalizer.normalize_category ProductNormalizer.default_config
    (TextCleaner.lower ascii_tables)
    (Py.VStr (ProductNormalizer.normalize_category ProductNormalizer.default_config
                (TextCleaner.lower ascii_tables) (Py.VStr "  Blue JEANS ")))
  = ProductNormalizer.normalize_category ProductNormalizer.default_config
      (TextCleaner.lower ascii_tables) (Py.VStr "  Blue JEANS ").
Proof.
  apply (normalize_category_idempotent (TextCleaner.lower ascii_tables)).
  apply Forall_forall. intros v Hv.
  assert (forallb (λ v, String.eqb (TextCleaner.lower ascii_tables v) v)
            canonical_categories = true) as Hall by (vm_compute; reflexivity).
  rewrite forallb_forall in Hall. apply String.eqb_eq, Hall. by apply list_elem_of_In.
Defined.

(** ** More on duplicates and prices *)

Section OtherStrategies.

Import ProductNormalizer.

Variable self : config.
Variable merge_fn :
  option (list (string * Py.value) → list (string * Py.value)
          → outcome (list (string * Py.value))).

Implicit Types (d : list (string * list (string * Py.value))).
Implicit Types (p : list (string * Py.value)) (s : string).
Implicit Types (products : list (list (string * Py.value))).

Lemma handle_step_new p d :
  keyed p → Dict.get (sku_of p) d = None →
  handle_step self "sku" merge_fn (str_keys d) p
  = Ok (str_keys (d ++ [(sku_of p, p)])).
Proof.
  intros Hp Hnew. unfold handle_step, Py.get_or_none. rewrite Hp.
  cbn [Py.is_none Py.hashable negb]. rewrite seen_get_str, Hnew, seen_set_str.
  by rewrite set_absent.
Qed.

Lemma handle_step_keep p d e :
  keyed p → Dict.get (sku_of p) d = Some e →
  duplicate_strategy self ≠ "keep_latest" → duplicate_strategy self ≠ "merge" →
  handle_step self "sku" merge_fn (str_keys d) p = Ok (str_keys d).
Proof.
  intros Hp Hold H1 H2. unfold handle_step, Py.get_or_none. rewrite Hp.
  cbn [Py.is_none Py.hashable negb]. rewrite seen_get_str, Hold.
  destruct (String.eqb (duplicate_strategy self) "keep_first"); [done|].
  destruct (String.eqb_spec (duplicate_strategy self) "keep_latest"); [done|].
  destruct (String.eqb_spec (duplicate_strategy self) "merge"); done.
Qed.

Lemma keep_first_loop products d :
  Forall keyed products →
  duplicate_strategy self ≠ "keep_latest" → duplicate_strategy self ≠ "merge" →
  ∃ d',
    handle_loop self "sku" merge_fn products (str_keys d) = Ok (str_keys d')
    ∧ Dict.keys d' = fold_left add_new (map sku_of products) (Dict.keys d)
    ∧ ∀ s, Dict.get s d'
           = match Dict.get s d with
             | Some e => Some e
             | None => head (group s products)
             end.
Proof.
  intros Hk H1 H2. revert d. induction Hk as [|p products Hp Hk IH]; intros d.
  - exists d. split_and!; [done|done|]. intros s. by destruct (Dict.get s d).
  - destruct (Dict.get (sku_of p) d) as [e|] eqn:Hold.
    + destruct (IH d) as (d' & Hloop & Hkeys & Hget). exists d'. split_and!.
      * cbn [handle_loop]. by rewrite (handle_step_keep p d e).
      * cbn [map fold_left]. rewrite Hkeys. f_equal. unfold add_new.
        rewrite bool_decide_eq_true_2; [done|].
        apply dec_stable. intros Hn. apply get_None_keys in Hn. congruence.
      * intros s. rewrite Hget, group_cons.
        destruct (decide (sku_of p = s)) as [<- |Hne]; [by rewrite Hold|done].
    + destruct (IH (d ++ [(sku_of p, p)])) as (d' & Hloop & Hkeys & Hget).
      exists d'. split_and!.
      * cbn [handle_loop]. by rewrite handle_step_new.
      * cbn [map fold_left]. rewrite Hkeys. f_equal.
        rewrite <- (set_absent _ p) by done. apply keys_set_order.
      * intros s. rewrite Hget, group_cons.
        rewrite <- (set_absent _ p) by done. rewrite get_set.
        destruct (String.eqb_spec (sku_of p) s) as [<- |Hne].
        -- rewrite decide_True, Hold by done. done.
        -- by rewrite decide_False.
Qed.

(** Under [keep_first], and under any strategy that is none of the three
    names (which the code takes without complaint), [handle_duplicates]
    returns for each sku, in the order of first occurrence, the first
    record of the list that carries it. *)
Theorem handle_duplicates_keep_first products :
  Forall keyed products →
  duplicate_strategy self ≠ "keep_latest" → duplicate_strategy self ≠ "merge" →
  ∃ out,
    handle_duplicates self products "sku" merge_fn = Ok out
    ∧ Forall2 (λ s m, head (group s products) = Some m)
        (distinct (map sku_of products)) out.
Proof.
  intros Hk H1 H2.
  destruct (keep_first_loop products [] Hk H1 H2) as (d' & Hloop & Hkeys & Hget).
  cbn [str_keys map] in Hloop. exists (map snd d'). split.
  - unfold handle_duplicates. rewrite Hloop. cbn [bind]. by rewrite map_snd_str_keys.
  - change (fold_left add_new (map sku_of products) (Dict.keys []))
      with (distinct (map sku_of products)) in Hkeys.
    rewrite <- Hkeys. apply Forall2_entries. intros s m Hin.
    apply get_of_elem in Hin; [|rewrite Hkeys; apply distinct_NoDup].
    by rewrite Hget in Hin.
Qed.

(** Records whose skus are pairwise distinct pass [handle_duplicates]
    unchanged and in their order, under every strategy. *)
Theorem handle_duplicates_distinct products :
  Forall keyed products → NoDup (map sku_of products) →
  handle_duplicates self products "sku" merge_fn = Ok products.
Proof.
  intros Hk Hnd.
  assert (∀ d, (∀ p, p ∈ products → Dict.get (sku_of p) d = None) →
            handle_loop self "sku" merge_fn products (str_keys d)
            = Ok (str_keys (d ++ map (λ p, (sku_of p, p)) products))) as Hloop.
  { induction Hk as [|p products Hp Hk IH]; intros d Hd.
    - cbn. by rewrite app_nil_r.
    - cbn [map] in Hnd. apply NoDup_cons in Hnd as [Hp' Hnd].
      cbn [handle_loop]. rewrite handle_step_new; [|done|apply Hd, list_elem_of_here].
      cbn [bind]. rewrite IH; [by rewrite <- app_assoc|done|].
      intros p' Hp''. rewrite <- (set_absent _ p) by apply Hd, list_elem_of_here.
      rewrite get_set_ne; [by apply Hd, list_elem_of_further|].
      intros Heq. apply Hp'. rewrite Heq. by apply list_elem_of_fmap_2. }
  unfold handle_duplicates. specialize (Hloop [] (λ _ _, eq_refl)).
  cbn [str_keys map app] in Hloop. rewrite Hloop. cbn [bind]. f_equal.
  change (map snd (str_keys (map (λ p, (sku_of p, p)) products)) = products).
  rewrite map_snd_str_keys, map_map. apply map_id.
Qed.

(** A record without the key field, or with a null one, is left out, and
    the result is what the other records alone give: this for every
    strategy, key field and merge function. *)
Theorem handle_duplicates_ignores_keyless key_field products :
  handle_duplicates self products key_field merge_fn
  = handle_duplicates self (List.filter (has_key key_field) products) key_field merge_fn.
Proof.
  unfold handle_duplicates. f_equal.
  generalize (@nil (Py.value * list (string * Py.value))) as seen.
  induction products as [|p products IH]; intros seen; [done|].
  cbn [List.filter]. unfold has_key at 1.
  destruct (Py.is_none (Py.get_or_none key_field p)) eqn:Hnone; cbn [negb].
  - cbn [handle_loop]. unfold handle_step at 1. rewrite Hnone. cbn [bind]. apply IH.
  - cbn [handle_loop]. destruct (handle_step self key_field merge_fn seen p); cbn [bind];
      [apply IH|done].
Qed.

Lemma seen_set_length (k : Py.value) (v : list (string * Py.value)) (seen : seen_t) :
  (length (seen_set k v seen) ≤ S (length seen))%nat.
Proof.
  induction seen as [|[k' v'] seen IH]; cbn [seen_set length]; [lia|].
  destruct (Py.key_eqb k' k); cbn [length]; lia.
Qed.

Lemma seen_set_length_present (k : Py.value) (v e : list (string * Py.value))
    (seen : seen_t) :
  seen_get k seen = Some e → length (seen_set k v seen) = length seen.
Proof.
  induction seen as [|[k' v'] seen IH]; cbn [seen_get seen_set length]; [done|].
  destruct (Py.key_eqb k' k); cbn [length]; [done|]. intros H. by rewrite IH.
Qed.

(** [handle_duplicates] never returns more records than it was given. *)
Theorem handle_duplicates_length key_field products out :
  handle_duplicates self products key_field merge_fn = Ok out →
  (length out ≤ length products)%nat.
Proof.
  unfold handle_duplicates.
  assert (∀ seen seen', handle_loop self key_field merge_fn products seen = Ok seen' →
            (length seen' ≤ length seen + length products)%nat) as Hloop.
  { induction products as [|p products IH]; intros seen seen'; cbn [handle_loop].
    - intros [= <-]. cbn [length]. lia.
    - destruct (handle_step self key_field merge_fn seen p) as [seen1|] eqn:Hstep;
        cbn [bind]; [|done].
      intros Hrest. apply IH in Hrest. cbn [length].
      assert (length seen1 ≤ S (length seen))%nat; [|lia].
      unfold handle_step in Hstep.
      destruct (Py.is_none _); [injection Hstep as <-; lia|].
      destruct (negb _); [done|].
      destruct (seen_get _ seen) as [e|] eqn:Hget.
      + repeat (case_match; simplify_eq); try lia;
          try (rewrite (seen_set_length_present _ _ e) by done; lia).
        all: unfold bind in Hstep; case_match; simplify_eq;
          rewrite (seen_set_length_present _ _ e) by done; lia.
      + injection Hstep as <-. apply seen_set_length. }
  destruct (handle_loop self key_field merge_fn products []) as [seen'|] eqn:E;
    cbn [bind]; [|done].
  intros [= <-]. rewrite length_map. apply Hloop in E. cbn [length] in E. lia.
Qed.

(** *** Prices *)

Lemma fix_fin_exponent neg q e' :
  Dec.Etiny ≤ e' ≤ Dec.Emax → Dec.ndigits q ≤ Dec.prec →
  (q ≠ 0 → Dec.adjusted q e' ≤ Dec.Emax) →
  Dec.fix_fin neg q e' = Ok (Dec.DFin neg q e').
Proof.
  intros He Hq Hadj. unfold Dec.fix_fin.
  destruct (Z.eqb_spec q 0) as [-> |Hq0].
  - f_equal. f_equal. lia.
  - specialize (Hadj Hq0). unfold Dec.adjusted in Hadj.
    assert ((Dec.Etop <? Dec.ndigits q + e' - Dec.prec) = false) as ->.
    { apply Z.ltb_ge. unfold Dec.Etop. lia. }
    assert ((e' <? Z.max (Dec.ndigits q + e' - Dec.prec) Dec.Etiny) = false) as ->.
    { apply Z.ltb_ge. lia. }
    done.
Qed.

Lemma quantize_exponent a e' (x : Dec.decimal) :
  Dec.quantize_half_up a e' = Ok x →
  x = Dec.DNaN ∨ ∃ neg c, x = Dec.DFin neg c e'.
Proof.
  unfold Dec.quantize_half_up. destruct a as [neg c e| |]; [|done|by left; simplify_eq].
  destruct (negb _) eqn:Hrange; [done|].
  apply negb_false_iff, andb_true_iff in Hrange as [H1 H2].
  apply Z.leb_le in H1, H2.
  destruct (c =? 0).
  - rewrite fix_fin_exponent; [|lia|vm_compute; discriminate|done].
    intros [= <-]. right. eauto.
  - destruct (Dec.Emax <? Dec.adjusted c e); [done|].
    destruct (Dec.prec <? Dec.adjusted c e - e' + 1); [done|].
    destruct (Z.ltb_spec Dec.Emax (Dec.adjusted (Dec.rescale_half_up c e e') e')); [done|].
    destruct (Z.ltb_spec Dec.prec (Dec.ndigits (Dec.rescale_half_up c e e'))); [done|].
    rewrite fix_fin_exponent by (done || lia).
    intros [= <-]. right. eauto.
Qed.

(** A price that [normalize_price] returns is never infinite.  It is a
    NaN (when the input is one), the zero that stands for a missing or
    unreadable price, or a number with exactly [price_decimals] decimal
    places. *)
Theorem normalize_price_decimals price (x : Dec.decimal) :
  normalize_price self price = Ok x →
  x = Dec.DNaN ∨ x = Dec.DFin false 0 0
  ∨ ∃ neg c, x = Dec.DFin neg c (- Z.max 0 (price_decimals self)).
Proof.
  unfold normalize_price. destruct (Py.is_none price); [intros [= <-]; right; by left|].
  unfold try_except.
  destruct (Py.decimal_of_str _) as [p|]; cbn [bind]; [|intros [= <-]; right; by left].
  destruct (Dec.mul p (price_multiplier self)) as [m|]; cbn [bind]; [|done].
  intros H. apply quantize_exponent in H as [-> |(neg & c & ->)]; [by left|].
  right; right. eauto.
Qed.

End OtherStrategies.

Lemma handle_duplicates_keep_first_witness :
  ∃ out,
    ProductNormalizer.handle_duplicates (ProductNormalizer.with_strategy "newest")
      [stock_record "A" 10; stock_record "A" 20] "sku" None = Ok out
    ∧ Forall2 (λ s m, head (group s [stock_record "A" 10; stock_record "A" 20]) = Some m)
        ["A"] out.
Proof.
  apply (handle_duplicates_keep_first (ProductNormalizer.with_strategy "newest") None
           [stock_record "A" 10; stock_record "A" 20]).
  - repeat constructor.
  - discriminate.
  - discriminate.
Defined.

Lemma handle_duplicates_distinct_witness :
  ProductNormalizer.handle_duplicates (ProductNormalizer.with_strategy "merge")
    [stock_record "A" 10; stock_record "B" 20] "sku" None
  = Ok [stock_record "A" 10; stock_record "B" 20].
Proof.
  apply (handle_duplicates_distinct (ProductNormalizer.with_strategy "merge") None
           [stock_record "A" 10; stock_record "B" 20]).
  - repeat constructor.
  - apply (bool_decide_unpack _). vm_compute. exact I.
Defined.

Lemma handle_duplicates_length_witness :
  (length [stock_record "A" 30] ≤ length [stock_record "A" 10; stock_record "A" 20])%nat.
Proof.
  apply (handle_duplicates_length (ProductNormalizer.with_strategy "merge") None "sku"
           [stock_record "A" 10; stock_record "A" 20]).
  vm_compute. reflexivity.
Defined.

Lemma normalize_price_decimals_witness :
  Dec.DFin false 123 (-2) = Dec.DNaN
  ∨ Dec.DFin false 123 (-2) = Dec.DFin false 0 0
  ∨ ∃ neg c, Dec.DFin false 123 (-2) = Dec.DFin neg c (- Z.max 0 2).
Proof.
  apply (normalize_price_decimals ProductNormalizer.default_config (Py.VStr "1.234,56")).
  vm_compute. reflexivity.
Defined.

(** ** More on the generator and the index *)

Section Slices.

Local Open Scope nat_scope.

Context {A : Type}.
Implicit Types (l : list A) (step : nat).

Lemma slices_cover_upto step m l :
  length l ≤ m * step →
  flat_map (λ i, take step (drop i l)) (map (λ k, k * step) (seq 0 m)) = l.
Proof.
  revert l. induction m as [|m IH]; intros l Hlen.
  - destruct l; [done|]. cbn in Hlen. lia.
  - cbn [seq map flat_map]. rewrite <- seq_shift, map_map.
    assert (∀ ks,
              flat_map (λ i, take step (drop i l)) (map (λ k, S k * step) ks)
              = flat_map (λ i, take step (drop i (drop step l)))
                         (map (λ k, k * step) ks)) as Hshift.
    { induction ks as [|k ks IHk]; [done|]. cbn [map flat_map]. f_equal; [|exact IHk].
      by rewrite drop_drop. }
    rewrite Hshift, IH by (rewrite length_drop; lia).
    cbn [Nat.mul drop]. apply take_drop.
Qed.

Lemma slices_cover step l :
  0 < step →
  flat_map (λ i, take step (drop i l)) (EmbeddingGenerator.range_step (length l) step) = l.
Proof.
  intros Hstep. apply slices_cover_upto.
  pose proof (Nat.div_mod_eq (length l + step - 1) step) as Hdm.
  pose proof (Nat.mod_upper_bound (length l + step - 1) step) as Hub.
  lia.
Qed.

Lemma Forall2_flat_map {B C} (R : B → C → Prop) (f : A → list B) (g : A → list C)
    (starts : list A) :
  (∀ i, Forall2 R (f i) (g i)) → Forall2 R (flat_map f starts) (flat_map g starts).
Proof.
  intros H. induction starts as [|i starts IH]; cbn [flat_map]; [constructor|].
  by apply Forall2_app.
Qed.

End Slices.

Section GeneratorAnswers.

Local Open Scope nat_scope.

Variable call_voyage_api : nat → list string → outcome (list (list float64)).

Lemma zip_records_embeds batch embeddings :
  length embeddings = length batch →
  Forall2 embeds batch
    (EmbeddingGenerator.zip_records batch embeddings
       (map EmbeddingGenerator.build_embedding_text batch)).
Proof.
  revert embeddings. induction batch as [|p batch IH]; intros [|v vs] Hlen; try done.
  injection Hlen as Hlen. cbn [map EmbeddingGenerator.zip_records].
  constructor; [|by apply IH]. by repeat split.
Qed.

Lemma zip_records_prefix batch embeddings :
  let records :=
    EmbeddingGenerator.zip_records batch embeddings
      (map EmbeddingGenerator.build_embedding_text batch) in
  length records = length embeddings `min` length batch
  ∧ Forall2 embeds (take (length embeddings) batch) records
  ∧ map emb_vector records = take (length batch) embeddings.
Proof.
  cbn zeta. revert embeddings. induction batch as [|p batch IH]; intros [|v vs];
    cbn [map EmbeddingGenerator.zip_records length take Nat.min]; try by repeat constructor.
  destruct (IH vs) as (H1 & H2 & H3). split_and!.
  - by rewrite H1.
  - constructor; [by repeat split|done].
  - by rewrite H3.
Qed.

(** When every call answers with one vector per text, the batch yields
    the record of every product, one each and in the order of the
    products. *)
Theorem generate_embeddings_batch_complete (batch_size : Z) (products : list ProductDB) :
  (0 < batch_size)%Z → answers call_voyage_api →
  ∃ out,
    EmbeddingGenerator.generate_embeddings_batch call_voyage_api batch_size products = Ok out
    ∧ Forall2 embeds products out.
Proof.
  intros Hpos Hans. unfold EmbeddingGenerator.generate_embeddings_batch.
  destruct (Z.eqb_spec batch_size 0); [lia|].
  destruct (Z.ltb_spec batch_size 0); [lia|].
  eexists. split; [reflexivity|].
  set (step := Z.to_nat batch_size). assert (0 < step) as Hstep by (unfold step; lia).
  rewrite <- (chunks_cover step products Hstep) at 1.
  apply Forall2_flat_map. intros i. unfold EmbeddingGenerator.chunk_records.
  destruct (Hans (i / step)
              (map EmbeddingGenerator.build_embedding_text
                 (EmbeddingGenerator.batch_at products step i))) as (vs & -> & Hlen).
  cbn [bind try_except]. apply zip_records_embeds. by rewrite Hlen, length_map.
Qed.

(** An answer with fewer vectors than texts is taken without complaint:
    the chunk yields the records of its first products, as many as there
    are vectors, and the other products of the chunk get none; vectors in
    excess are ignored. *)
Theorem chunk_records_short_answer (products : list ProductDB) (step i : nat)
    (vectors : list (list float64)) :
  let chunk := EmbeddingGenerator.batch_at products step i in
  let records := EmbeddingGenerator.chunk_records call_voyage_api products step i in
  call_voyage_api (i / step) (map EmbeddingGenerator.build_embedding_text chunk)
  = Ok vectors →
  length records = length vectors `min` length chunk
  ∧ Forall2 embeds (take (length vectors) chunk) records
  ∧ map emb_vector records = take (length chunk) vectors.
Proof.
  cbn zeta. intros Hcall. unfold EmbeddingGenerator.chunk_records. rewrite Hcall.
  cbn [bind try_except]. apply zip_records_prefix.
Qed.

End GeneratorAnswers.

Lemma generate_embeddings_batch_complete_witness :
  ∃ out,
    EmbeddingGenerator.generate_embeddings_batch (λ _ texts, Ok (map (λ _, [1; 2]%Z) texts)) 2
      [example_row "A"; example_row "B"; example_row "C"] = Ok out
    ∧ Forall2 embeds [example_row "A"; example_row "B"; example_row "C"] out.
Proof.
  apply (generate_embeddings_batch_complete (λ _ texts, Ok (map (λ _, [1; 2]%Z) texts)) 2
           [example_row "A"; example_row "B"; example_row "C"]).
  - lia.
  - intros k texts. eexists. split; [reflexivity|]. apply length_map.
Defined.

Lemma chunk_records_short_answer_witness :
  let call := λ (_ : nat) (texts : list string), Ok (take 1 (map (λ _, [1; 2]%Z) texts)) in
  let records :=
    EmbeddingGenerator.chunk_records call [example_row "A"; example_row "B"] 2 0 in
  length records = 1%nat ∧ Forall2 embeds [example_row "A"] records.
Proof.
  intros call records.
  destruct (chunk_records_short_answer call [example_row "A"; example_row "B"] 2 0
              [[1; 2]%Z] eq_refl) as (H1 & H2 & _).
  split; [exact H1|exact H2].
Defined.

Section IndexInMemory.

Variable to_float : Dec.decimal → float64.

Implicit Types (pts : list Qdrant.point) (pt : Qdrant.point) (s : string).
Implicit Types (embs : list ProductEmbedding).

Lemma hashes_of_lookup pts (hashes : gmap string string) s :
  hashes_of pts hashes !! s
  = match last (entries s pts) with
    | Some h => Some h
    | None => hashes !! s
    end.
Proof.
  revert hashes. induction pts as [|pt pts IH]; intros hashes; [done|].
  change (hashes_of (pt :: pts) hashes)
    with (hashes_of pts (Qdrant.add_hash hashes (view pt))).
  rewrite IH, add_hash_view. unfold entries. cbn [omap list_omap].
  fold (entries s pts). unfold entry_for.
  destruct (indexed_entry pt) as [[s' h]|].
  - destruct (String.eqb_spec s' s) as [-> |Hne].
    + rewrite last_cons. destruct (last (entries s pts)); [done|].
      apply lookup_insert_eq.
    + destruct (last (entries s pts)); [done|]. by apply lookup_insert_ne.
  - done.
Qed.

(** [get_existing_hashes] reads the whole index, page after page, and
    leaves it as it is; the hash it reports for a sku is that of the last
    point that carries the sku together with a hash, both non-empty, and a
    sku that no such point carries is not reported. *)
Theorem get_existing_hashes_last_wins pts :
  ∃ hashes,
    Qdrant.mem_get_existing_hashes pts = (Ok hashes, pts)
    ∧ ∀ s, hashes !! s = last (entries s pts).
Proof.
  exists (hashes_of pts ∅). split; [apply mem_get_existing_hashes_spec|].
  intros s. rewrite hashes_of_lookup. by destruct (last (entries s pts)).
Qed.

Lemma upsert_loop embs (bs : nat) (starts : list nat) (processed : Z) pts :
  foldM (λ processed i,
           let batch := take bs (drop i embs) in
           bindM (Qdrant.upsert Qdrant.mem_client (map (Qdrant.point_of to_float) batch))
                 (λ _, ret (processed + Z.of_nat (length batch))))
        starts processed pts
  = (Ok (processed
         + Z.of_nat (length (flat_map (λ i, take bs (drop i embs)) starts))),
     put_all to_float (flat_map (λ i, take bs (drop i embs)) starts) pts).
Proof.
  revert processed pts. induction starts as [|i starts IH]; intros processed pts.
  - cbn. unfold ret. f_equal. f_equal. lia.
  - cbn [foldM flat_map]. unfold bindM at 1. cbn zeta.
    unfold bindM at 1. cbn [Qdrant.upsert Qdrant.mem_client]. unfold Qdrant.mem_upsert at 1.
    cbn [ret]. rewrite IH. f_equal.
    + f_equal. rewrite length_app. lia.
    + unfold put_all. by rewrite map_app, fold_left_app.
Qed.

(** With a positive chunk size [upsert_batch] returns the number of
    embeddings and leaves the index as if the points had been put one by
    one in their order: the size of the chunks makes no difference.  A
    negative size stores nothing and returns zero. *)
Theorem upsert_batch_in_memory embs (batch_size : Z) pts :
  (0 < batch_size →
     Qdrant.upsert_batch Qdrant.mem_client to_float embs batch_size pts
     = (Ok (Z.of_nat (length embs)), put_all to_float embs pts))
  ∧ (batch_size < 0 →
     Qdrant.upsert_batch Qdrant.mem_client to_float embs batch_size pts = (Ok 0, pts)).
Proof.
  unfold Qdrant.upsert_batch. split; intros Hbs.
  - destruct (Z.eqb_spec batch_size 0); [lia|].
    destruct (Z.ltb_spec batch_size 0); [lia|].
    rewrite upsert_loop. rewrite slices_cover by lia. f_equal.
  - destruct (Z.eqb_spec batch_size 0); [lia|].
    destruct (Z.ltb_spec batch_size 0); [done|lia].
Qed.

End IndexInMemory.

(** ** Runs of the embedding pipeline on the two stores in memory *)

Section HashText.

Lemma compress_length h block : length h = 8%nat → length (SHA256.compress h block) = 8%nat.
Proof.
  intros Hh. unfold SHA256.compress.
  do 9 (destruct h as [|? h]; try discriminate). reflexivity.
Qed.

Lemma digest_length msg : length (SHA256.digest msg) = 8%nat.
Proof.
  unfold SHA256.digest. generalize (SHA256.blocks (length (SHA256.pad msg) / 64) (SHA256.pad msg)).
  assert (length SHA256.H0 = 8%nat) as H0 by (vm_compute; reflexivity).
  revert H0. generalize SHA256.H0.
  intros h Hh l. revert h Hh. induction l as [|b l IH]; intros h Hh; [done|].
  cbn [fold_left]. apply IH. by apply compress_length.
Qed.

Lemma hexdigest_not_empty s : Str.is_empty (SHA256.hexdigest s) = false.
Proof.
  unfold SHA256.hexdigest.
  pose proof (digest_length (SHA256.bytes_of_string s)) as Hlen.
  destruct (SHA256.digest _) as [|w ws]; [discriminate|]. reflexivity.
Qed.

End HashText.

Lemma NoDup_map_inj {A B : Type} (f : A → B) (l : list A) (x y : A) :
  NoDup (map f l) → x ∈ l → y ∈ l → f x = f y → x = y.
Proof.
  induction l as [|r rs IH]; intros Hs Hx Hy Heq; [by apply elem_of_nil in Hx|].
  cbn [map] in Hs. apply NoDup_cons in Hs as [Hr Hs].
  apply elem_of_cons in Hx as [-> |Hx]; apply elem_of_cons in Hy as [-> |Hy]; try done.
  - exfalso. apply Hr. rewrite Heq. by apply list_elem_of_fmap_2.
  - exfalso. apply Hr. rewrite <- Heq. by apply list_elem_of_fmap_2.
  - by apply IH.
Qed.

Section Alignment.

Variable to_float : Dec.decimal → float64.
Variable rows : list ProductDB.
Hypothesis Hregular : regular rows.

Implicit Types (pts acc : list Qdrant.point) (pt : Qdrant.point) (p : ProductDB).
Implicit Types (e : ProductEmbedding) (s : string).

Lemma same_sku_same_row p p' : p ∈ rows → p' ∈ rows → sku p = sku p' → p = p'.
Proof. destruct Hregular as (Hs & _ & _). by apply NoDup_map_inj. Qed.

Lemma same_id_same_row p p' : p ∈ rows → p' ∈ rows → id p = id p' → p = p'.
Proof. destruct Hregular as (_ & Hs & _). by apply NoDup_map_inj. Qed.

Lemma sku_not_empty p : p ∈ rows → Str.is_empty (sku p) = false.
Proof.
  destruct Hregular as (_ & _ & Hne). intros Hp.
  apply (proj1 (Forall_forall _ _) Hne) in Hp. by destruct (sku p).
Qed.

Lemma prefixed_inj (a b : string) : "product-" +:+ a = "product-" +:+ b → a = b.
Proof. intros H. by injection H. Qed.

Lemma entry_for_sku s pt h : entry_for s pt = Some h → point_sku pt = Some s.
Proof.
  unfold entry_for, indexed_entry, point_sku.
  destruct (Dict.get "sku" _) as [[| | | |s']|]; try done.
  destruct (Dict.get "text_hash" _) as [[| | | |h']|]; try done.
  destruct (_ && _); [|done].
  destruct (String.eqb_spec s' s) as [-> |]; done.
Qed.

Lemma entries_none s pts :
  (∀ pt, pt ∈ pts → point_sku pt ≠ Some s) → entries s pts = [].
Proof.
  unfold entries. induction pts as [|pt pts IH]; intros H; [done|].
  cbn [omap list_omap]. destruct (entry_for s pt) as [h|] eqn:E.
  - exfalso. apply (H pt); [apply list_elem_of_here|]. by eapply entry_for_sku.
  - apply IH. intros pt' Hpt'. apply H. by apply list_elem_of_further.
Qed.

Lemma point_of_sku p e : embeds p e → point_sku (Qdrant.point_of to_float e) = Some (sku p).
Proof.
  intros (_ & Hs & _). unfold point_sku.
  cbn [Qdrant.point_of Qdrant.pt_payload Dict.get String.eqb Ascii.eqb Bool.eqb].
  by rewrite Hs.
Qed.

Lemma point_of_id p e :
  embeds p e → Qdrant.pt_id (Qdrant.point_of to_float e) = "product-" +:+ id p.
Proof. by intros (Hi & _). Qed.

Lemma point_of_entry p e s :
  p ∈ rows → embeds p e →
  entry_for s (Qdrant.point_of to_float e)
  = if String.eqb (sku p) s then Some (compute_text_hash p) else None.
Proof.
  intros Hp He. pose proof He as (_ & Hs & _ & _ & _ & _ & _ & Hh).
  unfold entry_for, indexed_entry.
  cbn [Qdrant.point_of Qdrant.pt_payload Dict.get String.eqb Ascii.eqb Bool.eqb].
  rewrite Hs, Hh.
  unfold compute_text_hash at 1. rewrite hexdigest_not_empty, (sku_not_empty p Hp).
  done.
Qed.

Lemma elem_of_put_point pt pt' acc :
  pt' ∈ Qdrant.put_point pt acc → pt' = pt ∨ pt' ∈ acc.
Proof.
  induction acc as [|x acc IH]; cbn [Qdrant.put_point].
  - rewrite list_elem_of_singleton. by left.
  - destruct (String.eqb (Qdrant.pt_id x) (Qdrant.pt_id pt)); rewrite !elem_of_cons.
    + intros [-> |H]; [by left|right; by right].
    + intros [-> |H]; [right; by left|].
      destruct (IH H) as [?|?]; [by left|right; by right].
Qed.

Lemma ids_put_point pt acc x :
  x ∈ map Qdrant.pt_id (Qdrant.put_point pt acc) → x = Qdrant.pt_id pt ∨ x ∈ map Qdrant.pt_id acc.
Proof.
  intros H. apply list_elem_of_fmap in H as (pt' & -> & H).
  apply elem_of_put_point in H as [-> |H]; [by left|right]. by apply list_elem_of_fmap_2.
Qed.

Lemma NoDup_put_point pt acc :
  NoDup (map Qdrant.pt_id acc) → NoDup (map Qdrant.pt_id (Qdrant.put_point pt acc)).
Proof.
  induction acc as [|x acc IH]; cbn [Qdrant.put_point map]; intros Hnd.
  - apply NoDup_singleton.
  - apply NoDup_cons in Hnd as [Hx Hnd].
    destruct (String.eqb_spec (Qdrant.pt_id x) (Qdrant.pt_id pt)) as [Heq|Hne]; cbn [map].
    + apply NoDup_cons. split; [by rewrite <- Heq|done].
    + apply NoDup_cons. split; [|by apply IH].
      intros Hin. apply ids_put_point in Hin as [?|?]; done.
Qed.

Lemma aligned_tail pt pts : aligned rows (pt :: pts) → aligned rows pts.
Proof.
  intros [Hnd Hal]. split.
  - cbn [map] in Hnd. by apply NoDup_cons in Hnd as [_ ?].
  - intros pt' p Hpt'. apply Hal. by apply list_elem_of_further.
Qed.

Lemma aligned_put_point p e acc :
  p ∈ rows → embeds p e → aligned rows acc →
  aligned rows (Qdrant.put_point (Qdrant.point_of to_float e) acc).
Proof.
  intros Hp He [Hnd Hal]. split; [by apply NoDup_put_point|].
  intros pt' p' Hpt' Hp' Hsku. apply elem_of_put_point in Hpt' as [-> |Hpt'].
  - rewrite (point_of_sku p e He) in Hsku. injection Hsku as Hsku.
    rewrite (point_of_id p e He). f_equal. f_equal. by apply same_sku_same_row.
  - by apply Hal.
Qed.

Lemma put_point_entries p e acc :
  p ∈ rows → embeds p e → aligned rows acc →
  entries (sku p) (Qdrant.put_point (Qdrant.point_of to_float e) acc)
  = [compute_text_hash p]
  ∧ ∀ p', p' ∈ rows → sku p' ≠ sku p →
      entries (sku p') (Qdrant.put_point (Qdrant.point_of to_float e) acc)
      = entries (sku p') acc.
Proof.
  intros Hp He. set (pt := Qdrant.point_of to_float e).
  assert (entry_for (sku p) pt = Some (compute_text_hash p)) as Hown.
  { unfold pt. rewrite (point_of_entry p e _ Hp He). by rewrite String.eqb_refl. }
  assert (∀ p', sku p' ≠ sku p → entry_for (sku p') pt = None) as Hother.
  { intros p' Hne. unfold pt. rewrite (point_of_entry p e _ Hp He).
    destruct (String.eqb_spec (sku p) (sku p')); [congruence|done]. }
  assert (Qdrant.pt_id pt = "product-" +:+ id p) as Hid by by apply point_of_id.
  induction acc as [|x acc IH]; intros Hal.
  - cbn [Qdrant.put_point]. unfold entries. cbn [omap list_omap]. rewrite Hown.
    split; [done|]. intros p' _ Hne. by rewrite (Hother p' Hne).
  - pose proof Hal as [Hnd Hrow]. cbn [map] in Hnd. apply NoDup_cons in Hnd as [Hx Hnd].
    cbn [Qdrant.put_point].
    destruct (String.eqb_spec (Qdrant.pt_id x) (Qdrant.pt_id pt)) as [Heq|Hne].
    + unfold entries. cbn [omap list_omap]. rewrite Hown. split.
      * f_equal. apply entries_none. intros pt' Hpt' Hsku. apply Hx.
        rewrite Heq, Hid. rewrite <- (Hrow pt' p); [|by apply list_elem_of_further|done|done].
        by apply list_elem_of_fmap_2.
      * intros p' Hp' Hsku. rewrite (Hother p' Hsku).
        destruct (entry_for (sku p') x) as [h|] eqn:Ex; [|done].
        exfalso. apply entry_for_sku in Ex.
        pose proof (Hrow x p' (list_elem_of_here _ _) Hp' Ex) as Hidx.
        rewrite Heq, Hid in Hidx. apply prefixed_inj in Hidx.
        apply Hsku. f_equal. symmetry. by apply same_id_same_row.
    + destruct (IH (aligned_tail _ _ Hal)) as [IH1 IH2].
      unfold entries in *. cbn [omap list_omap]. split.
      * destruct (entry_for (sku p) x) as [h|] eqn:Ex; [|exact IH1].
        exfalso. apply entry_for_sku in Ex. apply Hne.
        rewrite (Hrow x p (list_elem_of_here _ _) Hp Ex). by rewrite Hid.
      * intros p' Hp' Hsku. rewrite (IH2 p' Hp' Hsku). done.
Qed.

Lemma put_all_entries l embs acc :
  Forall (λ p, p ∈ rows) l → NoDup (map sku l) → Forall2 embeds l embs →
  aligned rows acc →
  aligned rows (put_all to_float embs acc)
  ∧ (∀ p, p ∈ l → entries (sku p) (put_all to_float embs acc) = [compute_text_hash p])
  ∧ (∀ p', p' ∈ rows → sku p' ∉ map sku l →
       entries (sku p') (put_all to_float embs acc) = entries (sku p') acc).
Proof.
  intros Hl Hnd Hemb. revert acc Hl Hnd.
  induction Hemb as [|p e l embs He Hemb IH]; intros acc Hl Hnd Hal.
  - split_and!; [done| |done]. intros p Hp. by apply elem_of_nil in Hp.
  - apply Forall_cons in Hl as [Hp Hl]. cbn [map] in Hnd.
    apply NoDup_cons in Hnd as [Hp' Hnd].
    destruct (put_point_entries p e acc Hp He Hal) as [E1 E2].
    destruct (IH (Qdrant.put_point (Qdrant.point_of to_float e) acc) Hl Hnd)
      as (A & B & C); [by apply (aligned_put_point p)|].
    change (put_all to_float (e :: embs) acc)
      with (put_all to_float embs (Qdrant.put_point (Qdrant.point_of to_float e) acc)).
    split_and!; [done| |].
    + intros q Hq. apply elem_of_cons in Hq as [-> |Hq]; [|by apply B].
      rewrite C; done.
    + intros q Hq Hsku. cbn [map] in Hsku. apply not_elem_of_cons in Hsku as [Hne Hsku].
      rewrite C by done. by apply E2.
Qed.

End Alignment.
